(** * Bank-statement pipeline: extraction, analysis and dashboard lambdas

    A shallow embedding of the two pipeline lambdas of the repository,
    [lambda/bankextract-package/lambda_function.py] (text extraction and
    transaction analysis) and [lambda/visualize-package/lambda_function.py]
    (dashboard rendering), followed by the properties of the written
    specification that were checked against them.

    Conventions of the embedding:
    - a Python [str] is a list of code points below 256 ([list ascii]);
    - Python [int] is [Z], Python [float] is an IEEE binary64 value
      ([spec_float] with precision 53 and exponent bound 1024);
    - a function that may raise returns a [result];
    - services outside the repository (object storage, OCR, the model
      endpoint, the relational store, the JSON decoder) are fields of an
      environment record, so every statement holds for every behaviour
      of those services. *)

From Stdlib Require Import ZArith String Ascii List Bool Lia.
From Stdlib Require Import Floats.SpecFloat.
From stdpp Require Import base list sorting strings.

Set Warnings "-register-all".

Open Scope string_scope.
Open Scope list_scope.
Open Scope Z_scope.

(** ** Python strings *)

Definition str := list ascii.

(** String literals are written as Rocq strings and read as [str]. *)
Coercion list_ascii_of_string : string >-> list.

Definition len (s : str) : Z := Z.of_nat (length s).

(** [c.isspace()] for a code point below 256. *)
Definition isspace (c : ascii) : bool :=
  let n := Z.of_N (N_of_ascii c) in
  ((9 <=? n) && (n <=? 13)) || ((28 <=? n) && (n <=? 32))
  || (n =? 133) || (n =? 160).

Fixpoint lstrip (s : str) : str :=
  match s with
  | c :: s' => if isspace c then lstrip s' else s
  | [] => []
  end.

Definition rstrip (s : str) : str := rev (lstrip (rev s)).

(** [s.strip()] *)
Definition strip (s : str) : str := rstrip (lstrip s).

(** [s.startswith(p)] *)
Fixpoint startswith (s p : str) : bool :=
  match p, s with
  | [], _ => true
  | a :: p', b :: s' => if Ascii.eqb a b then startswith s' p' else false
  | _ :: _, [] => false
  end.

(** [s.endswith(p)] *)
Definition endswith (s p : str) : bool := startswith (rev s) (rev p).

(** Python's treatment of a slice bound [i] on a sequence of length [n]:
    a negative bound counts from the end, and every bound is clamped. *)
Definition slice_bound (n i : Z) : Z :=
  if i <? 0 then Z.max 0 (n + i) else Z.min i n.

(** [s[a:b]] *)
Definition slice {A} (s : list A) (a b : Z) : list A :=
  let n := Z.of_nat (length s) in
  let a' := slice_bound n a in
  let b' := slice_bound n b in
  take (Z.to_nat (b' - a')) (drop (Z.to_nat a') s).

(** [s[a:]] *)
Definition slice_from {A} (s : list A) (a : Z) : list A :=
  drop (Z.to_nat (slice_bound (Z.of_nat (length s)) a)) s.

(** [s[:b]] *)
Definition slice_to {A} (s : list A) (b : Z) : list A :=
  take (Z.to_nat (slice_bound (Z.of_nat (length s)) b)) s.

(** [s.find(c)] for a one-character needle: index of the first
    occurrence, or [-1]. *)
Fixpoint find (c : ascii) (s : str) : Z :=
  match s with
  | [] => -1
  | x :: s' =>
      if Ascii.eqb x c then 0
      else let r := find c s' in if r <? 0 then -1 else r + 1
  end.

(** [s.rfind(c)]: index of the last occurrence, or [-1]. *)
Definition rfind (c : ascii) (s : str) : Z :=
  let r := find c (rev s) in
  if r <? 0 then -1 else len s - 1 - r.

(** [s.split(sep)] for a one-character separator. *)
Fixpoint split (sep : ascii) (s : str) : list str :=
  match s with
  | [] => [[]]
  | c :: s' =>
      match split sep s' with
      | [] => [[]]
      | w :: ws => if Ascii.eqb c sep then [] :: w :: ws else (c :: w) :: ws
      end
  end.

Definition str_eqb (a b : str) : bool := bool_decide (a = b).

(** ** Exceptions and results *)

Inductive exn :=
| ValueError | TypeError | OverflowError | AttributeError | KeyError
| IndexError
| JSONDecodeError
| ClientError       (* raised by a storage, OCR or model client *)
| DatabaseError.    (* raised by the database driver *)

Inductive result (A : Type) :=
| Ok (a : A)
| Raise (e : exn).
Arguments Ok {A} a.
Arguments Raise {A} e.

Definition bind {A B} (c : result A) (k : A -> result B) : result B :=
  match c with
  | Ok a => k a
  | Raise e => Raise e
  end.

Notation "'let*' x ':=' c 'in' k" := (bind c (fun x => k))
  (at level 10, x name, c at level 100, k at level 200).

Definition is_ok {A} (r : result A) : bool :=
  match r with Ok _ => true | Raise _ => false end.

(** ** Python floats (IEEE binary64) *)

Definition prec : Z := 53.
Definition emax : Z := 1024.

Definition float_zero : spec_float := S754_zero false.

(** [float(z)] for an [int]: round to nearest, ties to even; an [int]
    that rounds beyond the largest double raises [OverflowError]. *)
Definition float_of_int (z : Z) : result spec_float :=
  match binary_normalize prec emax z 0 false with
  | S754_infinity _ => Raise OverflowError
  | f => Ok f
  end.

Definition is_digit (c : ascii) : bool :=
  let n := Z.of_N (N_of_ascii c) in (48 <=? n) && (n <=? 57).

Definition digit_val (c : ascii) : Z := Z.of_N (N_of_ascii c) - 48.

(** Rest of a [digitpart] after its first digit: digits, each optionally
    preceded by one underscore.  Returns the value read so far, the number
    of digits, and the unread suffix. *)
Fixpoint digits_tail (acc : Z) (n : Z) (s : str) : Z * Z * str :=
  match s with
  | c :: s' =>
      if is_digit c then digits_tail (10 * acc + digit_val c) (n + 1) s'
      else if Ascii.eqb c "_" then
        match s' with
        | d :: s'' =>
            if is_digit d then digits_tail (10 * acc + digit_val d) (n + 1) s''
            else (acc, n, s)
        | [] => (acc, n, s)
        end
      else (acc, n, s)
  | [] => (acc, n, [])
  end.

(** [digitpart ::= digit (["_"] digit)*] *)
Definition digitpart (s : str) : option (Z * Z * str) :=
  match s with
  | c :: s' => if is_digit c then Some (digits_tail (digit_val c) 1 s') else None
  | [] => None
  end.

(** Optional sign: [true] for a minus. *)
Definition sign_opt (s : str) : bool * str :=
  match s with
  | c :: s' =>
      if Ascii.eqb c "-" then (true, s')
      else if Ascii.eqb c "+" then (false, s')
      else (false, s)
  | [] => (false, [])
  end.

(** [number ::= [digitpart] "." digitpart | digitpart ["."]]: the digits
    as one integer and the count of digits after the point. *)
Definition number (s : str) : option (Z * Z * str) :=
  match digitpart s with
  | Some (iv, _, r) =>
      match r with
      | c :: r' =>
          if Ascii.eqb c "." then
            match digitpart r' with
            | Some (fv, fn, r'') => Some (iv * 10 ^ fn + fv, fn, r'')
            | None => Some (iv, 0, r')
            end
          else Some (iv, 0, r)
      | [] => Some (iv, 0, [])
      end
  | None =>
      match s with
      | c :: r' =>
          if Ascii.eqb c "." then
            match digitpart r' with
            | Some (fv, fn, r'') => Some (fv, fn, r'')
            | None => None
            end
          else None
      | [] => None
      end
  end.

(** [exponent ::= ("e" | "E") [sign] digitpart]; absent exponent is 0. *)
Definition exponent (s : str) : option (Z * str) :=
  match s with
  | c :: s' =>
      if Ascii.eqb c "e" || Ascii.eqb c "E" then
        let '(neg, r) := sign_opt s' in
        match digitpart r with
        | Some (ev, _, r') => Some (if neg then - ev else ev, r')
        | None => None
        end
      else Some (0, s)
  | [] => Some (0, [])
  end.

(** The double nearest to [m * 10 ^ e10] for [m > 0]. *)
Definition decimal_to_float (neg : bool) (m : positive) (e10 : Z) : spec_float :=
  if 0 <=? e10 then
    binary_normalize prec emax
      ((if neg then Z.neg m else Z.pos m) * 10 ^ e10) 0 false
  else
    SFdiv prec emax (S754_finite neg m 0)
      (S754_finite false (Z.to_pos (10 ^ (- e10))) 0).

Definition lower (c : ascii) : ascii :=
  let n := N_of_ascii c in
  if ((65 <=? n) && (n <=? 90))%N then ascii_of_N (n + 32) else c.

(** White space that [float] removes around its argument. *)
Definition float_space (c : ascii) : bool :=
  let n := Z.of_N (N_of_ascii c) in
  ((9 <=? n) && (n <=? 13)) || (n =? 32) || (n =? 133) || (n =? 160).

Fixpoint drop_while (p : ascii -> bool) (s : str) : str :=
  match s with
  | c :: s' => if p c then drop_while p s' else s
  | [] => []
  end.

(** [float(s)] for a [str]: [ValueError] unless [s], stripped, is a
    [floatvalue] of the language reference. *)
Definition float_of_str (s : str) : result spec_float :=
  let t := rev (drop_while float_space (rev (drop_while float_space s))) in
  let '(neg, r) := sign_opt t in
  let w := map lower r in
  if str_eqb w "inf" || str_eqb w "infinity" then Ok (S754_infinity neg)
  else if str_eqb w "nan" then Ok S754_nan
  else
    match number r with
    | Some (m, fn, r') =>
        match exponent r' with
        | Some (ev, []) =>
            match m with
            | Z.pos p => Ok (decimal_to_float neg p (ev - fn))
            | _ => Ok (S754_zero neg)
            end
        | _ => Raise ValueError
        end
    | None => Raise ValueError
    end.

(** ** Python values decoded from JSON *)

Inductive json :=
| JNull
| JBool (b : bool)
| JInt (z : Z)
| JFloat (f : spec_float)
| JStr (s : str)
| JList (l : list json)
| JDict (d : list (str * json)).

(** Truth value of an object, as tested by [if x] and [not x]. *)
Definition truthy (v : json) : bool :=
  match v with
  | JNull => false
  | JBool b => b
  | JInt z => negb (z =? 0)
  | JFloat (S754_zero _) => false
  | JFloat _ => true
  | JStr s => negb (str_eqb s [])
  | JList l => match l with [] => false | _ => true end
  | JDict d => match d with [] => false | _ => true end
  end.

(** A [dict] keeps its keys in insertion order. *)
Fixpoint lookup_key (k : str) (d : list (str * json)) : option json :=
  match d with
  | [] => None
  | (k', v) :: d' => if str_eqb k k' then Some v else lookup_key k d'
  end.

(** [d[k] = v]: an existing key keeps its place. *)
Fixpoint dict_set (k : str) (v : json) (d : list (str * json)) : list (str * json) :=
  match d with
  | [] => [(k, v)]
  | (k', v') :: d' =>
      if str_eqb k k' then (k, v) :: d' else (k', v') :: dict_set k v d'
  end.

(** [x.get(k, default)]: only a [dict] has the method. *)
Definition get (x : json) (k : str) (default : json) : result json :=
  match x with
  | JDict d => Ok (match lookup_key k d with Some v => v | None => default end)
  | _ => Raise AttributeError
  end.

(** [float(x)] *)
Definition py_float (x : json) : result spec_float :=
  match x with
  | JStr s => float_of_str s
  | JInt z => float_of_int z
  | JBool b => float_of_int (if b then 1 else 0)
  | JFloat f => Ok f
  | JNull | JList _ | JDict _ => Raise TypeError
  end.

(** The objects a [for] loop over [x] yields: the items of a list, the
    one-character strings of a [str], the keys of a [dict]. *)
Definition iterate (x : json) : result (list json) :=
  match x with
  | JList l => Ok l
  | JStr s => Ok (map (fun c => JStr [c]) s)
  | JDict d => Ok (map (fun kv => JStr (fst kv)) d)
  | JNull | JBool _ | JInt _ | JFloat _ => Raise TypeError
  end.

(** [len(x)] *)
Definition py_len (x : json) : result Z :=
  match x with
  | JList l => Ok (Z.of_nat (length l))
  | JStr s => Ok (len s)
  | JDict d => Ok (Z.of_nat (length d))
  | JNull | JBool _ | JInt _ | JFloat _ => Raise TypeError
  end.

Definition nl : str := ["010"%char].

(** ** Calendar dates and [datetime.strptime] *)

Record date := mkdate { year : Z; month : Z; day : Z }.

Definition is_leap (y : Z) : bool :=
  (y mod 4 =? 0) && (negb (y mod 100 =? 0) || (y mod 400 =? 0)).

Definition days_in_month (y m : Z) : Z :=
  if m =? 2 then (if is_leap y then 29 else 28)
  else if (m =? 4) || (m =? 6) || (m =? 9) || (m =? 11) then 30
  else 31.

Definition digit_in (lo hi : Z) (c : ascii) : bool :=
  is_digit c && (lo <=? digit_val c) && (digit_val c <=? hi).

(** [%Y]: exactly four digits. *)
Definition directive_Y (s : str) : option Z :=
  match s with
  | [a; b; c; d] =>
      if is_digit a && is_digit b && is_digit c && is_digit d
      then Some (1000 * digit_val a + 100 * digit_val b + 10 * digit_val c + digit_val d)
      else None
  | _ => None
  end.

(** [%m]: [1[0-2]|0[1-9]|[1-9]]. *)
Definition directive_m (s : str) : option Z :=
  match s with
  | [a] => if digit_in 1 9 a then Some (digit_val a) else None
  | [a; b] =>
      if Ascii.eqb a "1" && digit_in 0 2 b then Some (10 + digit_val b)
      else if Ascii.eqb a "0" && digit_in 1 9 b then Some (digit_val b)
      else None
  | _ => None
  end.

(** [%d]: [3[01]|[12]\d|0[1-9]|[1-9]| [1-9]]. *)
Definition directive_d (s : str) : option Z :=
  match s with
  | [a] => if digit_in 1 9 a then Some (digit_val a) else None
  | [a; b] =>
      if Ascii.eqb a "3" && digit_in 0 1 b then Some (30 + digit_val b)
      else if digit_in 1 2 a && is_digit b then Some (10 * digit_val a + digit_val b)
      else if (Ascii.eqb a "0" || Ascii.eqb a " ") && digit_in 1 9 b then Some (digit_val b)
      else None
  | _ => None
  end.

(** The four formats the pipeline tries. *)
Inductive date_format :=
| Y_m_d_dash     (* '%Y-%m-%d' *)
| d_m_Y_slash    (* '%d/%m/%Y' *)
| m_d_Y_slash    (* '%m/%d/%Y' *)
| Y_m_d_slash.   (* '%Y/%m/%d' *)

Definition make_date (y m d : option Z) : result date :=
  match y, m, d with
  | Some y, Some m, Some d =>
      if (1 <=? y) && (d <=? days_in_month y m) then Ok (mkdate y m d)
      else Raise ValueError
  | _, _, _ => Raise ValueError
  end.

(** [datetime.strptime(s, fmt).date()]: the whole of [s] has to match,
    and the fields have to name a day of the calendar. *)
Definition strptime (s : str) (fmt : date_format) : result date :=
  match fmt with
  | Y_m_d_dash =>
      match split "-" s with
      | [y; m; d] => make_date (directive_Y y) (directive_m m) (directive_d d)
      | _ => Raise ValueError
      end
  | d_m_Y_slash =>
      match split "/" s with
      | [d; m; y] => make_date (directive_Y y) (directive_m m) (directive_d d)
      | _ => Raise ValueError
      end
  | m_d_Y_slash =>
      match split "/" s with
      | [m; d; y] => make_date (directive_Y y) (directive_m m) (directive_d d)
      | _ => Raise ValueError
      end
  | Y_m_d_slash =>
      match split "/" s with
      | [y; m; d] => make_date (directive_Y y) (directive_m m) (directive_d d)
      | _ => Raise ValueError
      end
  end.

(** ** The relational store *)

(** A value bound to the [transaction_date] column: a date, or whatever
    object the model put in the [date] field. *)
Inductive date_param :=
| DateValue (d : date)
| RawValue (v : json).

Record transaction := {
  t_statement_id : Z;
  transaction_date : date_param;
  description : str;
  amount : spec_float;
  category : str;
  t_user_id : str
}.

Inductive status := PROCESSING | COMPLETED | FAILED.

Record bank_statement := {
  statement_id : Z;
  user_id : str;
  s3_key : str;
  process_status : status;
  created_at : Z;
  analysis_summary : option json
}.

Record database := {
  users : list str;
  bank_statements : list bank_statement;
  transactions : list transaction
}.

(** One connection: the committed state, the state the open
    transaction sees, and whether the server has refused a statement of
    the open transaction.  From then on PostgreSQL refuses every further
    statement of the transaction, until it ends. *)
Record connection := {
  committed : database;
  pending : database;
  aborted : bool
}.

Definition rollback (c : connection) : connection :=
  {| committed := committed c; pending := committed c; aborted := false |}.

(** The commit of an aborted transaction rolls it back. *)
Definition commit (c : connection) : connection :=
  if aborted c then rollback c
  else {| committed := pending c; pending := pending c; aborted := false |}.

Definition connect (db : database) : connection :=
  {| committed := db; pending := db; aborted := false |}.

(** ** Equality of set members *)

(** Whether the float [f] and the int [z] are the same number. *)
Definition float_eq_int (f : spec_float) (z : Z) : bool :=
  match f with
  | S754_zero _ => z =? 0
  | S754_finite s m e =>
      let v := if s then Z.neg m else Z.pos m in
      if 0 <=? e then z =? v * 2 ^ e else z * 2 ^ (- e) =? v
  | S754_infinity _ | S754_nan => false
  end.

Definition as_number (v : json) : option (Z + spec_float) :=
  match v with
  | JBool b => Some (inl (if b then 1 else 0))
  | JInt z => Some (inl z)
  | JFloat f => Some (inr f)
  | _ => None
  end.

(** [a == b] for objects that can be members of a [set]. *)
Definition py_eq (a b : json) : bool :=
  match a, b with
  | JStr s, JStr t => str_eqb s t
  | JNull, JNull => true
  | _, _ =>
      match as_number a, as_number b with
      | Some (inl x), Some (inl y) => x =? y
      | Some (inl x), Some (inr f) | Some (inr f), Some (inl x) => float_eq_int f x
      | Some (inr f), Some (inr g) => SFeqb f g
      | _, _ => false
      end
  end.

Definition hashable (v : json) : bool :=
  match v with
  | JList _ | JDict _ => false
  | _ => true
  end.

(** * lambda/bankextract-package/lambda_function.py *)

Module Bankextract.

(** One element of an OCR response. *)
Record block := {
  BlockType : option str;
  Text : option str
}.

(** What lies outside the lambda, for one invocation. *)
Record Env := {
  (* library availability, decided at import time *)
  PDFPLUMBER_AVAILABLE : bool;
  PYPDF_AVAILABLE : bool;
  TEXTRACT_AVAILABLE : bool;
  (* the temporary copy: creating it, downloading into it and taking
     its size, in bytes *)
  download_file : str -> str -> result Z;
  (* [pdfplumber.open]: the pages, each with the outcome of its
     [extract_text()] ([None] when the page has no text) *)
  pdfplumber_open : result (list (result (option str)));
  (* [PdfReader(file_path, strict=False)]: likewise *)
  PdfReader : result (list (result (option str)));
  (* whether [del reader.pages[i]] is supported by the installed pypdf *)
  pypdf_del_supported : bool;
  (* [textract_client.detect_document_text]: the blocks of the response *)
  detect_document_text : str -> str -> result (list block);
  (* [os.environ.get('BEDROCK_MODEL_ID')] *)
  BEDROCK_MODEL_ID : option str;
  (* [invoke_model] for a model id and the statement text placed in the
     fixed prompt, followed by [response['body'].read()] *)
  invoke_model : str -> str -> result str;
  (* [json.loads] *)
  json_loads : str -> result json;
  (* [str(x)] for an object that is not a [str] *)
  repr : json -> str;
  (* [date.today()] *)
  today : date;
  (* [CURRENT_TIMESTAMP] *)
  now : Z;
  (* [head_object]: the [user-id] entry of the object's metadata *)
  head_object_user_id : str -> str -> result (option str);
  (* opening the database connection fails *)
  connect_fails : bool;
  (* the server refuses this row of [transactions] *)
  insert_rejected : transaction -> bool;
  (* the UPDATE of the summary, or the commit after it, fails *)
  update_summary_fails : bool;
  commit_fails : bool;
  (* the asynchronous invocation of the dashboard lambda fails *)
  lambda_invoke_fails : bool
}.

(** ** Text extraction *)

(** The loop body shared by the local extractors: append the page's text
    and a newline when the page has text. *)
Definition add_page_text (text : str) (page_text : option str) : str :=
  match page_text with
  | Some t => if negb (str_eqb t []) then text ++ t ++ nl else text
  | None => text
  end.

Fixpoint pdfplumber_pages (pages : list (result (option str))) (text : str)
  : result str :=
  match pages with
  | [] => Ok text
  | Ok page_text :: rest => pdfplumber_pages rest (add_page_text text page_text)
  | Raise e :: _ => Raise e
  end.

Definition extract_with_pdfplumber (env : Env) : str :=
  if negb (PDFPLUMBER_AVAILABLE env) then []
  else
    match pdfplumber_open env with
    | Ok pages =>
        let max_pages := Z.min (Z.of_nat (length pages)) 20 in
        match pdfplumber_pages (slice_to pages max_pages) [] with
        | Ok text => strip text
        | Raise _ => []
        end
    | Raise _ => []
    end.

(** [for i in range(max_pages)] over the reader's pages, which shrink
    when [del reader.pages[i]] is supported; [idx] is the list of values
    [i] still to visit. *)
Fixpoint pypdf_pages (env : Env) (idx : list nat)
    (pages : list (result (option str))) (text : str) : str :=
  match idx with
  | [] => text
  | i :: idx' =>
      match pages !! i with
      | Some (Ok page_text) =>
          pypdf_pages env idx'
            (if pypdf_del_supported env then delete i pages else pages)
            (add_page_text text page_text)
      | Some (Raise _) | None => pypdf_pages env idx' pages text
      end
  end.

Definition extract_with_pypdf (env : Env) : str :=
  if negb (PYPDF_AVAILABLE env) then []
  else
    match PdfReader env with
    | Ok pages =>
        let max_pages := Z.min (Z.of_nat (length pages)) 20 in
        strip (pypdf_pages env (seq 0 (Z.to_nat max_pages)) pages [])
    | Raise _ => []
    end.

Fixpoint textract_blocks (blocks : list block) (text : str) : result str :=
  match blocks with
  | [] => Ok text
  | item :: rest =>
      match BlockType item with
      | None => Raise KeyError
      | Some ty =>
          if str_eqb ty "LINE"
          then textract_blocks rest
                 (text ++ match Text item with Some t => t | None => [] end ++ nl)
          else textract_blocks rest text
      end
  end.

Definition extract_with_textract (env : Env) (bucket key : str) : str :=
  if negb (TEXTRACT_AVAILABLE env) then []
  else
    match detect_document_text env bucket key with
    | Ok blocks =>
        match textract_blocks blocks [] with
        | Ok text => strip text
        | Raise _ => []
        end
    | Raise _ => []
    end.

(** The extraction strategies, as entries of the call trace. *)
Inductive strategy := Pdfplumber | Pypdf | Textract.

(** [not text or len(text.strip()) < 50] *)
Definition insufficient (text : str) : bool :=
  str_eqb text [] || (len (strip text) <? 50).

(** Returns the text and the strategies that were called, in order. *)
Definition textract_from_s3 (env : Env) (bucket key : str)
  : str * list strategy :=
  match download_file env bucket key with
  | Raise _ => ([], [])
  | Ok file_size =>
      if (file_size =? 0) || (file_size >? 20 * 1024 * 1024) then
        if file_size >? 0
        then (extract_with_textract env bucket key, [Textract])
        else ([], [])
      else
        let text := extract_with_pdfplumber env in
        let calls := [Pdfplumber] in
        let '(text, calls) :=
          if insufficient text
          then (extract_with_pypdf env, calls ++ [Pypdf])
          else (text, calls) in
        let '(text, calls) :=
          if insufficient text
          then (extract_with_textract env bucket key, calls ++ [Textract])
          else (text, calls) in
        (text, calls)
  end.

(** ** Transaction analysis *)

(** The result returned for a text too short to analyse. *)
Definition empty_analysis : json :=
  JDict [("transactions" : str, JList []);
         ("analysis" : str,
          JDict [("total_income" : str, JInt 0);
                 ("total_expense" : str, JInt 0);
                 ("net_amount" : str, JInt 0);
                 ("categories" : str, JList [])])].

(** The result substituted when the model call or the parsing fails. *)
Definition failed_analysis : json :=
  JDict [("transactions" : str, JList []);
         ("analysis" : str,
          JDict [("total_income" : str, JInt 0);
                 ("total_expense" : str, JInt 0);
                 ("net_amount" : str, JInt 0);
                 ("categories" : str, JList []);
                 ("categories_amount" : str, JDict [])])].

(** A request to the model endpoint: the model id and the statement text
    interpolated into the fixed prompt. *)
Inductive external_call := InvokeModel (model_id : str) (text : str).

(** [x[k]] for a string key. *)
Definition getitem (x : json) (k : str) : result json :=
  match x with
  | JDict d => match lookup_key k d with Some v => Ok v | None => Raise KeyError end
  | _ => Raise TypeError
  end.

(** [x[0]] *)
Definition getitem0 (x : json) : result json :=
  match x with
  | JList (v :: _) => Ok v
  | JList [] => Raise IndexError
  | JStr (c :: _) => Ok (JStr [c])
  | JStr [] => Raise IndexError
  | JDict _ => Raise KeyError
  | JNull | JBool _ | JInt _ | JFloat _ => Raise TypeError
  end.

(** Lines 221-226: drop a leading [```json] or [```] and a trailing
    [```]. *)
Definition strip_fence (analysis_result_text : str) : str :=
  let t :=
    if startswith analysis_result_text "```json" then slice_from analysis_result_text 7
    else if startswith analysis_result_text "```" then slice_from analysis_result_text 3
    else analysis_result_text in
  if endswith t "```" then slice_to t (-3) else t.

(** Lines 228-235: the text handed to [json.loads]. *)
Definition json_content (analysis_result_text : str) : str :=
  let start_idx := find "{" analysis_result_text in
  let end_idx := rfind "}" analysis_result_text + 1 in
  if negb (start_idx =? -1) && negb (end_idx =? -1)
  then slice analysis_result_text start_idx end_idx
  else analysis_result_text.

(** Lines 219-235, for the text of the model's reply. *)
Definition parse_reply (loads : str -> result json) (text : str) : result json :=
  loads (json_content (strip_fence (strip text))).

Definition DEFAULT_MODEL_ID : str := "anthropic.claude-3-haiku-20240307-v1:0".

(** Returns the analysis and the requests made to the model endpoint. *)
Definition banktract_from_text (env : Env) (text : str)
  : json * list external_call :=
  if str_eqb text [] || (len (strip text) <? 10) then (empty_analysis, [])
  else
    let model_id :=
      match BEDROCK_MODEL_ID env with Some m => m | None => DEFAULT_MODEL_ID end in
    let text :=
      if len text >? 30000
      then slice_to text 30000 ++ nl ++ "... (truncated)"
      else text in
    let reply :=
      let* body := invoke_model env model_id text in
      let* response_body := json_loads env body in
      let* content := getitem response_body "content" in
      let* first := getitem0 content in
      let* t := getitem first "text" in
      match t with
      | JStr s => parse_reply (json_loads env) s
      | _ => Raise AttributeError
      end in
    (match reply with Ok r => r | Raise _ => failed_analysis end,
     [InvokeModel model_id text]).

(** ** Persistence *)

(** [str(x)] *)
Definition py_str (env : Env) (x : json) : str :=
  match x with
  | JStr s => s
  | _ => repr env x
  end.

(** The first of the formats that parses [s]. *)
Fixpoint first_format (s : str) (formats : list date_format) : option date :=
  match formats with
  | [] => None
  | f :: rest =>
      match strptime s f with
      | Ok d => Some d
      | Raise _ => first_format s rest
      end
  end.

(** Lines 254-271. *)
Definition coerce_date (env : Env) (trans : json) : result date_param :=
  let* d := get trans "date" JNull in
  if truthy d then
    match d with
    | JStr s =>
        match strptime s Y_m_d_dash with
        | Ok dt => Ok (DateValue dt)
        | Raise _ =>
            match first_format s [d_m_Y_slash; m_d_Y_slash; Y_m_d_slash] with
            | Some dt => Ok (DateValue dt)
            | None => Ok (DateValue (today env))
            end
        end
    | _ => Ok (RawValue d)
    end
  else Ok (DateValue (today env)).

(** Lines 273-276. *)
Definition coerce_amount (trans : json) : result spec_float :=
  let* a := get trans "amount" (JFloat float_zero) in
  match py_float a with
  | Ok f => Ok f
  | Raise ValueError | Raise TypeError => Ok float_zero
  | Raise e => Raise e
  end.

Definition add_transaction (t : transaction) (db : database) : database :=
  {| users := users db;
     bank_statements := bank_statements db;
     transactions := transactions db ++ [t] |}.

(** Lines 254-280: the row built from [trans]. *)
Definition transaction_row (env : Env) (statement_id : Z) (user_id : str)
    (trans : json) : result transaction :=
  let* trans_date := coerce_date env trans in
  let* amount := coerce_amount trans in
  let* d := get trans "description" (JStr []) in
  let description := slice_to (py_str env d) 500 in
  let* c := get trans "category" (JStr "Other") in
  let category := slice_to (py_str env c) 100 in
  Ok {| t_statement_id := statement_id;
        transaction_date := trans_date;
        description := description;
        amount := amount;
        category := category;
        t_user_id := user_id |}.

(** Line 281, [cursor.execute(insert_transaction_query, ...)]: in an
    aborted transaction the server refuses the statement; a row that
    the server refuses aborts the transaction. *)
Definition execute_insert (env : Env) (conn : connection) (row : transaction)
  : connection * result unit :=
  if aborted conn then (conn, Raise DatabaseError)
  else if insert_rejected env row then
    ({| committed := committed conn; pending := pending conn; aborted := true |},
     Raise DatabaseError)
  else
    ({| committed := committed conn;
        pending := add_transaction row (pending conn);
        aborted := false |}, Ok tt).

(** The body of the per-transaction [try], lines 254-282: the
    connection after it, and the row inserted or the exception that the
    handler of line 283 passes over. *)
Definition insert_transaction (env : Env) (conn : connection)
    (statement_id : Z) (user_id : str) (trans : json)
  : connection * result transaction :=
  match transaction_row env statement_id user_id trans with
  | Ok row =>
      match execute_insert env conn row with
      | (conn', Ok _) => (conn', Ok row)
      | (conn', Raise e) => (conn', Raise e)
      end
  | Raise e => (conn, Raise e)
  end.

(** The loop of lines 252-284; returns the connection and
    [successful_transactions]. *)
Fixpoint insert_transactions (env : Env) (statement_id : Z) (user_id : str)
    (transactions : list json) (conn : connection) (successful_transactions : Z)
  : connection * Z :=
  match transactions with
  | [] => (conn, successful_transactions)
  | trans :: rest =>
      match insert_transaction env conn statement_id user_id trans with
      | (conn', Ok _) =>
          insert_transactions env statement_id user_id rest conn'
            (successful_transactions + 1)
      | (conn', Raise _) =>
          insert_transactions env statement_id user_id rest conn'
            successful_transactions
      end
  end.

Definition set_add (v : json) (seen : list json) : list json :=
  if existsb (py_eq v) seen then seen else seen ++ [v].

(** Line 287: [list(set(trans.get('category', 'Other') for trans in
    transactions if trans.get('category')))].  The order in which Python
    lists a set is not specified; the members are listed here in order
    of first occurrence. *)
Fixpoint collect_categories (transactions : list json) (seen : list json)
  : result (list json) :=
  match transactions with
  | [] => Ok seen
  | trans :: rest =>
      let* c := get trans "category" JNull in
      if truthy c then
        let* v := get trans "category" (JStr "Other") in
        if hashable v then collect_categories rest (set_add v seen)
        else Raise TypeError
      else collect_categories rest seen
  end.

Definition set_summary (sid : Z) (summary : json) (st : bank_statement)
  : bank_statement :=
  if statement_id st =? sid then
    {| statement_id := statement_id st;
       user_id := user_id st;
       s3_key := s3_key st;
       process_status := process_status st;
       created_at := created_at st;
       analysis_summary := Some summary |}
  else st.

(** [UPDATE bank_statements SET analysis_summary = ... WHERE
    statement_id = ...].  The column is modelled as holding the JSON
    document itself. *)
Definition update_summary (sid : Z) (summary : json) (db : database)
  : database :=
  {| users := users db;
     bank_statements := map (set_summary sid summary) (bank_statements db);
     transactions := transactions db |}.

(** The [try] block of [save_analysis_to_database], lines 242-293. *)
Definition save_analysis_body (env : Env) (conn : connection)
    (statement_id : Z) (analysis_result : json) (user_id : str)
  : result (connection * Z) :=
  let* transactions := get analysis_result "transactions" (JList []) in
  let* summary := get analysis_result "analysis" (JDict []) in
  let* conn :=
    if truthy transactions then
      let* items := iterate transactions in
      Ok (fst (insert_transactions env statement_id user_id items conn 0))
    else Ok conn in
  let* d := match summary with JDict d => Ok d | _ => Raise TypeError end in
  let* n := py_len transactions in
  let* items := iterate transactions in
  let* categories := collect_categories items [] in
  let enhanced_summary :=
    JDict (dict_set "categories" (JList categories)
             (dict_set "transaction_count" (JInt n) d)) in
  (* the UPDATE is refused in an aborted transaction *)
  if aborted conn || update_summary_fails env then Raise DatabaseError
  else
    let conn :=
      {| committed := committed conn;
         pending := update_summary statement_id enhanced_summary (pending conn);
         aborted := false |} in
    if commit_fails env then Raise DatabaseError
    else Ok (commit conn, n).

(** On any exception the open transaction is rolled back and the
    exception is raised again. *)
Definition save_analysis_to_database (env : Env) (conn : connection)
    (statement_id : Z) (analysis_result : json) (user_id : str)
  : connection * result Z :=
  match save_analysis_body env conn statement_id analysis_result user_id with
  | Ok (conn', n) => (conn', Ok n)
  | Raise e => (rollback conn, Raise e)
  end.

(** ** The pipeline for one uploaded object *)

(** Lines 303-321: the owner, from the object's metadata, else from the
    key, else a fixed value. *)
Definition resolve_user_id (env : Env) (bucket key : str) : str :=
  let user_id :=
    match head_object_user_id env bucket key with
    | Ok (Some u) => u
    | Ok None | Raise _ => []
    end in
  let user_id :=
    if str_eqb user_id [] then
      match split "/" key with
      | p0 :: p1 :: _ => if str_eqb p0 "statements" then p1 else []
      | _ => []
      end
    else user_id in
  if str_eqb user_id [] then "default_user" else user_id.

Definition set_status (sid : Z) (s : status) (st : bank_statement)
  : bank_statement :=
  if statement_id st =? sid then
    {| statement_id := statement_id st;
       user_id := user_id st;
       s3_key := s3_key st;
       process_status := s;
       created_at := created_at st;
       analysis_summary := analysis_summary st |}
  else st.

(** [UPDATE bank_statements SET process_status = ... WHERE statement_id
    = ...] *)
Definition update_status (sid : Z) (s : status) (db : database) : database :=
  {| users := users db;
     bank_statements := map (set_status sid s) (bank_statements db);
     transactions := transactions db |}.

(** The next value of the [statement_id] sequence. *)
Definition next_statement_id (db : database) : Z :=
  1 + fold_right Z.max 0 (map statement_id (bank_statements db)).

Definition reset_statement (env : Env) (key : str) (st : bank_statement)
  : bank_statement :=
  if str_eqb (s3_key st) key then
    {| statement_id := statement_id st;
       user_id := user_id st;
       s3_key := s3_key st;
       process_status := PROCESSING;
       created_at := now env;
       analysis_summary := analysis_summary st |}
  else st.

(** [INSERT INTO bank_statements ... ON CONFLICT (s3_key) DO UPDATE ...
    RETURNING statement_id] *)
Definition upsert_statement (env : Env) (user_id key : str) (db : database)
  : database * Z :=
  match List.find (fun st => str_eqb (s3_key st) key) (bank_statements db) with
  | Some st =>
      ({| users := users db;
          bank_statements := map (reset_statement env key) (bank_statements db);
          transactions := transactions db |},
       statement_id st)
  | None =>
      let sid := next_statement_id db in
      ({| users := users db;
          bank_statements :=
            bank_statements db ++
            [{| statement_id := sid;
                user_id := user_id;
                s3_key := key;
                process_status := PROCESSING;
                created_at := now env;
                analysis_summary := None |}];
          transactions := transactions db |},
       sid)
  end.

(** What one run of [process_s3_upload] leaves behind. *)
Record run := {
  final_db : database;             (* the committed state *)
  outcome : result Z;              (* the statement id, or the exception raised *)
  strategies : list strategy;      (* extraction strategies called *)
  model_calls : list external_call;
  triggered : option Z             (* statement id sent to the dashboard lambda *)
}.

(** [not extracted_text or len(extracted_text.strip()) < 10] *)
Definition extraction_failed (extracted_text : str) : bool :=
  str_eqb extracted_text [] || (len (strip extracted_text) <? 10).

(** Which of the database operations that [process_s3_upload] issues
    itself raise.  A statement that the server refuses aborts the open
    transaction; a commit that raises ends the transaction without
    effect. *)
Record faults := {
  user_query_fails : bool;        (* the SELECT of check_user_exists *)
  upsert_fails : bool;            (* the INSERT .. ON CONFLICT or its fetchone *)
  upsert_commit_fails : bool;     (* the commit of line 339 *)
  completed_update_fails : bool;  (* the UPDATE of line 350 *)
  completed_commit_fails : bool;  (* the commit of line 351 *)
  failed_update_fails : bool;     (* the UPDATE of lines 362-365 *)
  failed_commit_fails : bool;     (* the commit of line 366 *)
  close_fails : bool              (* conn.close() of the finally *)
}.

Definition no_faults : faults :=
  {| user_query_fails := false; upsert_fails := false;
     upsert_commit_fails := false; completed_update_fails := false;
     completed_commit_fails := false; failed_update_fails := false;
     failed_commit_fails := false; close_fails := false |}.

(** The handler of the outer [except], lines 355-369: record the failure
    when a statement row exists, and raise again.  An exception of the
    update or of its commit is caught, and the committed state stays as
    it is; the update is refused in an aborted transaction. *)
Definition mark_failed (f : faults) (conn : connection) (sid : Z) : database :=
  if negb (sid =? 0) && negb (aborted conn)
     && negb (failed_update_fails f) && negb (failed_commit_fails f)
  then committed (commit {| committed := committed conn;
                            pending := update_status sid FAILED (pending conn);
                            aborted := false |})
  else committed conn.

(** The [finally] of lines 370-372, once the connection is open: an
    exception of [conn.close()] is the one that leaves the function. *)
Definition closing (f : faults) (r : run) : run :=
  if close_fails f then
    {| final_db := final_db r; outcome := Raise DatabaseError;
       strategies := strategies r; model_calls := model_calls r;
       triggered := triggered r |}
  else r.

(** A run that raised before anything was written. *)
Definition raised (e : exn) (db : database) : run :=
  {| final_db := db; outcome := Raise e;
     strategies := []; model_calls := []; triggered := None |}.

(** Lines 326-369 under the faults [f]: the [try] from
    [check_user_exists] on, and its handler.  A rollback is taken to
    succeed. *)
Definition process_with_connection (f : faults) (env : Env) (db : database)
    (bucket key : str) : run :=
  let user_id := resolve_user_id env bucket key in
  let conn := connect db in
  (* check_user_exists rolls back and raises; no statement row yet *)
  if user_query_fails f then raised DatabaseError db
  else if negb (existsb (str_eqb user_id) (users db)) then raised ValueError db
  else if upsert_fails f then raised DatabaseError db
  else
    let '(db1, sid) := upsert_statement env user_id key (pending conn) in
    if upsert_commit_fails f then
      raised DatabaseError (mark_failed f (rollback conn) sid)
    else
      let conn :=
        commit {| committed := committed conn; pending := db1;
                  aborted := false |} in
      let '(extracted_text, strategies) := textract_from_s3 env bucket key in
      if extraction_failed extracted_text then
        {| final_db := mark_failed f conn sid; outcome := Raise ValueError;
           strategies := strategies; model_calls := []; triggered := None |}
      else
        let '(analysis_result, model_calls) :=
          banktract_from_text env extracted_text in
        match save_analysis_to_database env conn sid analysis_result user_id with
        | (conn, Raise e) =>
            {| final_db := mark_failed f conn sid; outcome := Raise e;
               strategies := strategies; model_calls := model_calls;
               triggered := None |}
        | (conn, Ok transaction_count) =>
            if completed_update_fails f then
              {| final_db :=
                   mark_failed f {| committed := committed conn;
                                    pending := pending conn;
                                    aborted := true |} sid;
                 outcome := Raise DatabaseError;
                 strategies := strategies; model_calls := model_calls;
                 triggered := None |}
            else if completed_commit_fails f then
              {| final_db := mark_failed f (rollback conn) sid;
                 outcome := Raise DatabaseError;
                 strategies := strategies; model_calls := model_calls;
                 triggered := None |}
            else
              let conn :=
                commit {| committed := committed conn;
                          pending := update_status sid COMPLETED (pending conn);
                          aborted := false |} in
              {| final_db := committed conn; outcome := Ok sid;
                 strategies := strategies; model_calls := model_calls;
                 triggered :=
                   if lambda_invoke_fails env then None else Some sid |}
        end.

(** [process_s3_upload] under the faults [f] of its own database
    operations. *)
Definition process_s3_upload_with (f : faults) (env : Env) (db : database)
    (bucket key : str) : run :=
  if connect_fails env then raised DatabaseError db
  else closing f (process_with_connection f env db bucket key).

(** The run in which these operations succeed. *)
Definition process_s3_upload (env : Env) (db : database) (bucket key : str) : run :=
  process_s3_upload_with no_faults env db bucket key.

(** ** The handler *)

(** The fields of an S3 notification record that the handler reads. *)
Record s3_record := {
  eventSource : str;
  bucket_name : str;      (* record['s3']['bucket']['name'] *)
  object_key : str        (* record['s3']['object']['key'] *)
}.

(** The event: an S3 notification, or a direct invocation with its
    [bucket] and [key] entries, when present. *)
Inductive event :=
| Records (records : list s3_record)
| Direct (bucket key : option str).

Inductive response_body :=
| Message (text : str)
| ProcessingFailed (e : exn).     (* f'Processing failed: {str(e)}' *)

Record response := {
  statusCode : Z;
  body : response_body
}.

(** The loop of lines 379-383.  [unquote_plus] is
    [urllib.parse.unquote_plus]; [env_of bucket key] is what the
    services answer while that object is processed.  The loop ends at
    the first exception. *)
Fixpoint process_records (unquote_plus : str -> str) (env_of : str -> str -> Env)
    (db : database) (records : list s3_record) : database * result unit :=
  match records with
  | [] => (db, Ok tt)
  | record :: records =>
      if str_eqb (eventSource record) "aws:s3" then
        let bucket := bucket_name record in
        let key := unquote_plus (object_key record) in
        let r := process_s3_upload (env_of bucket key) db bucket key in
        match outcome r with
        | Ok _ => process_records unquote_plus env_of (final_db r) records
        | Raise e => (final_db r, Raise e)
        end
      else process_records unquote_plus env_of db records
  end.

Definition lambda_handler (unquote_plus : str -> str) (env_of : str -> str -> Env)
    (db : database) (ev : event) : response * database :=
  let completed :=
    {| statusCode := 200; body := Message "Processing completed successfully" |} in
  let failed e := {| statusCode := 500; body := ProcessingFailed e |} in
  match ev with
  | Records records =>
      match process_records unquote_plus env_of db records with
      | (db, Ok _) => (completed, db)
      | (db, Raise e) => (failed e, db)
      end
  | Direct (Some bucket) (Some key) =>
      if negb (str_eqb bucket []) && negb (str_eqb key []) then
        let r := process_s3_upload (env_of bucket key) db bucket key in
        match outcome r with
        | Ok _ => (completed, final_db r)
        | Raise e => (failed e, final_db r)
        end
      else
        ({| statusCode := 400; body := Message "Missing bucket or key parameters" |}, db)
  | Direct _ _ =>
      ({| statusCode := 400; body := Message "Missing bucket or key parameters" |}, db)
  end.

(** ** Vocabulary of the properties *)

(** JSON white space. *)
Definition json_ws (c : ascii) : bool :=
  Ascii.eqb c " " || Ascii.eqb c "009" || Ascii.eqb c "010" || Ascii.eqb c "013".

(** A reply wrapped in a markdown code fence with a language tag. *)
Definition fenced (tag s : str) : str :=
  "```" ++ tag ++ nl ++ s ++ nl ++ "```".

End Bankextract.

(** * lambda/visualize-package/lambda_function.py *)

Module Visualize.

(** The places where the lambda talks to the database. *)
Inductive db_site :=
| HtmlConnect         (* get_db_connection() in create_dashboard_html *)
| HtmlCurrentQuery    (* the SELECT of the target statement *)
| HtmlOthersQuery     (* the SELECT of the owner's other statements *)
| HtmlClose           (* cursor.close() / conn.close() in the finally *)
| HandlerConnect      (* get_db_connection() in lambda_handler *)
| HandlerQuery        (* the SELECT of user_id and s3_key *)
| HandlerClose.       (* cursor.close() / conn.close() in lambda_handler *)

Record Env := {
  (* [json.loads] *)
  json_loads : str -> result json;
  (* the database operation at this place raises *)
  db_fault : db_site -> bool;
  (* [os.environ.get("S3_BUCKET")] *)
  S3_BUCKET : str;
  (* [put_object] raises for this key *)
  put_object_fails : str -> bool;
  (* [generate_presigned_url] for a bucket and a key *)
  generate_presigned_url : str -> str -> result str;
  (* [os.environ.get('AWS_REGION')] *)
  AWS_REGION : option str
}.

(** ** Python arithmetic on decoded JSON numbers *)

Definition add_numbers (a b : Z + spec_float) : result json :=
  match a, b with
  | inl x, inl y => Ok (JInt (x + y))
  | inl x, inr g => let* f := float_of_int x in Ok (JFloat (SFadd prec emax f g))
  | inr f, inl y => let* g := float_of_int y in Ok (JFloat (SFadd prec emax f g))
  | inr f, inr g => Ok (JFloat (SFadd prec emax f g))
  end.

(** [a += b], returning the new value of [a]. *)
Definition iadd (a b : json) : result json :=
  match as_number a, as_number b with
  | Some x, Some y => add_numbers x y
  | _, _ =>
      match a, b with
      | JStr s, JStr t => Ok (JStr (s ++ t))
      | JList l, _ => let* items := iterate b in Ok (JList (l ++ items))
      | _, _ => Raise TypeError
      end
  end.

(** [abs(x)] *)
Definition py_abs (x : json) : result json :=
  match as_number x with
  | Some (inl z) => Ok (JInt (Z.abs z))
  | Some (inr f) => Ok (JFloat (SFabs f))
  | None => Raise TypeError
  end.

(** Whether the int [z] is below the float [f]. *)
Definition int_lt_float (z : Z) (f : spec_float) : bool :=
  match f with
  | S754_zero _ => z <? 0
  | S754_finite s m e =>
      let v := if s then Z.neg m else Z.pos m in
      if 0 <=? e then z <? v * 2 ^ e else z * 2 ^ (- e) <? v
  | S754_infinity s => negb s
  | S754_nan => false
  end.

Definition float_lt_int (f : spec_float) (z : Z) : bool :=
  match f with
  | S754_zero _ => 0 <? z
  | S754_finite s m e =>
      let v := if s then Z.neg m else Z.pos m in
      if 0 <=? e then v * 2 ^ e <? z else v <? z * 2 ^ (- e)
  | S754_infinity s => s
  | S754_nan => false
  end.

(** [a < b] for two numbers. *)
Definition num_lt (a b : json) : bool :=
  match as_number a, as_number b with
  | Some (inl x), Some (inl y) => x <? y
  | Some (inl x), Some (inr g) => int_lt_float x g
  | Some (inr f), Some (inl y) => float_lt_int f y
  | Some (inr f), Some (inr g) => SFltb f g
  | _, _ => false
  end.

(** ** Aggregation *)

(** A fetched row: [(user_id, analysis_summary, created_at)]. *)
Definition row := (str * json * Z)%type.

Record aggregate := {
  total_income : json;
  total_expense : json;
  net_amount : json;
  total_transactions : json;
  (* category -> (amount, count), in insertion order *)
  category_totals : list (str * (json * json))
}.

Definition with_totals (acc : aggregate) (cats : list (str * (json * json)))
  : aggregate :=
  {| total_income := total_income acc;
     total_expense := total_expense acc;
     net_amount := net_amount acc;
     total_transactions := total_transactions acc;
     category_totals := cats |}.

Fixpoint lookup_total (k : str) (d : list (str * (json * json)))
  : option (json * json) :=
  match d with
  | [] => None
  | (k', v) :: d' => if str_eqb k k' then Some v else lookup_total k d'
  end.

Fixpoint set_total (k : str) (v : json * json) (d : list (str * (json * json)))
  : list (str * (json * json)) :=
  match d with
  | [] => [(k, v)]
  | (k', v') :: d' =>
      if str_eqb k k' then (k, v) :: d' else (k', v') :: set_total k v d'
  end.

(** The loop over [categories_amount.items()], lines 189-200.  An
    exception ends the loop; what was added before it stays. *)
Fixpoint add_categories (items : list (str * json)) (acc : aggregate) : aggregate :=
  match items with
  | [] => acc
  | (category, data) :: rest =>
      match get data "total_amount" (JInt 0) with
      | Raise _ => acc
      | Ok amount =>
          match get data "transaction_count" (JInt 0) with
          | Raise _ => acc
          | Ok count =>
              match lookup_total category (category_totals acc) with
              | Some (a, c) =>
                  match iadd a amount with
                  | Raise _ => acc
                  | Ok a' =>
                      let acc := with_totals acc
                                   (set_total category (a', c) (category_totals acc)) in
                      match iadd c count with
                      | Raise _ => acc
                      | Ok c' =>
                          add_categories rest
                            (with_totals acc
                               (set_total category (a', c') (category_totals acc)))
                      end
                  end
              | None =>
                  add_categories rest
                    (with_totals acc
                       (set_total category (amount, count) (category_totals acc)))
              end
          end
      end
  end.

(** The body of the loop over the statements, lines 177-203: the
    per-statement [try] keeps every update made before an exception. *)
Definition add_statement (env : Env) (acc : aggregate) (statement : row) : aggregate :=
  let '(_, analysis_summary, _) := statement in
  if truthy analysis_summary then
    match (match analysis_summary with
           | JStr s => json_loads env s
           | _ => Ok analysis_summary
           end) with
    | Raise _ => acc
    | Ok summary =>
        match (let* v := get summary "total_income" (JInt 0) in
               iadd (total_income acc) v) with
        | Raise _ => acc
        | Ok ti =>
        let acc := {| total_income := ti; total_expense := total_expense acc;
                      net_amount := net_amount acc;
                      total_transactions := total_transactions acc;
                      category_totals := category_totals acc |} in
        match (let* v := get summary "total_expense" (JInt 0) in
               iadd (total_expense acc) v) with
        | Raise _ => acc
        | Ok te =>
        let acc := {| total_income := total_income acc; total_expense := te;
                      net_amount := net_amount acc;
                      total_transactions := total_transactions acc;
                      category_totals := category_totals acc |} in
        match (let* v := get summary "net_amount" (JInt 0) in
               iadd (net_amount acc) v) with
        | Raise _ => acc
        | Ok na =>
        let acc := {| total_income := total_income acc;
                      total_expense := total_expense acc;
                      net_amount := na;
                      total_transactions := total_transactions acc;
                      category_totals := category_totals acc |} in
        match (let* v := get summary "transaction_count" (JInt 0) in
               iadd (total_transactions acc) v) with
        | Raise _ => acc
        | Ok tc =>
        let acc := {| total_income := total_income acc;
                      total_expense := total_expense acc;
                      net_amount := net_amount acc;
                      total_transactions := tc;
                      category_totals := category_totals acc |} in
        match get summary "categories_amount" (JDict []) with
        | Ok (JDict items) => add_categories items acc
        | Ok _ | Raise _ => acc
        end
        end end end end
    end
  else acc.

Definition zero_aggregate : aggregate :=
  {| total_income := JInt 0; total_expense := JInt 0; net_amount := JInt 0;
     total_transactions := JInt 0; category_totals := [] |}.

(** [(category, amount, count)] with the sort key [abs(amount)]. *)
Definition keyed := (json * (str * json * json))%type.

Fixpoint sort_keys (cats : list (str * (json * json))) : result (list keyed) :=
  match cats with
  | [] => Ok []
  | (category, (amount, count)) :: rest =>
      let* k := py_abs amount in
      let* ks := sort_keys rest in
      Ok ((k, (category, amount, count)) :: ks)
  end.

(** Insertion behind every entry whose key is not below the new key:
    descending and stable. *)
Fixpoint insert_desc (x : keyed) (sorted : list keyed) : list keyed :=
  match sorted with
  | [] => [x]
  | y :: rest =>
      if num_lt (fst y) (fst x) then x :: y :: rest
      else y :: insert_desc x rest
  end.

(** [categories_data.sort(key=lambda x: abs(x[1]), reverse=True)]; for
    keys that [<] orders totally this is the order Python produces. *)
Definition sort_desc (l : list keyed) : list keyed :=
  fold_left (fun sorted x => insert_desc x sorted) l [].

Record extracted := {
  data_total_income : json;
  data_total_expense : json;
  data_net_amount : json;
  data_total_transactions : json;
  categories_data : list (str * json * json)
}.

Definition extract_data_from_statements (env : Env) (statements : list row)
  : result extracted :=
  let acc := fold_left (add_statement env) statements zero_aggregate in
  let* keys := sort_keys (category_totals acc) in
  Ok {| data_total_income := total_income acc;
        data_total_expense := total_expense acc;
        data_net_amount := net_amount acc;
        data_total_transactions := total_transactions acc;
        categories_data := map snd (sort_desc keys) |}.

(** ** Rendering *)

(** [format(x, ',.0f')]: defined for numbers that convert to a float.
    The digits produced are not modelled. *)
Definition format_f (x : json) : result unit :=
  match x with
  | JStr _ => Raise ValueError
  | _ => let* _ := py_float x in Ok tt
  end.

Definition colors : list str :=
  ["#FF6384" : str; "#36A2EB" : str; "#FFCE56" : str; "#4BC0C0" : str;
   "#9966FF" : str; "#FF9F40" : str; "#FF6B6B" : str; "#4ECDC4" : str;
   "#45B7D1" : str; "#96CEB4" : str].

Record pie_entry := {
  pie_category : str;
  pie_amount : spec_float;
  pie_count : json;
  pie_color : str
}.

Record bar_entry := {
  bar_category : str;
  bar_count : json;
  bar_color : str
}.

Definition color_at (i : nat) : str :=
  nth (i mod length colors) colors [].

(** The loop of lines 248-259, from index [i] on. *)
Fixpoint chart_data (i : nat) (cats : list (str * json * json))
  : result (list pie_entry * list bar_entry) :=
  match cats with
  | [] => Ok ([], [])
  | (category, amount, count) :: rest =>
      let* a := py_float amount in
      let* r := chart_data (S i) rest in
      Ok ({| pie_category := category; pie_amount := a; pie_count := count;
             pie_color := color_at i |} :: fst r,
          {| bar_category := category; bar_count := count;
             bar_color := color_at i |} :: snd r)
  end.

(** One entry of the list of recent statements: the creation time and
    the owner, with the net amount and the transaction count when the
    summary could be read, and the "Processing..." entry otherwise. *)
Inductive statement_item :=
| Summarised (created_at : Z) (user_id : str) (net_amount transaction_count : json)
| Processing (created_at : Z) (user_id : str).

Definition statement_entry (env : Env) (statement : row) : statement_item :=
  let '(user_id, analysis_summary, created_at) := statement in
  match (let* summary := match analysis_summary with
                         | JStr s => json_loads env s
                         | _ => Ok analysis_summary
                         end in
         let* net_amount := get summary "net_amount" (JInt 0) in
         let* transaction_count := get summary "transaction_count" (JInt 0) in
         let* _ := format_f net_amount in
         Ok (Summarised created_at user_id net_amount transaction_count)) with
  | Ok item => item
  | Raise _ => Processing created_at user_id
  end.

(** The text of a page is determined by the values placed in its
    template, which stand for it here. *)
Inductive statements_list :=
| NoStatements                         (* "<p>No statements processed yet.</p>" *)
| Items (items : list statement_item).

Definition generate_statements_list (env : Env) (statements : list row)
  : statements_list :=
  match statements with
  | [] => NoStatements
  | _ => Items (map (statement_entry env) (slice_to statements 5))
  end.

Record dashboard_page := {
  shown_total_income : json;
  shown_total_expense : json;
  shown_net_amount : json;            (* total_income + total_expense *)
  shown_total_transactions : json;
  recent_statements : statements_list;
  pieData : list pie_entry;
  barData : list bar_entry
}.

(** A rendered document: one of the two templates of the module, with
    the values interpolated into it.  The two templates differ as texts
    and neither is empty. *)
Inductive html :=
| DefaultDashboard                 (* the text of generate_default_dashboard *)
| Dashboard (page : dashboard_page).

Definition generate_default_dashboard : html := DefaultDashboard.

Definition generate_dashboard_html (env : Env) (statements : list row)
  : result html :=
  let* data := extract_data_from_statements env statements in
  let* charts := chart_data 0 (categories_data data) in
  let total_income := data_total_income data in
  let total_expense := data_total_expense data in
  let total_transactions := data_total_transactions data in
  let* _ := format_f total_income in
  let* _ := format_f total_expense in
  let* net := iadd total_income total_expense in
  let* _ := format_f net in
  let items := generate_statements_list env statements in
  Ok (Dashboard {| shown_total_income := total_income;
                   shown_total_expense := total_expense;
                   shown_net_amount := net;
                   shown_total_transactions := total_transactions;
                   recent_statements := items;
                   pieData := fst charts;
                   barData := snd charts |}).

(** ** Loading the statements *)

Definition as_row (st : bank_statement) : option row :=
  match analysis_summary st with
  | Some summary => Some (user_id st, summary, created_at st)
  | None => None
  end.

(** [SELECT ... WHERE statement_id = %s AND analysis_summary IS NOT NULL],
    followed by [fetchone()]. *)
Definition select_current (db : database) (sid : Z) : option row :=
  match List.find (fun st => (statement_id st =? sid)
                             && bool_decide (analysis_summary st <> None))
          (bank_statements db) with
  | Some st => as_row st
  | None => None
  end.

(** Rows of the owner with a summary, other than the target. *)
Definition other_candidate (owner : str) (sid : Z) (st : bank_statement) : bool :=
  str_eqb (user_id st) owner
  && bool_decide (analysis_summary st <> None)
  && negb (statement_id st =? sid).

Definition newer_first (a b : bank_statement) : Prop :=
  created_at b <= created_at a.

#[global] Instance newer_first_dec (a b : bank_statement)
  : Decision (newer_first a b) := decide (created_at b <= created_at a).

(** [SELECT ... WHERE user_id = %s AND analysis_summary IS NOT NULL AND
    statement_id != %s ORDER BY created_at DESC LIMIT 5], followed by
    [fetchall()].  SQL leaves the order of rows with equal [created_at]
    open; here it is the one of the merge sort. *)
Definition select_others (db : database) (owner : str) (sid : Z) : list row :=
  omap as_row
    (take 5 (merge_sort newer_first
               (List.filter (other_candidate owner sid) (bank_statements db)))).

(** The result of the [try] block of [create_dashboard_html], lines
    100-128, before the handler and the [finally]. *)
Definition create_dashboard_body (env : Env) (db : database) (sid : Z)
  : result html :=
  if db_fault env HtmlConnect then Raise DatabaseError
  else if db_fault env HtmlCurrentQuery then Raise DatabaseError
  else
    match select_current db sid with
    | None => Ok generate_default_dashboard
    | Some current_statement =>
        let owner := fst (fst current_statement) in
        if db_fault env HtmlOthersQuery then Raise DatabaseError
        else
          let other_statements := select_others db owner sid in
          let all_statements := [current_statement] ++ other_statements in
          generate_dashboard_html env all_statements
    end.

(** The list handed to [generate_dashboard_html], when the two queries
    succeed and the target has a summary. *)
Definition all_statements (db : database) (sid : Z) : option (list row) :=
  match select_current db sid with
  | None => None
  | Some current_statement =>
      Some ([current_statement]
            ++ select_others db (fst (fst current_statement)) sid)
  end.

(** Any exception of the body is answered with the default document;
    the [finally] then closes the cursor and the connection, which exist
    once the connection was opened. *)
Definition create_dashboard_html (env : Env) (db : database) (sid : Z)
  : result html :=
  let r := match create_dashboard_body env db sid with
           | Ok h => h
           | Raise _ => generate_default_dashboard
           end in
  if negb (db_fault env HtmlConnect) && db_fault env HtmlClose
  then Raise DatabaseError
  else Ok r.

(** ** The artifact key *)

(** [posixpath.basename] *)
Definition basename (p : str) : str :=
  slice_from p (rfind "/" p + 1).

(** [posixpath.splitext]: the extension starts at the last dot of the
    last path component, unless only dots precede it there. *)
Definition splitext (p : str) : str * str :=
  let sepIndex := rfind "/" p in
  let dotIndex := rfind "." p in
  if (dotIndex >? sepIndex)
     && existsb (fun c => negb (Ascii.eqb c ".")) (slice p (sepIndex + 1) dotIndex)
  then (slice_to p dotIndex, slice_from p dotIndex)
  else (p, []).

(** The value of [extract_timestamp_from_filename(filename)] is bound to
    [ts] and not used, and the call cannot raise; it is left out. *)
Definition build_dashboard_key (user_id source_key : str) : str :=
  let filename := basename source_key in
  let base := fst (splitext filename) in
  let base := if str_eqb base [] then "statement" : str else base in
  "dashboard/" ++ user_id ++ "/" ++ base ++ ".html".

(** ** Upload and handler *)

(** The bucket's objects, by key. *)
Definition bucket_store := list (str * html).

Fixpoint put (k : str) (v : html) (s : bucket_store) : bucket_store :=
  match s with
  | [] => [(k, v)]
  | (k', v') :: s' => if str_eqb k k' then (k, v) :: s' else (k', v') :: put k v s'
  end.

Fixpoint get_object (k : str) (s : bucket_store) : option html :=
  match s with
  | [] => None
  | (k', v) :: s' => if str_eqb k k' then Some v else get_object k s'
  end.

(** Every exception of the upload is caught; the function returns
    nothing in both cases. *)
Definition upload_dashboard_to_s3 (env : Env) (s3 : bucket_store)
    (dashboard_s3_key : str) (html_content : html) : bucket_store :=
  if put_object_fails env dashboard_s3_key then s3
  else put dashboard_s3_key html_content s3.

Definition get_dashboard_url (env : Env) (bucket dashboard_s3_key : str) : str :=
  match generate_presigned_url env bucket dashboard_s3_key with
  | Ok url => url
  | Raise _ =>
      let region :=
        match AWS_REGION env with Some r => r | None => "ap-southeast-1" : str end in
      "https://" ++ bucket ++ ".s3." ++ region ++ ".amazonaws.com/" ++ dashboard_s3_key
  end.

(** The fields of the event that the handler reads. *)
Record event := {
  trigger_source : option str;
  ev_statement_id : option Z
}.

Inductive response_body :=
| ErrorMessage (error : str)
| ErrorRaised (e : exn)                 (* {'error': str(e)} *)
| Created (message : str) (dashboard_url dashboard_s3_key user_id : str)
          (statement_id : Z).

Record response := {
  statusCode : Z;
  body : response_body
}.

(** [SELECT user_id, s3_key FROM bank_statements WHERE statement_id =
    %s], followed by [fetchone()]. *)
Definition select_key (db : database) (sid : Z) : option (str * str) :=
  match List.find (fun st => statement_id st =? sid) (bank_statements db) with
  | Some st => Some (user_id st, s3_key st)
  | None => None
  end.

(** The [try] block of the handler; an exception becomes the 500
    response below. *)
Definition handle (env : Env) (db : database) (s3 : bucket_store) (ev : event)
  : result (response * bucket_store) :=
  if match trigger_source ev with
     | Some src => str_eqb src "bank_extract"
     | None => false
     end
  then
    match ev_statement_id ev with
    | None | Some 0 =>
        Ok ({| statusCode := 400; body := ErrorMessage "Missing statement_id" |}, s3)
    | Some sid =>
        let* dashboard_html := create_dashboard_html env db sid in
        (* [if not dashboard_html]: both documents are non-empty texts *)
        if db_fault env HandlerConnect || db_fault env HandlerQuery
           || db_fault env HandlerClose
        then Raise DatabaseError
        else
          match select_key db sid with
          | None =>
              Ok ({| statusCode := 404; body := ErrorMessage "Statement not found" |}, s3)
          | Some (user_id, s3_key) =>
              let dashboard_s3_key := build_dashboard_key user_id s3_key in
              let s3 := upload_dashboard_to_s3 env s3 dashboard_s3_key dashboard_html in
              let dashboard_url := get_dashboard_url env (S3_BUCKET env) dashboard_s3_key in
              Ok ({| statusCode := 200;
                     body := Created "Dashboard created successfully"
                               dashboard_url dashboard_s3_key user_id sid |}, s3)
          end
    end
  else Ok ({| statusCode := 400; body := ErrorMessage "Unsupported event format" |}, s3).

Definition lambda_handler (env : Env) (db : database) (s3 : bucket_store) (ev : event)
  : response * bucket_store :=
  match handle env db s3 ev with
  | Ok r => r
  | Raise e => ({| statusCode := 500; body := ErrorRaised e |}, s3)
  end.

(** ** Vocabulary of the properties *)

(** The same environment with another outcome of the upload. *)
Definition with_put_object_fails (f : str -> bool) (env : Env) : Env :=
  {| json_loads := json_loads env;
     db_fault := db_fault env;
     S3_BUCKET := S3_BUCKET env;
     put_object_fails := f;
     generate_presigned_url := generate_presigned_url env;
     AWS_REGION := AWS_REGION env |}.

End Visualize.

(** * application.py *)

Module Application.

(** [c.lower()] for a character below 256. *)
Definition py_lower (c : ascii) : ascii :=
  let n := N_of_ascii c in
  if (((65 <=? n) && (n <=? 90))
      || ((192 <=? n) && (n <=? 222) && negb (n =? 215)))%N
  then ascii_of_N (n + 32) else c.

(** Lines 73-74: [filename.rsplit(".", 1)[1]] is what follows the last
    dot. *)
Definition is_allowed_file (filename : str) : bool :=
  negb (find "." filename =? -1)
  && str_eqb (map py_lower (slice_from filename (rfind "." filename + 1))) "pdf".

(** Lines 76-81.  [secure_filename] is werkzeug's; [ts] is the time of
    the call as fourteen digits and [unique] the first eight digits of
    a fresh UUID. *)
Definition generate_statement_key (secure_filename : str -> str) (ts unique : str)
    (user_id filename : str) : str :=
  let base := fst (Visualize.splitext (secure_filename filename)) in
  let base := if str_eqb base [] then "statement" : str else base in
  "statements/" ++ user_id ++ "/" ++ base ++ "-" ++ ts ++ "-" ++ unique ++ ".pdf".

(** Line 208: the metadata stored with an uploaded object. *)
Definition upload_metadata (user_id : str) : list (str * str) :=
  [("user_id" : str, user_id)].

End Application.

(** * Vocabulary of the further properties *)

(** What one page adds to the text of a local extractor: its text and a
    newline, or nothing for a page without text or one whose extraction
    raised and was passed over. *)
Definition page_line (page : result (option str)) : str :=
  match page with
  | Ok (Some t) => if str_eqb t [] then [] else t ++ nl
  | Ok None | Raise _ => []
  end.

(** What one OCR block adds to the text. *)
Definition block_line (b : Bankextract.block) : str :=
  match Bankextract.BlockType b with
  | Some ty =>
      if str_eqb ty "LINE"
      then match Bankextract.Text b with Some t => t | None => [] end ++ nl
      else []
  | None => []
  end.

(** The elements at the even positions 0, 2, 4, ... *)
Fixpoint every_other {A} (l : list A) : list A :=
  match l with
  | [] => []
  | x :: l' => x :: match l' with
                    | [] => []
                    | _ :: r => every_other r
                    end
  end.

(** A text with the object [{body}] after a part free of [{] and before
    a part free of [}]. *)
Definition braced (body t : str) : Prop :=
  exists a b, t = a ++ ("{" : str) ++ body ++ ("}" : str) ++ b
              /\ find "{" a = -1 /\ find "}" b = -1.

(** Whether a decoded value is a JSON object. *)
Definition is_object (v : json) : bool :=
  match v with
  | JDict _ => true
  | _ => false
  end.

(** Line 309 of the extraction lambda: [response['Metadata'].get('user-id')]. *)
Definition metadata_user_id (metadata : list (str * str)) : option str :=
  match List.find (fun entry => str_eqb (fst entry) "user-id") metadata with
  | Some entry => Some (snd entry)
  | None => None
  end.

(** The payload of [trigger_dashboard_creation], lines 58-61 of the
    extraction lambda, as the dashboard lambda receives it. *)
Definition trigger_event (sid : Z) : Visualize.event :=
  {| Visualize.trigger_source := Some ("bank_extract" : str);
     Visualize.ev_statement_id := Some sid |}.

(** The whole number held by a field of a summary, [0] for an absent
    field. *)
Definition whole_field (k : str) (summary : json) : option Z :=
  match get summary k (JInt 0) with
  | Ok (JInt z) => Some z
  | _ => None
  end.

(** A summary that is an object whose four totals are whole numbers. *)
Definition whole_summary (statement : Visualize.row) : Prop :=
  let summary := snd (fst statement) in
  is_object summary = true
  /\ forall k, In k ["total_income" : str; "total_expense" : str; "net_amount" : str;
                     "transaction_count" : str] ->
       exists z, whole_field k summary = Some z.

Definition field_sum (k : str) (statements : list Visualize.row) : Z :=
  fold_right (fun statement s =>
                match whole_field k (snd (fst statement)) with
                | Some z => z + s
                | None => s
                end) 0 statements.

(** [|b| <= |a|] for two whole amounts. *)
Definition abs_ge (a b : json) : Prop :=
  match a, b with
  | JInt x, JInt y => Z.abs y <= Z.abs x
  | _, _ => False
  end.

Definition is_whole (v : json) : bool :=
  match v with JInt _ => true | _ => false end.

(** The object's metadata names no owner. *)
Definition no_owner_in_metadata (env : Bankextract.Env) (bucket key : str) : Prop :=
  match Bankextract.head_object_user_id env bucket key with
  | Ok (Some u) => u = []
  | Ok None | Raise _ => True
  end.

(** Two aggregates with the same four totals. *)
Definition same_totals (a b : Visualize.aggregate) : Prop :=
  Visualize.total_income a = Visualize.total_income b
  /\ Visualize.total_expense a = Visualize.total_expense b
  /\ Visualize.net_amount a = Visualize.net_amount b
  /\ Visualize.total_transactions a = Visualize.total_transactions b.

(** Whole keys, in descending order. *)
Definition key_ge (x y : Visualize.keyed) : Prop :=
  abs_ge (snd (fst (snd x))) (snd (fst (snd y))).

(** An entry with a whole amount and its absolute value for a key. *)
Definition whole_key (x : Visualize.keyed) : Prop :=
  exists z, snd (fst (snd x)) = JInt z /\ fst x = JInt (Z.abs z).

(** * Situations used in the examples *)

(** A scanned statement of about 1 kB: its one page has no text layer,
    OCR reads a single short line, and the model endpoint is down. *)
Definition scanned_env : Bankextract.Env :=
  {| Bankextract.PDFPLUMBER_AVAILABLE := true;
     Bankextract.PYPDF_AVAILABLE := true;
     Bankextract.TEXTRACT_AVAILABLE := true;
     Bankextract.download_file := fun _ _ => Ok 1000;
     Bankextract.pdfplumber_open := Ok [Ok None];
     Bankextract.PdfReader := Ok [Ok None];
     Bankextract.pypdf_del_supported := true;
     Bankextract.detect_document_text := fun _ _ =>
       Ok [{| Bankextract.BlockType := Some ("PAGE" : str);
              Bankextract.Text := None |};
           {| Bankextract.BlockType := Some ("LINE" : str);
              Bankextract.Text := Some ("Account summary 2024" : str) |}];
     Bankextract.BEDROCK_MODEL_ID := None;
     Bankextract.invoke_model := fun _ _ => Raise ClientError;
     Bankextract.json_loads := fun _ => Raise JSONDecodeError;
     Bankextract.repr := fun _ => [];
     Bankextract.today := mkdate 2024 6 1;
     Bankextract.now := 1000;
     Bankextract.head_object_user_id := fun _ _ => Ok (Some ("u1" : str));
     Bankextract.connect_fails := false;
     Bankextract.insert_rejected := fun _ => false;
     Bankextract.update_summary_fails := false;
     Bankextract.commit_fails := false;
     Bankextract.lambda_invoke_fails := false |}.

Definition one_user : database :=
  {| users := ["u1" : str]; bank_statements := []; transactions := [] |}.

Definition one_statement : database :=
  {| users := ["u1" : str];
     bank_statements :=
       [{| statement_id := 1; user_id := "u1"; s3_key := "statements/u1/jan.pdf";
           process_status := PROCESSING; created_at := 1000;
           analysis_summary := None |}];
     transactions := [] |}.

Definition salary : json :=
  JDict [("date" : str, JStr "2024-01-05");
         ("description" : str, JStr "Salary");
         ("amount" : str, JInt 2500);
         ("category" : str, JStr "salary")].

(** A transaction whose amount is an integer of 401 digits. *)
Definition oversized : json :=
  JDict [("date" : str, JStr "2024-01-06");
         ("description" : str, JStr "Card payment");
         ("amount" : str, JInt (10 ^ 400));
         ("category" : str, JStr "food")].

Definition model_output : json :=
  JDict [("transactions" : str, JList [salary; oversized]);
         ("analysis" : str, JDict [("total_income" : str, JInt 2500)])].


(** A dashboard lambda whose services all answer; its decoder is only
    given texts that are not JSON. *)
Definition plain_env : Visualize.Env :=
  {| Visualize.json_loads := fun _ => Raise JSONDecodeError;
     Visualize.db_fault := fun _ => false;
     Visualize.S3_BUCKET := "bank-dashboards";
     Visualize.put_object_fails := fun _ => false;
     Visualize.generate_presigned_url := fun bucket key =>
       Ok (("https://" : str) ++ bucket ++ ("/" : str) ++ key);
     Visualize.AWS_REGION := None |}.

Definition statement_at (id : Z) (name : str) : bank_statement :=
  {| statement_id := id;
     user_id := "u1";
     s3_key := ("statements/u1/" : str) ++ name ++ (".pdf" : str);
     process_status := COMPLETED;
     created_at := 10 * id;
     analysis_summary := Some (JDict [("transaction_count" : str, JInt 1)]) |}.

(** Seven analysed statements of one owner, oldest first. *)
Definition seven_statements : database :=
  {| users := ["u1" : str];
     bank_statements :=
       [statement_at 1 "jan"; statement_at 2 "feb"; statement_at 3 "mar";
        statement_at 4 "apr"; statement_at 5 "may"; statement_at 6 "jun";
        statement_at 7 "jul"];
     transactions := [] |}.


(** A statement whose summary has a category total that is a text. *)
Definition text_category_amount : database :=
  {| users := ["u1" : str];
     bank_statements :=
       [{| statement_id := 1; user_id := "u1"; s3_key := "statements/u1/jan.pdf";
           process_status := COMPLETED; created_at := 10;
           analysis_summary :=
             Some (JDict [("total_income" : str, JInt 1000);
                          ("categories_amount" : str,
                           JDict [("Food" : str,
                                   JDict [("total_amount" : str, JStr "12.50");
                                          ("transaction_count" : str, JInt 1)])])]) |}];
     transactions := [] |}.

(** A decoder that knows the empty object. *)
Definition loads_empty_object (s : str) : result json :=
  if str_eqb s "{}" then Ok (JDict []) else Raise JSONDecodeError.

(** An environment whose objects carry no [user-id] metadata. *)
Definition without_metadata (env : Bankextract.Env) : Bankextract.Env :=
  {| Bankextract.PDFPLUMBER_AVAILABLE := Bankextract.PDFPLUMBER_AVAILABLE env;
     Bankextract.PYPDF_AVAILABLE := Bankextract.PYPDF_AVAILABLE env;
     Bankextract.TEXTRACT_AVAILABLE := Bankextract.TEXTRACT_AVAILABLE env;
     Bankextract.download_file := Bankextract.download_file env;
     Bankextract.pdfplumber_open := Bankextract.pdfplumber_open env;
     Bankextract.PdfReader := Bankextract.PdfReader env;
     Bankextract.pypdf_del_supported := Bankextract.pypdf_del_supported env;
     Bankextract.detect_document_text := Bankextract.detect_document_text env;
     Bankextract.BEDROCK_MODEL_ID := Bankextract.BEDROCK_MODEL_ID env;
     Bankextract.invoke_model := Bankextract.invoke_model env;
     Bankextract.json_loads := Bankextract.json_loads env;
     Bankextract.repr := Bankextract.repr env;
     Bankextract.today := Bankextract.today env;
     Bankextract.now := Bankextract.now env;
     Bankextract.head_object_user_id := fun _ _ => Ok None;
     Bankextract.connect_fails := Bankextract.connect_fails env;
     Bankextract.insert_rejected := Bankextract.insert_rejected env;
     Bankextract.update_summary_fails := Bankextract.update_summary_fails env;
     Bankextract.commit_fails := Bankextract.commit_fails env;
     Bankextract.lambda_invoke_fails := Bankextract.lambda_invoke_fails env |}.

(** A server that refuses a row whose amount is not a finite number. *)
Definition finite_amounts_only (env : Bankextract.Env) : Bankextract.Env :=
  {| Bankextract.PDFPLUMBER_AVAILABLE := Bankextract.PDFPLUMBER_AVAILABLE env;
     Bankextract.PYPDF_AVAILABLE := Bankextract.PYPDF_AVAILABLE env;
     Bankextract.TEXTRACT_AVAILABLE := Bankextract.TEXTRACT_AVAILABLE env;
     Bankextract.download_file := Bankextract.download_file env;
     Bankextract.pdfplumber_open := Bankextract.pdfplumber_open env;
     Bankextract.PdfReader := Bankextract.PdfReader env;
     Bankextract.pypdf_del_supported := Bankextract.pypdf_del_supported env;
     Bankextract.detect_document_text := Bankextract.detect_document_text env;
     Bankextract.BEDROCK_MODEL_ID := Bankextract.BEDROCK_MODEL_ID env;
     Bankextract.invoke_model := Bankextract.invoke_model env;
     Bankextract.json_loads := Bankextract.json_loads env;
     Bankextract.repr := Bankextract.repr env;
     Bankextract.today := Bankextract.today env;
     Bankextract.now := Bankextract.now env;
     Bankextract.head_object_user_id := Bankextract.head_object_user_id env;
     Bankextract.connect_fails := Bankextract.connect_fails env;
     Bankextract.insert_rejected := fun row =>
       match amount row with
       | S754_infinity _ | S754_nan => true
       | _ => false
       end;
     Bankextract.update_summary_fails := Bankextract.update_summary_fails env;
     Bankextract.commit_fails := Bankextract.commit_fails env;
     Bankextract.lambda_invoke_fails := Bankextract.lambda_invoke_fails env |}.

(** A transaction whose amount is the text [inf]. *)
Definition infinite : json :=
  JDict [("date" : str, JStr "2024-01-04");
         ("description" : str, JStr "Transfer");
         ("amount" : str, JStr "inf");
         ("category" : str, JStr "transfer")].

(** A PDF of about 1 kB with the given pages, for both local
    extractors; the other services answer as for the scanned
    statement. *)
Definition pdf_env (pages : list (result (option str))) (del_supported : bool)
  : Bankextract.Env :=
  {| Bankextract.PDFPLUMBER_AVAILABLE := true;
     Bankextract.PYPDF_AVAILABLE := true;
     Bankextract.TEXTRACT_AVAILABLE := true;
     Bankextract.download_file := fun _ _ => Ok 1000;
     Bankextract.pdfplumber_open := Ok pages;
     Bankextract.PdfReader := Ok pages;
     Bankextract.pypdf_del_supported := del_supported;
     Bankextract.detect_document_text := Bankextract.detect_document_text scanned_env;
     Bankextract.BEDROCK_MODEL_ID := None;
     Bankextract.invoke_model := fun _ _ => Raise ClientError;
     Bankextract.json_loads := fun _ => Raise JSONDecodeError;
     Bankextract.repr := fun _ => [];
     Bankextract.today := mkdate 2024 6 1;
     Bankextract.now := 1000;
     Bankextract.head_object_user_id := fun _ _ => Ok (Some ("u1" : str));
     Bankextract.connect_fails := false;
     Bankextract.insert_rejected := fun _ => false;
     Bankextract.update_summary_fails := false;
     Bankextract.commit_fails := false;
     Bankextract.lambda_invoke_fails := false |}.

(** Three pages with a text layer; the extraction of the second
    raises. *)
Definition three_pages : list (result (option str)) :=
  [Ok (Some ("Opening balance 100" : str)); Raise ValueError;
   Ok (Some ("Closing balance 90" : str))].

Definition clean_pages : list (result (option str)) :=
  [Ok (Some ("Opening balance 100" : str)); Ok (Some ("Card payment -10" : str));
   Ok (Some ("Closing balance 90" : str))].

(** A database without users. *)
Definition no_users : database :=
  {| users := []; bank_statements := []; transactions := [] |}.

(** The rows of two statements with whole-number summaries. *)
Definition two_summaries : list Visualize.row :=
  [("u1" : str,
    JDict [("total_income" : str, JInt 100);
           ("total_expense" : str, JInt (-40));
           ("net_amount" : str, JInt 60);
           ("transaction_count" : str, JInt 3);
           ("categories_amount" : str,
            JDict [("food" : str,
                    JDict [("total_amount" : str, JInt (-40));
                           ("transaction_count" : str, JInt 2)]);
                   ("salary" : str,
                    JDict [("total_amount" : str, JInt 100);
                           ("transaction_count" : str, JInt 1)])])],
    20);
   ("u1" : str,
    JDict [("total_income" : str, JInt 0);
           ("total_expense" : str, JInt (-75));
           ("net_amount" : str, JInt (-75));
           ("categories_amount" : str,
            JDict [("rent" : str,
                    JDict [("total_amount" : str, JInt (-50));
                           ("transaction_count" : str, JInt 1)]);
                   ("food" : str,
                    JDict [("total_amount" : str, JInt (-25));
                           ("transaction_count" : str, JInt 1)])])],
    10)].

(** The database is lost while the [COMPLETED] update is committed:
    that commit raises, and so does the [FAILED] update of the
    handler. *)
Definition lost_at_completion : Bankextract.faults :=
  {| Bankextract.user_query_fails := false;
     Bankextract.upsert_fails := false;
     Bankextract.upsert_commit_fails := false;
     Bankextract.completed_update_fails := false;
     Bankextract.completed_commit_fails := true;
     Bankextract.failed_update_fails := true;
     Bankextract.failed_commit_fails := false;
     Bankextract.close_fails := false |}.

(** * Properties *)

(** ** The library models on small inputs *)

Example strip_removes_outer_space : strip ("  ab c  " : str) = ("ab c" : str).
Proof. reflexivity. Qed.

Example find_and_rfind :
  find "{" ("abc" : str) = -1 /\ rfind "}" ("a}b}" : str) = 3.
Proof. split; reflexivity. Qed.

Example slices :
  slice ("abcdef" : str) 2 1 = [] /\ slice_to ("abcdef" : str) (-3) = ("abc" : str)
  /\ slice_to ("ab" : str) (-3) = [] /\ slice_from ("ab" : str) 7 = [].
Proof. repeat split; reflexivity. Qed.

Example float_rejects_text : float_of_str "abc" = Raise ValueError.
Proof. reflexivity. Qed.

Example float_reads_decimal :
  float_of_str " 1.5 " = Ok (S754_finite false 6755399441055744 (-52))
  /\ float_of_str "0.1" = Ok (S754_finite false 7205759403792794 (-56))
  /\ float_of_str "1_0" = float_of_str "10"
  /\ float_of_str "1__0" = Raise ValueError
  /\ float_of_str "-Infinity" = Ok (S754_infinity true).
Proof. repeat split; vm_compute; reflexivity. Qed.

Example float_of_int_limit :
  float_of_int (2 ^ 1024 - 2 ^ 970) = Raise OverflowError
  /\ float_of_int (2 ^ 1024 - 2 ^ 970 - 1)
     = Ok (S754_finite false 9007199254740991 971).
Proof. split; vm_compute; reflexivity. Qed.

Example strptime_formats :
  strptime "2024-1-5" Y_m_d_dash = Ok (mkdate 2024 1 5)
  /\ strptime "13/01/2024" d_m_Y_slash = Ok (mkdate 2024 1 13)
  /\ strptime "13/01/2024" m_d_Y_slash = Raise ValueError
  /\ strptime "2024/1/2" Y_m_d_slash = Ok (mkdate 2024 1 2)
  /\ strptime "2024-02-29" Y_m_d_dash = Ok (mkdate 2024 2 29)
  /\ strptime "2023-02-29" Y_m_d_dash = Raise ValueError
  /\ strptime "0000-01-01" Y_m_d_dash = Raise ValueError
  /\ strptime "2024-01-01 " Y_m_d_dash = Raise ValueError.
Proof. repeat split; reflexivity. Qed.

Example splitext_cases :
  Visualize.splitext "b.tar.gz" = (("b.tar" : str), (".gz" : str))
  /\ Visualize.splitext ".pdf" = ((".pdf" : str), [])
  /\ Visualize.splitext "b." = (("b" : str), ("." : str))
  /\ Visualize.basename "statements/u1/" = [].
Proof. repeat split; reflexivity. Qed.

Example json_content_cases :
  Bankextract.json_content " {a}b} " = ("{a}b}" : str)
  /\ Bankextract.json_content "}{" = []
  /\ Bankextract.json_content "x}" = ("x}" : str)
  /\ Bankextract.json_content "{" = [].
Proof. repeat split; reflexivity. Qed.


(** ** Strings *)

Lemma len_app (a b : str) : len (a ++ b) = len a + len b.
Proof. unfold len. rewrite length_app. lia. Qed.

Lemma len_nonneg (s : str) : 0 <= len s.
Proof. unfold len. lia. Qed.

Lemma len_nil_inv (s : str) : len s = 0 -> s = [].
Proof. destruct s; [done|]. unfold len; simpl; lia. Qed.

Lemma str_eqb_eq (a b : str) : str_eqb a b = true <-> a = b.
Proof. unfold str_eqb. apply bool_decide_eq_true. Qed.

Lemma str_eqb_neq (a b : str) : str_eqb a b = false <-> a <> b.
Proof. unfold str_eqb. apply bool_decide_eq_false. Qed.

Lemma lstrip_spaces (ws s : str) :
  Forall (fun c => isspace c = true) ws -> lstrip (ws ++ s) = lstrip s.
Proof. induction 1 as [|c ws Hc _ IH]; simpl; [done|]. by rewrite Hc. Qed.

Lemma lstrip_head (c : ascii) (s : str) :
  isspace c = false -> lstrip (c :: s) = c :: s.
Proof. intros H. simpl. by rewrite H. Qed.

Lemma rstrip_spaces (s ws : str) :
  Forall (fun c => isspace c = true) ws -> rstrip (s ++ ws) = rstrip s.
Proof.
  intros H. unfold rstrip. rewrite rev_app_distr, lstrip_spaces; [done|].
  by apply Forall_rev.
Qed.

Lemma rstrip_last (s : str) (c : ascii) :
  isspace c = false -> rstrip (s ++ [c]) = s ++ [c].
Proof.
  intros H. unfold rstrip. rewrite rev_app_distr. simpl.
  rewrite H. simpl. by rewrite rev_involutive.
Qed.

(** A text between two characters that are not white space is its own
    [strip]. *)
Lemma strip_bracketed (c d : ascii) (s : str) :
  isspace c = false -> isspace d = false ->
  strip (c :: s ++ [d]) = c :: s ++ [d].
Proof.
  intros Hc Hd. unfold strip. rewrite lstrip_head by done.
  apply (rstrip_last (c :: s) d Hd).
Qed.

Lemma strip_padded (ws1 ws2 s : str) (c d : ascii) :
  Forall (fun c => isspace c = true) ws1 ->
  Forall (fun c => isspace c = true) ws2 ->
  isspace c = false -> isspace d = false ->
  strip (ws1 ++ (c :: s ++ [d]) ++ ws2) = c :: s ++ [d].
Proof.
  intros H1 H2 Hc Hd. unfold strip.
  rewrite lstrip_spaces by done.
  change ((c :: s ++ [d]) ++ ws2) with (c :: (s ++ [d]) ++ ws2).
  rewrite lstrip_head by done.
  change (c :: (s ++ [d]) ++ ws2) with ((c :: s ++ [d]) ++ ws2).
  rewrite rstrip_spaces by done.
  apply (rstrip_last (c :: s) d Hd).
Qed.

Lemma startswith_app (p s : str) : startswith (p ++ s) p = true.
Proof.
  induction p as [|a p IH]; simpl; [by destruct s|]. by rewrite Ascii.eqb_refl.
Qed.

Lemma startswith_head_ne (a b : ascii) (p s : str) :
  a <> b -> startswith (b :: s) (a :: p) = false.
Proof. intros H. simpl. by apply Ascii.eqb_neq in H as ->. Qed.

Lemma endswith_app (s p : str) : endswith (s ++ p) p = true.
Proof. unfold endswith. rewrite rev_app_distr. apply startswith_app. Qed.

Lemma endswith_last_ne (a b : ascii) (p s : str) :
  a <> b -> endswith (s ++ [b]) (p ++ [a]) = false.
Proof.
  intros H. unfold endswith. rewrite !rev_app_distr. simpl.
  by apply Ascii.eqb_neq in H as ->.
Qed.

Lemma slice_from_app (p s : str) : slice_from (p ++ s) (len p) = s.
Proof.
  unfold slice_from, slice_bound, len. rewrite length_app.
  destruct (Z.ltb_spec (Z.of_nat (length p)) 0); [lia|].
  rewrite Z.min_l by lia. rewrite Nat2Z.id. by rewrite drop_app_length.
Qed.

Lemma slice_from_0 (s : str) : slice_from s 0 = s.
Proof.
  unfold slice_from, slice_bound. simpl. rewrite Z.min_l by lia. reflexivity.
Qed.

Lemma slice_to_app (s p : str) : 0 < len p -> slice_to (s ++ p) (- len p) = s.
Proof.
  unfold slice_to, slice_bound, len. rewrite length_app. intros Hp.
  destruct (Z.ltb_spec (- Z.of_nat (length p)) 0) as [H|H]; [|lia].
  rewrite Z.max_r by lia.
  replace (Z.to_nat _) with (length s) by lia. by rewrite take_app_length.
Qed.

Lemma find_nonneg_or (c : ascii) (s : str) : find c s = -1 \/ 0 <= find c s < len s.
Proof.
  induction s as [|x s IH]; simpl; [by left|].
  destruct (Ascii.eqb x c).
  - right. unfold len. simpl. lia.
  - destruct (Z.ltb_spec (find c s) 0); [by left|].
    right. unfold len in *. simpl. lia.
Qed.

Lemma find_absent_app (c : ascii) (a s : str) :
  find c a = -1 -> find c (a ++ s) = if find c s <? 0 then -1 else len a + find c s.
Proof.
  induction a as [|x a IH]; simpl.
  - intros _. destruct (find_nonneg_or c s) as [->|H]; [done|].
    destruct (Z.ltb_spec (find c s) 0); unfold len; simpl; lia.
  - destruct (Ascii.eqb x c); [done|].
    destruct (Z.ltb_spec (find c a) 0) as [Ha|Ha]; [|lia].
    intros _. destruct (find_nonneg_or c a) as [Hm|Hm]; [|lia].
    rewrite (IH Hm).
    destruct (Z.ltb_spec (find c s) 0); [done|].
    destruct (Z.ltb_spec (len a + find c s) 0); unfold len in *; simpl; lia.
Qed.

Lemma find_head (c : ascii) (s : str) : find c (c :: s) = 0.
Proof. simpl. by rewrite Ascii.eqb_refl. Qed.

(** The first [c] of [a ++ c :: s] when [a] has none. *)
Lemma find_first (c : ascii) (a s : str) :
  find c a = -1 -> find c (a ++ c :: s) = len a.
Proof.
  intros H. rewrite find_absent_app by done. rewrite find_head. simpl. lia.
Qed.

Lemma find_absent_rev (c : ascii) (b : str) : find c b = -1 -> find c (rev b) = -1.
Proof.
  induction b as [|x b IH]; simpl; [done|].
  destruct (Ascii.eqb x c) eqn:E; [done|].
  destruct (Z.ltb_spec (find c b) 0) as [Hb|Hb]; [|lia].
  destruct (find_nonneg_or c b) as [Hm|Hm]; [|lia].
  intros _. rewrite find_absent_app by auto. simpl. by rewrite E.
Qed.

Lemma rfind_absent (c : ascii) (s : str) : find c s = -1 -> rfind c s = -1.
Proof. intros H. unfold rfind. by rewrite find_absent_rev. Qed.

(** The last [c] of [s ++ c :: b] when [b] has none. *)
Lemma rfind_last (c : ascii) (s b : str) :
  find c b = -1 -> rfind c (s ++ c :: b) = len s.
Proof.
  intros H. unfold rfind.
  rewrite rev_app_distr. simpl. rewrite <- app_assoc. simpl.
  rewrite find_first by (by apply find_absent_rev).
  rewrite !len_app. unfold len. simpl. rewrite length_rev.
  destruct (Z.ltb_spec (Z.of_nat (length b)) 0); lia.
Qed.

Lemma slice_middle (a m b : str) :
  slice (a ++ m ++ b) (len a) (len a + len m) = m.
Proof.
  unfold slice, slice_bound, len. rewrite !length_app.
  destruct (Z.ltb_spec (Z.of_nat (length a)) 0); [lia|].
  destruct (Z.ltb_spec (Z.of_nat (length a) + Z.of_nat (length m)) 0); [lia|].
  rewrite !Z.min_l by lia.
  rewrite Nat2Z.id, drop_app_length.
  replace (Z.to_nat _) with (length m) by lia. by rewrite take_app_length.
Qed.

Lemma slice_of_empty_prefix (p : str) (a d : Z) :
  0 <= a -> slice_to p d = [] -> slice p a d = [].
Proof.
  unfold slice_to, slice. intros Ha H.
  set (n := Z.of_nat (length p)) in *.
  set (d' := slice_bound n d) in *.
  assert (Hd : Z.to_nat d' = 0%nat \/ p = []).
  { destruct p; [by right|]. left. destruct (Z.to_nat d'); [done|discriminate]. }
  destruct Hd as [Hd| ->]; [|by rewrite drop_nil, take_nil].
  assert (0 <= slice_bound n a).
  { unfold slice_bound. destruct (Z.ltb_spec a 0); subst n; lia. }
  replace (Z.to_nat (d' - slice_bound n a)) with 0%nat by lia. reflexivity.
Qed.


(** Equal concatenations, up to bracketing and literals. *)
Ltac app_eq :=
  repeat (progress cbn [app list_ascii_of_string] || rewrite <- app_assoc);
  reflexivity.


Lemma bind_raise_inv {A B} (c : result A) (k : A -> result B) (e : exn) :
  bind c k = Raise e -> c = Raise e \/ exists a, c = Ok a /\ k a = Raise e.
Proof.
  destruct c as [a|e']; simpl; intros H; [right; eauto|left; congruence].
Qed.

Lemma bind_ok_inv {A B} (c : result A) (k : A -> result B) (b : B) :
  bind c k = Ok b -> exists a, c = Ok a /\ k a = Ok b.
Proof. destruct c; simpl; [eauto|discriminate]. Qed.

(** Inversion of a hypothesis about a sequence of [let*]. *)
Ltac bind_inv H :=
  match type of H with
  | bind _ _ = Raise _ =>
      let a := fresh "a" in let Ha := fresh "Ha" in
      apply bind_raise_inv in H as [H|(a & Ha & H)]
  | bind _ _ = Ok _ =>
      let a := fresh "a" in let Ha := fresh "Ha" in
      apply bind_ok_inv in H as (a & Ha & H)
  end.






Section Extraction.
Import Bankextract.

Lemma json_ws_isspace (ws : str) :
  forallb json_ws ws = true -> Forall (fun c => isspace c = true) ws.
Proof.
  intros H. apply Forall_forall. intros c Hc.
  apply list_elem_of_In in Hc.
  rewrite forallb_forall in H. specialize (H c Hc). unfold json_ws in H.
  repeat (apply orb_true_iff in H as [H|H]);
    apply Ascii.eqb_eq in H; by subst c.
Qed.

Lemma json_ws_no_char (c : ascii) (ws : str) :
  json_ws c = false -> forallb json_ws ws = true -> find c ws = -1.
Proof.
  intros Hc. induction ws as [|x ws IH]; simpl; [done|].
  intros [Hx Hws]%andb_true_iff.
  destruct (Ascii.eqb_spec x c) as [->|_]; [congruence|].
  by rewrite (IH Hws).
Qed.

(** Lines 228-235 on a text with one outermost pair of braces. *)
Lemma json_content_braces (a body b : str) :
  find "{" a = -1 -> find "}" b = -1 ->
  json_content (a ++ ("{" : str) ++ body ++ ("}" : str) ++ b)
  = ("{" : str) ++ body ++ ("}" : str).
Proof.
  intros Ha Hb. unfold json_content.
  assert (Hs : find "{" (a ++ ("{" : str) ++ body ++ ("}" : str) ++ b) = len a)
    by (apply (find_first "{" a (body ++ ("}" : str) ++ b) Ha)).
  assert (He : rfind "}" (a ++ ("{" : str) ++ body ++ ("}" : str) ++ b)
               = len a + 1 + len body).
  { replace (a ++ ("{" : str) ++ body ++ ("}" : str) ++ b)
      with ((a ++ ("{" : str) ++ body) ++ "}"%char :: b)
      by app_eq.
    rewrite rfind_last by done. rewrite !len_app.
    change (len ("{" : str)) with 1. lia. }
  rewrite Hs, He.
  pose proof (len_nonneg a). pose proof (len_nonneg body).
  destruct (Z.eqb_spec (len a) (-1)); [lia|].
  destruct (Z.eqb_spec (len a + 1 + len body + 1) (-1)); [lia|].
  simpl negb. simpl andb.
  replace (a ++ ("{" : str) ++ body ++ ("}" : str) ++ b)
    with (a ++ (("{" : str) ++ body ++ ("}" : str)) ++ b)
    by app_eq.
  replace (len a + 1 + len body + 1)
    with (len a + len (("{" : str) ++ body ++ ("}" : str)))
    by (rewrite !len_app; unfold len; simpl; lia).
  apply slice_middle.
Qed.

Lemma strip_fence_fenced (tag s : str) :
  tag = [] \/ tag = ("json" : str) ->
  strip_fence (strip (fenced tag s)) = nl ++ s ++ nl.
Proof.
  intros Htag.
  assert (Hstrip : strip (fenced tag s) = fenced tag s).
  { unfold fenced.
    replace (("```" : str) ++ tag ++ nl ++ s ++ nl ++ ("```" : str))
      with ("`"%char :: (("``" : str) ++ tag ++ nl ++ s ++ nl ++ ("``" : str)) ++ ["`"%char])
      by app_eq.
    by apply strip_bracketed. }
  rewrite Hstrip. unfold strip_fence, fenced.
  assert (Hend : forall t : str,
             endswith (t ++ ("```" : str)) "```" = true
             /\ slice_to (t ++ ("```" : str)) (-3) = t).
  { intros t. split; [apply endswith_app|].
    apply (slice_to_app t ("```" : str)). reflexivity. }
  destruct Htag as [->| ->].
  - simpl app at 1.
    change (startswith _ ("```json" : str)) with false. cbv iota.
    change (startswith _ ("```" : str)) with true. cbv iota.
    change (slice_from _ 3) with (slice_from (("```" : str) ++ nl ++ s ++ nl ++ ("```" : str)) (len ("```" : str))).
    rewrite slice_from_app.
    replace (nl ++ s ++ nl ++ ("```" : str)) with ((nl ++ s ++ nl) ++ ("```" : str))
      by app_eq.
    destruct (Hend (nl ++ s ++ nl)) as [-> ->]. done.
  - replace (("```" : str) ++ ("json" : str) ++ nl ++ s ++ nl ++ ("```" : str))
      with (("```json" : str) ++ nl ++ s ++ nl ++ ("```" : str)) by reflexivity.
    rewrite startswith_app.
    change 7 with (len ("```json" : str)).
    rewrite slice_from_app.
    replace (nl ++ s ++ nl ++ ("```" : str)) with ((nl ++ s ++ nl) ++ ("```" : str))
      by app_eq.
    destruct (Hend (nl ++ s ++ nl)) as [-> ->]. done.
Qed.

Lemma strip_fence_object (body : str) :
  strip_fence (("{" : str) ++ body ++ ("}" : str)) = ("{" : str) ++ body ++ ("}" : str).
Proof.
  unfold strip_fence.
  change (startswith _ ("```json" : str)) with false. cbv iota.
  change (startswith _ ("```" : str)) with false. cbv iota.
  replace (("{" : str) ++ body ++ ("}" : str)) with ((("{" : str) ++ body) ++ ["}"%char])
    by app_eq.
  change ("```" : str) with (("``" : str) ++ ["`"%char]).
  by rewrite endswith_last_ne.
Qed.

(** C4.  For a text [s] that is a JSON object between optional JSON
    white space, the reply [s] wrapped in a code fence, with or without
    the [json] tag, is parsed to the same result as [s] itself: both
    hand the object's text to the decoder, whatever the decoder is. *)
Theorem fenced_reply_parses_alike
    (loads : str -> result json) (tag ws1 body ws2 : str) :
  tag = [] \/ tag = ("json" : str) ->
  forallb json_ws ws1 = true ->
  forallb json_ws ws2 = true ->
  let object := ("{" : str) ++ body ++ ("}" : str) in
  let s := ws1 ++ object ++ ws2 in
  parse_reply loads (fenced tag s) = parse_reply loads s
  /\ parse_reply loads s = loads object.
Proof.
  intros Htag H1 H2 object s.
  assert (Hfenced : parse_reply loads (fenced tag s) = loads object).
  { unfold parse_reply. rewrite strip_fence_fenced by done.
    f_equal. subst s object.
    replace (nl ++ (ws1 ++ (("{" : str) ++ body ++ ("}" : str)) ++ ws2) ++ nl)
      with ((nl ++ ws1) ++ ("{" : str) ++ body ++ ("}" : str) ++ (ws2 ++ nl))
      by app_eq.
    apply json_content_braces.
    - apply (json_ws_no_char "{" (nl ++ ws1)); [done|].
      rewrite forallb_app, H1. reflexivity.
    - apply (json_ws_no_char "}" (ws2 ++ nl)); [done|].
      rewrite forallb_app, H2. reflexivity. }
  split; [rewrite Hfenced; symmetry|];
  unfold parse_reply; f_equal; subst s object.
  all: replace (ws1 ++ (("{" : str) ++ body ++ ("}" : str)) ++ ws2)
      with (ws1 ++ ("{"%char :: body ++ ["}"%char]) ++ ws2) by reflexivity.
  all: rewrite strip_padded by (try apply json_ws_isspace; done).
  all: change ("{"%char :: body ++ ["}"%char]) with (("{" : str) ++ body ++ ("}" : str)).
  all: rewrite strip_fence_object.
  all: apply (json_content_braces [] body []); reflexivity.
Qed.


(** ** The short-text guard *)

(** C7.  A text that is empty, or shorter than 10 characters once
    stripped, gets the fixed empty analysis, and no request goes to the
    model endpoint. *)
Theorem short_text_is_not_sent_to_the_model (env : Env) (text : str) :
  text = [] \/ len (strip text) < 10 ->
  banktract_from_text env text
  = (JDict [("transactions" : str, JList []);
            ("analysis" : str,
             JDict [("total_income" : str, JInt 0);
                    ("total_expense" : str, JInt 0);
                    ("net_amount" : str, JInt 0);
                    ("categories" : str, JList [])])],
     []).
Proof.
  intros H. unfold banktract_from_text.
  destruct H as [->|H]; [reflexivity|].
  apply Z.ltb_lt in H. rewrite H, orb_true_r. reflexivity.
Qed.


(** ** The extraction cascade *)

Lemma insufficient_iff (text : str) :
  insufficient text = true <-> len (strip text) < 50.
Proof.
  unfold insufficient. rewrite orb_true_iff, Z.ltb_lt. split; [|tauto].
  intros [H|H]; [|done]. apply str_eqb_eq in H. by subst text.
Qed.

Lemma insufficient_false_iff (text : str) :
  insufficient text = false <-> 50 <= len (strip text).
Proof.
  rewrite <- not_true_iff_false, insufficient_iff. lia.
Qed.

(** C5.  For a downloaded document that is not empty: up to 20 MB the
    layout-aware strategy is called first, the lenient one only after
    it returned less than 50 stripped characters, and OCR only after
    both did; above 20 MB OCR is the only strategy called. *)
Theorem ocr_is_the_last_resort (env : Env) (bucket key : str) (file_size : Z) :
  download_file env bucket key = Ok file_size ->
  0 < file_size ->
  let text := fst (textract_from_s3 env bucket key) in
  let calls := snd (textract_from_s3 env bucket key) in
  (file_size <= 20 * 1024 * 1024 ->
     (calls = [Pdfplumber] \/ calls = [Pdfplumber; Pypdf]
      \/ calls = [Pdfplumber; Pypdf; Textract])
     /\ (In Pypdf calls <-> len (strip (extract_with_pdfplumber env)) < 50)
     /\ (In Textract calls <->
         len (strip (extract_with_pdfplumber env)) < 50
         /\ len (strip (extract_with_pypdf env)) < 50))
  /\ (20 * 1024 * 1024 < file_size ->
      calls = [Textract] /\ text = extract_with_textract env bucket key).
Proof.
  intros Hd Hpos text calls. subst text calls.
  unfold textract_from_s3. rewrite Hd.
  destruct (Z.eqb_spec file_size 0) as [|_]; [lia|]. simpl orb.
  destruct (Z.gtb_spec file_size (20 * 1024 * 1024)) as [Hbig|Hsmall].
  - destruct (Z.gtb_spec file_size 0); [|lia]. simpl. split; [lia|done].
  - split; [intros _|lia].
    destruct (insufficient (extract_with_pdfplumber env)) eqn:Ea.
    + apply insufficient_iff in Ea.
      destruct (insufficient (extract_with_pypdf env)) eqn:Eb; simpl.
      * apply insufficient_iff in Eb. intuition (auto; discriminate).
      * apply insufficient_false_iff in Eb.
        split; [auto|]. split; [intuition auto|].
        split; [intros [H|[H|[]]]; discriminate | lia].
    + rewrite Ea. apply insufficient_false_iff in Ea. simpl.
      split; [auto|].
      split; (split; [intros [H|[]]; discriminate | lia]).
Qed.







(** ** Coercion and insertion of the transactions *)




Lemma len_slice_to (s : str) (n : Z) : 0 <= n -> len (slice_to s n) <= n.
Proof.
  intros Hn. unfold slice_to, slice_bound, len.
  destruct (Z.ltb_spec n 0); [lia|]. rewrite length_take. lia.
Qed.







(** What one pass of the loop body does to the connection. *)
Lemma insert_transaction_cases env conn sid uid trans :
  insert_transaction env conn sid uid trans
  = match transaction_row env sid uid trans with
    | Raise e => (conn, Raise e)
    | Ok row =>
        if aborted conn then (conn, Raise DatabaseError)
        else if insert_rejected env row then
          ({| committed := committed conn; pending := pending conn;
              aborted := true |}, Raise DatabaseError)
        else
          ({| committed := committed conn;
              pending := add_transaction row (pending conn);
              aborted := false |}, Ok row)
    end.
Proof.
  unfold insert_transaction, execute_insert.
  destruct (transaction_row env sid uid trans) as [row|e]; [|done].
  destruct (aborted conn); [done|]. by destruct (insert_rejected env row).
Qed.




(** ** The persisted summary *)

(** The rows added by the loop are as many as the counter says. *)
Lemma insert_transactions_rows env sid uid (l : list json) conn n :
  let r := insert_transactions env sid uid l conn n in
  committed (fst r) = committed conn
  /\ exists rows,
       transactions (pending (fst r)) = transactions (pending conn) ++ rows
       /\ snd r = n + Z.of_nat (length rows)
       /\ (length rows <= length l)%nat.
Proof.
  revert conn n. induction l as [|t l IH]; intros conn n; cbn [insert_transactions].
  - split; [done|]. exists []. rewrite app_nil_r. simpl. split; [done|lia].
  - rewrite insert_transaction_cases.
    destruct (transaction_row env sid uid t) as [row|e].
    2:{ destruct (IH conn n) as (Hc & rows & Hrows & Hn & Hlen).
        split; [done|]. exists rows. simpl. split; [done|]. split; [done|lia]. }
    destruct (aborted conn).
    { destruct (IH conn n) as (Hc & rows & Hrows & Hn & Hlen).
      split; [done|]. exists rows. simpl. split; [done|]. split; [done|lia]. }
    destruct (insert_rejected env row).
    + match goal with |- context [insert_transactions _ _ _ l ?c n] =>
        destruct (IH c n) as (Hc & rows & Hrows & Hn & Hlen) end.
      split; [done|]. exists rows. simpl. split; [done|]. split; [done|lia].
    + match goal with |- context [insert_transactions _ _ _ l ?c (n + 1)] =>
        destruct (IH c (n + 1)) as (Hc & rows & Hrows & Hn & Hlen) end.
      split; [done|].
      exists (row :: rows). rewrite Hrows. simpl. rewrite <- app_assoc. simpl.
      split; [done|]. split; lia.
Qed.

(** What a successful [save_analysis_to_database] returns, and writes
    as [transaction_count], is the number of transactions in the
    model's output. *)
Lemma saved_count_is_model_count env conn sid analysis_result uid conn' n :
  save_analysis_to_database env conn sid analysis_result uid = (conn', Ok n) ->
  exists transactions,
    get analysis_result "transactions" (JList []) = Ok transactions
    /\ py_len transactions = Ok n.
Proof.
  unfold save_analysis_to_database.
  destruct (save_analysis_body _ _ _ _ _) as [[c m]|e] eqn:E; [|discriminate].
  intros [= -> ->]. unfold save_analysis_body in E.
  repeat bind_inv E.
  destruct (_ || _); [discriminate|].
  destruct (commit_fails env); [discriminate|].
  injection E as _ <-. eauto.
Qed.

(** C1, at a model output of two transactions, the second with an
    amount too large for a float.  The second transaction is skipped,
    so one row is committed; the persisted summary nevertheless has
    [transaction_count] 2, and lists the category of the skipped
    transaction. *)
Theorem persisted_count_includes_skipped_transactions :
  let r := save_analysis_to_database scanned_env (connect one_statement) 1
             model_output "u1" in
  snd r = Ok 2
  /\ map category (transactions (committed (fst r))) = [("salary" : str)]
  /\ map analysis_summary (bank_statements (committed (fst r)))
     = [Some (JDict [("total_income" : str, JInt 2500);
                     ("transaction_count" : str, JInt 2);
                     ("categories" : str, JList [JStr "salary"; JStr "food"])])].
Proof. vm_compute. repeat split. Qed.

(** ** Examples *)



Lemma fenced_reply_parses_alike_witness :
  forallb json_ws [] = true
  /\ parse_reply loads_empty_object (fenced "json" "{}")
     = parse_reply loads_empty_object "{}"
  /\ parse_reply loads_empty_object "{}" = Ok (JDict []).
Proof.
  split; [reflexivity|].
  exact (fenced_reply_parses_alike loads_empty_object "json" [] [] []
           (or_intror eq_refl) eq_refl eq_refl).
Defined.

Lemma short_text_is_not_sent_to_the_model_witness :
  len (strip ("  n/a  " : str)) < 10
  /\ snd (banktract_from_text scanned_env "  n/a  ") = [].
Proof.
  split; [reflexivity|].
  exact (f_equal snd
           (short_text_is_not_sent_to_the_model scanned_env "  n/a  "
              (or_intror eq_refl))).
Defined.

Lemma ocr_is_the_last_resort_witness :
  download_file scanned_env "bank-statements" "statements/u1/scan.pdf" = Ok 1000
  /\ (In Textract (snd (textract_from_s3 scanned_env "bank-statements"
                          "statements/u1/scan.pdf"))
      <-> len (strip (extract_with_pdfplumber scanned_env)) < 50
          /\ len (strip (extract_with_pypdf scanned_env)) < 50).
Proof.
  split; [reflexivity|].
  exact (proj2 (proj2 (proj1 (ocr_is_the_last_resort scanned_env
                                "bank-statements" "statements/u1/scan.pdf" 1000
                                eq_refl eq_refl)
                         (fun H => match H with eq_refl => I end)))).
Defined.


(** Nor is a refused row only skipped: after the row of [infinite] is
    refused, the row of [salary] is not inserted either, and the save
    raises and leaves the database as it was. *)
Example refused_row_aborts_the_batch :
  let env := finite_amounts_only scanned_env in
  let conn := connect one_statement in
  (exists row, transaction_row env 1 "u1" salary = Ok row
               /\ insert_rejected env row = false)
  /\ insert_transactions env 1 "u1" [infinite; salary] conn 0
     = ({| committed := one_statement; pending := one_statement; aborted := true |}, 0)
  /\ save_analysis_to_database env conn 1
       (JDict [("transactions" : str, JList [infinite; salary])]) "u1"
     = (conn, Raise DatabaseError).
Proof.
  split; [|split].
  - eexists. split; [vm_compute; reflexivity|reflexivity].
  - vm_compute. reflexivity.
  - vm_compute. reflexivity.
Qed.


End Extraction.

Section Dashboard.
Import Visualize.

(** ** The artifact key *)

Lemma basename_of_path (dir name : str) :
  find "/" name = -1 -> basename (dir ++ ("/" : str) ++ name) = name.
Proof.
  intros H. unfold basename.
  change (dir ++ ("/" : str) ++ name) with (dir ++ "/"%char :: name).
  rewrite rfind_last by done.
  replace (dir ++ "/"%char :: name) with ((dir ++ ("/" : str)) ++ name) by app_eq.
  replace (len dir + 1) with (len (dir ++ ("/" : str)))
    by (rewrite len_app; reflexivity).
  apply slice_from_app.
Qed.

Lemma basename_no_separator (name : str) :
  find "/" name = -1 -> basename name = name.
Proof.
  intros H. unfold basename. rewrite rfind_absent by done. apply slice_from_0.
Qed.

Lemma splitext_stem (stem ext : str) :
  find "/" stem = -1 -> find "/" ext = -1 -> find "." ext = -1 ->
  existsb (fun c => negb (Ascii.eqb c ".")) stem = true ->
  splitext (stem ++ ("." : str) ++ ext) = (stem, ("." : str) ++ ext).
Proof.
  intros Hs He Hd Hstem. unfold splitext.
  assert (Hsep : rfind "/" (stem ++ ("." : str) ++ ext) = -1).
  { apply rfind_absent. rewrite find_absent_app by done.
    change (find "/" (("." : str) ++ ext)) with
      (let r := find "/" ext in if r <? 0 then -1 else r + 1).
    rewrite He. reflexivity. }
  assert (Hdot : rfind "." (stem ++ ("." : str) ++ ext) = len stem)
    by (apply (rfind_last "." stem ext Hd)).
  rewrite Hsep, Hdot.
  pose proof (len_nonneg stem).
  destruct (Z.gtb_spec (len stem) (-1)); [|lia].
  replace (slice (stem ++ ("." : str) ++ ext) (-1 + 1) (len stem)) with stem.
  2:{ symmetry. apply (slice_middle [] stem (("." : str) ++ ext)). }
  rewrite Hstem. simpl andb. cbv iota.
  f_equal.
  - replace (len stem) with (Z.of_nat (length stem)) by reflexivity.
    unfold slice_to, slice_bound. rewrite length_app.
    destruct (Z.ltb_spec (Z.of_nat (length stem)) 0); [lia|].
    rewrite Z.min_l by lia. rewrite Nat2Z.id. apply take_app_length.
  - apply slice_from_app.
Qed.

(** The stem is empty only for the empty name. *)
Lemma splitext_stem_empty (p : str) : fst (splitext p) = [] -> p = [].
Proof.
  unfold splitext.
  destruct (rfind "." p >? rfind "/" p) eqn:E1; [|done].
  destruct (existsb _ _) eqn:E2; [|done]. simpl. intros H.
  assert (Hsep : 0 <= rfind "/" p + 1).
  { unfold rfind. destruct (Z.ltb_spec (find "/" (rev p)) 0); cbv iota; [lia|].
    assert (find "/" (rev p) < len (rev p)).
    { clear. induction (rev p) as [|x s IH]; simpl; [unfold len; simpl; lia|].
      destruct (Ascii.eqb x "/"); [unfold len; simpl; lia|].
      destruct (Z.ltb_spec (find "/" s) 0); unfold len in *; simpl; lia. }
    unfold len in *. rewrite length_rev in *. lia. }
  rewrite (slice_of_empty_prefix p _ _ Hsep H) in E2. discriminate.
Qed.

Lemma get_object_put (k : str) (v : html) (s : bucket_store) :
  get_object k (put k v s) = Some v.
Proof.
  induction s as [|[k' v'] s IH]; simpl.
  - unfold str_eqb. by rewrite bool_decide_eq_true_2.
  - destruct (str_eqb k k') eqn:E; simpl; rewrite ?E; [|done].
    unfold str_eqb. by rewrite bool_decide_eq_true_2.
Qed.

Lemma put_put_keys (k : str) (v v' : html) (s : bucket_store) :
  map fst (put k v (put k v' s)) = map fst (put k v' s).
Proof.
  induction s as [|[k' w] s IH]; simpl.
  - unfold str_eqb. by rewrite bool_decide_eq_true_2.
  - destruct (str_eqb k k') eqn:E; simpl; rewrite ?E; simpl.
    + unfold str_eqb. by rewrite bool_decide_eq_true_2.
    + by rewrite IH.
Qed.

(** C9, as the code has it.  The artifact of a source key
    [dir/stem.ext] is stored under [dashboard/{user_id}/{stem}.html];
    the stem is empty exactly when the key has no file name, and the
    base is then [statement]; and a second run for the same source
    replaces the object under the same key. *)
Theorem dashboard_key_derivation
    (env : Env) (s3 : bucket_store) (user_id dir stem ext : str) (h1 h2 : html) :
  find "/" stem = -1 -> find "/" ext = -1 -> find "." ext = -1 ->
  existsb (fun c => negb (Ascii.eqb c ".")) stem = true ->
  let source_key := dir ++ ("/" : str) ++ stem ++ ("." : str) ++ ext in
  let key := build_dashboard_key user_id source_key in
  key = ("dashboard/" : str) ++ user_id ++ ("/" : str) ++ stem ++ (".html" : str)
  /\ (forall k, fst (splitext (basename k)) = [] <-> basename k = [])
  /\ (forall k, basename k = [] ->
        build_dashboard_key user_id k
        = ("dashboard/" : str) ++ user_id ++ ("/statement.html" : str))
  /\ build_dashboard_key user_id (dir ++ ("/" : str))
     = ("dashboard/" : str) ++ user_id ++ ("/statement.html" : str)
  /\ (put_object_fails env key = false ->
      let first_run := upload_dashboard_to_s3 env s3 key h1 in
      let second_run := upload_dashboard_to_s3 env first_run key h2 in
      get_object key second_run = Some h2
      /\ map fst second_run = map fst first_run).
Proof.
  intros Hs He Hd Hstem source_key key.
  assert (Hname : find "/" (stem ++ ("." : str) ++ ext) = -1).
  { rewrite find_absent_app by done.
    change (find "/" (("." : str) ++ ext)) with
      (let r := find "/" ext in if r <? 0 then -1 else r + 1).
    rewrite He. reflexivity. }
  split; [|split; [|split; [|split]]].
  - subst key source_key. unfold build_dashboard_key.
    rewrite basename_of_path by done.
    rewrite splitext_stem by done. simpl fst.
    destruct (str_eqb stem []) eqn:E; [|done].
    apply str_eqb_eq in E. subst stem. discriminate.
  - intros k. split; [apply splitext_stem_empty|]. by intros ->.
  - intros k Hk. unfold build_dashboard_key. rewrite Hk. reflexivity.
  - unfold build_dashboard_key.
    replace (dir ++ ("/" : str)) with (dir ++ ("/" : str) ++ []) by app_eq.
    rewrite basename_of_path by done. reflexivity.
  - intros Hput first_run second_run. subst first_run second_run.
    unfold upload_dashboard_to_s3. rewrite Hput.
    split; [apply get_object_put | apply put_put_keys].
Qed.


#[local] Instance newer_first_trans : Transitive newer_first.
Proof. unfold newer_first. intros a b c. lia. Qed.

#[local] Instance newer_first_total : Total newer_first.
Proof. unfold newer_first. intros a b. lia. Qed.

Lemma other_candidate_spec (owner : str) (sid : Z) (st : bank_statement) :
  other_candidate owner sid st = true <->
  user_id st = owner /\ analysis_summary st <> None /\ statement_id st <> sid.
Proof.
  unfold other_candidate.
  rewrite !andb_true_iff, str_eqb_eq, bool_decide_eq_true, negb_true_iff, Z.eqb_neq.
  tauto.
Qed.

Lemma omap_as_row_length (l : list bank_statement) :
  Forall (fun st => analysis_summary st <> None) l ->
  length (omap as_row l) = length l.
Proof.
  induction 1 as [|st l Hst _ IH]; [done|].
  assert (exists r, as_row st = Some r) as [r Hr].
  { unfold as_row. destruct (analysis_summary st); [eauto|done]. }
  simpl. rewrite Hr. simpl. by f_equal.
Qed.

Lemma select_current_spec (db : database) (sid : Z) (current : row) :
  select_current db sid = Some current ->
  exists st, In st (bank_statements db) /\ statement_id st = sid
             /\ as_row st = Some current.
Proof.
  unfold select_current.
  destruct (List.find _ _) as [st|] eqn:E; [|done].
  apply find_some in E as [Hin Hp]. apply andb_true_iff in Hp as [Hid _].
  apply Z.eqb_eq in Hid. eauto.
Qed.

(** What the two queries load: the target's row followed by the rows of
    up to five other statements of the same owner that have a summary,
    at most six in all, the others newest first, and no other such
    statement left out is newer than one that was taken. *)
Lemma dashboard_statement_set (env : Env) (db : database) (sid : Z) (l : list row) :
  all_statements db sid = Some l ->
  exists (current : row) (others : list bank_statement),
    l = current :: omap as_row others
    /\ select_current db sid = Some current
    /\ length l = S (length others)
    /\ (length others <= 5)%nat
    /\ length others
       = Nat.min 5 (length (List.filter (other_candidate (fst (fst current)) sid)
                              (bank_statements db)))
    /\ StronglySorted newer_first others
    /\ (forall st, In st others ->
          In st (bank_statements db) /\ user_id st = fst (fst current)
          /\ analysis_summary st <> None /\ statement_id st <> sid)
    /\ (forall st st', In st others ->
          In st' (bank_statements db) -> user_id st' = fst (fst current) ->
          analysis_summary st' <> None -> statement_id st' <> sid ->
          ~ In st' others -> created_at st' <= created_at st)
    /\ (db_fault env HtmlConnect = false ->
        db_fault env HtmlCurrentQuery = false ->
        db_fault env HtmlOthersQuery = false ->
        create_dashboard_body env db sid = generate_dashboard_html env l).
Proof.
  unfold all_statements. intros H.
  destruct (select_current db sid) as [current|] eqn:Ec; [|done].
  injection H as <-.
  set (owner := fst (fst current)).
  set (cands := List.filter (other_candidate owner sid) (bank_statements db)).
  set (sorted := merge_sort newer_first cands).
  exists current, (take 5 sorted).
  assert (Hperm : sorted ≡ₚ cands) by apply merge_sort_Permutation.
  assert (Hss : StronglySorted newer_first sorted)
    by (apply StronglySorted_merge_sort; apply _).
  assert (Hin : forall st, In st sorted <->
            In st (bank_statements db) /\ other_candidate owner sid st = true).
  { intros st. rewrite <- filter_In. fold cands.
    rewrite <- !list_elem_of_In. by rewrite Hperm. }
  assert (Htake : forall st, In st (take 5 sorted) -> In st sorted).
  { intros st. rewrite <- !list_elem_of_In. apply subseteq_take. }
  assert (Hsum : Forall (fun st => analysis_summary st <> None) (take 5 sorted)).
  { apply Forall_forall. intros st Hst%list_elem_of_In%Htake%Hin.
    destruct Hst as [_ Hst]. apply other_candidate_spec in Hst. tauto. }
  split; [reflexivity|]. split; [done|].
  split; [simpl; f_equal; by apply omap_as_row_length|].
  split; [rewrite length_take; lia|].
  split; [rewrite length_take; by rewrite Hperm|].
  split.
  { rewrite <- (take_drop 5 sorted) in Hss. by apply StronglySorted_app_1_l in Hss. }
  split.
  { intros st Hst%Htake%Hin. destruct Hst as [Hdb Hst].
    apply other_candidate_spec in Hst. tauto. }
  split.
  { intros st st' Hst Hdb Hu Hs Hid Hnot.
    assert (Hst' : In st' sorted).
    { apply Hin. split; [done|]. by apply other_candidate_spec. }
    rewrite <- (take_drop 5 sorted) in Hst', Hss.
    apply in_app_or in Hst' as [|Hdrop]; [done|].
    apply (StronglySorted_app_1_elem_of newer_first _ _ st st' Hss);
      by apply list_elem_of_In. }
  intros H1 H2 H3. unfold create_dashboard_body.
  rewrite H1, H2, Ec, H3. reflexivity.
Qed.


Lemma create_dashboard_html_returns (env : Env) (db : database) (sid : Z) :
  db_fault env HtmlClose = false ->
  exists h, create_dashboard_html env db sid = Ok h.
Proof.
  intros Hclose. unfold create_dashboard_html. rewrite Hclose, andb_false_r. eauto.
Qed.





(** C10.  For a trigger from the extraction lambda whose statement id
    is found, and when the handler's own database operations succeed,
    the response is the 200 response announcing the dashboard, whether
    the upload succeeded or not: the response is the same for every
    outcome of the upload, and after a failed upload the bucket is
    unchanged. *)
Theorem upload_failure_is_not_reported
    (env : Env) (db : database) (s3 : bucket_store) (sid : Z) (uid key : str) :
  sid <> 0 ->
  select_key db sid = Some (uid, key) ->
  db_fault env HtmlClose = false ->
  db_fault env HandlerConnect = false ->
  db_fault env HandlerQuery = false ->
  db_fault env HandlerClose = false ->
  let ev := {| trigger_source := Some ("bank_extract" : str);
               ev_statement_id := Some sid |} in
  let k := build_dashboard_key uid key in
  let r := lambda_handler env db s3 ev in
  fst r = {| statusCode := 200;
             body := Created "Dashboard created successfully"
                       (get_dashboard_url env (S3_BUCKET env) k) k uid sid |}
  /\ (put_object_fails env k = true -> snd r = s3)
  /\ (forall f, fst (lambda_handler (with_put_object_fails f env) db s3 ev) = fst r).
Proof.
  intros Hsid Hrow Hc H1 H2 H3 ev k r.
  assert (Hresp : forall env', db_fault env' = db_fault env ->
            S3_BUCKET env' = S3_BUCKET env ->
            generate_presigned_url env' = generate_presigned_url env ->
            AWS_REGION env' = AWS_REGION env ->
            create_dashboard_html env' db sid = create_dashboard_html env db sid ->
            exists h,
            lambda_handler env' db s3 ev
            = ({| statusCode := 200;
                  body := Created "Dashboard created successfully"
                            (get_dashboard_url env (S3_BUCKET env) k) k uid sid |},
               upload_dashboard_to_s3 env' s3 k h)).
  { intros env' Ef Eb Eu Er Eh. unfold lambda_handler, handle. subst ev.
    cbn [trigger_source ev_statement_id].
    change (str_eqb ("bank_extract" : str) ("bank_extract" : str)) with true.
    cbv iota. destruct sid as [|p|p]; [done| |].
    all: rewrite Eh;
      match goal with
      | |- context [create_dashboard_html ?e ?d ?z] =>
          destruct (create_dashboard_html_returns e d z Hc) as (h & ->)
      end.
    all: cbn [bind]; rewrite Ef, H1, H2, H3; cbn [orb]; rewrite Hrow.
    all: exists h; unfold get_dashboard_url; by rewrite Eb, Eu, Er. }
  split; [|split].
  - destruct (Hresp env) as (h & Hh); try done. subst r. by rewrite Hh.
  - intros Hput. destruct (Hresp env) as (h & Hh); try done. subst r.
    rewrite Hh. simpl. unfold upload_dashboard_to_s3. fold k. by rewrite Hput.
  - intros f. destruct (Hresp env) as (h & Hh); try done.
    destruct (Hresp (with_put_object_fails f env)) as (h' & Hh'); try done.
    subst r. by rewrite Hh, Hh'.
Qed.


(** ** Examples *)

(** C9, as stated, fails: the key starts with [dashboard/]. *)
Lemma dashboard_key_has_a_prefix :
  build_dashboard_key "u1" "statements/u1/report.pdf"
  = ("dashboard/u1/report.html" : str)
  /\ build_dashboard_key "u1" "statements/u1/report.pdf"
     <> (("u1" : str) ++ ("/" : str) ++ ("report" : str) ++ (".html" : str)).
Proof. split; [reflexivity|discriminate]. Qed.

Lemma dashboard_key_derivation_witness :
  find "/" ("report" : str) = -1
  /\ build_dashboard_key "u1" "statements/u1/report.pdf"
     = ("dashboard/u1/report.html" : str)
  /\ (put_object_fails plain_env "dashboard/u1/report.html" = false ->
      get_object "dashboard/u1/report.html"
        (upload_dashboard_to_s3 plain_env
           (upload_dashboard_to_s3 plain_env [] "dashboard/u1/report.html"
              DefaultDashboard)
           "dashboard/u1/report.html" DefaultDashboard)
      = Some DefaultDashboard).
Proof.
  split; [reflexivity|].
  destruct (dashboard_key_derivation plain_env [] "u1" "statements/u1" "report" "pdf"
              DefaultDashboard DefaultDashboard eq_refl eq_refl eq_refl eq_refl)
    as (Hkey & _ & _ & _ & Hput).
  split; [exact Hkey|].
  intros H. exact (proj1 (Hput H)).
Defined.

(** C3, at an owner with six other analysed statements: the
    aggregation receives six rows, the target's (the oldest, created at
    10) and those of the five newest others, and counts the
    transactions of all six, where five statements were meant. *)
Lemma sixth_statement_is_aggregated :
  exists l data,
    all_statements seven_statements 1 = Some l
    /\ length l = 6%nat
    /\ map (fun r => snd r) l = [10; 70; 60; 50; 40; 30]
    /\ extract_data_from_statements plain_env l = Ok data
    /\ data_total_transactions data = JInt 6.
Proof.
  eexists _, _. split; [vm_compute; reflexivity|].
  split; [reflexivity|]. split; [reflexivity|].
  split; [vm_compute; reflexivity|reflexivity].
Qed.

(** A summary that is decoded and whose category total is a text is
    another matter: the aggregation stores the total, the sort that
    follows calls [abs] on it outside the [try] of the loop, and the
    document is the default one. *)
Example text_category_amount_gives_the_default_page :
  match all_statements text_category_amount 1 with
  | Some statements =>
      generate_dashboard_html plain_env statements = Raise TypeError
  | None => False
  end
  /\ create_dashboard_html plain_env text_category_amount 1
     = Ok generate_default_dashboard.
Proof.
  split; vm_compute; reflexivity.
Qed.



Lemma upload_failure_is_not_reported_witness :
  select_key seven_statements 3 = Some (("u1" : str), ("statements/u1/mar.pdf" : str))
  /\ statusCode
       (fst (lambda_handler (with_put_object_fails (fun _ => true) plain_env)
               seven_statements []
               {| trigger_source := Some ("bank_extract" : str);
                  ev_statement_id := Some 3 |})) = 200
  /\ snd (lambda_handler (with_put_object_fails (fun _ => true) plain_env)
            seven_statements []
            {| trigger_source := Some ("bank_extract" : str);
               ev_statement_id := Some 3 |}) = [].
Proof.
  split; [reflexivity|].
  destruct (upload_failure_is_not_reported
              (with_put_object_fails (fun _ => true) plain_env)
              seven_statements [] 3 "u1" "statements/u1/mar.pdf"
              (fun H => match H with eq_refl => I end)
              eq_refl eq_refl eq_refl eq_refl eq_refl) as (Hresp & Hstore & _).
  split.
  - exact (f_equal statusCode Hresp).
  - exact (Hstore eq_refl).
Defined.

End Dashboard.

(** * Further properties *)

(** ** More on strings *)

Lemma lstrip_split (s : str) :
  exists ws, s = ws ++ lstrip s /\ Forall (fun c => isspace c = true) ws.
Proof.
  induction s as [|c s (ws & Hs & Hws)]; [by exists []|]. simpl.
  destruct (isspace c) eqn:E.
  - exists (c :: ws). simpl. split; [by f_equal|by constructor].
  - by exists [].
Qed.

Lemma lstrip_head_not_space (s : str) (c : ascii) (t : str) :
  lstrip s = c :: t -> isspace c = false.
Proof.
  induction s as [|x s IH]; simpl; [done|].
  destruct (isspace x) eqn:E; [done|]. by intros [= <- _].
Qed.

Lemma lstrip_idem (s : str) : lstrip (lstrip s) = lstrip s.
Proof.
  destruct (lstrip s) as [|c t] eqn:E; [done|].
  apply lstrip_head_not_space in E. by apply lstrip_head.
Qed.

Lemma rstrip_idem (s : str) : rstrip (rstrip s) = rstrip s.
Proof. unfold rstrip. by rewrite rev_involutive, lstrip_idem. Qed.

Lemma rstrip_split (s : str) :
  exists ws, s = rstrip s ++ ws /\ Forall (fun c => isspace c = true) ws.
Proof.
  destruct (lstrip_split (rev s)) as (ws & Hs & Hws).
  exists (rev ws). split; [|by apply Forall_rev].
  unfold rstrip. rewrite <- rev_app_distr, <- Hs. by rewrite rev_involutive.
Qed.

(** Stripping the right end keeps a first character that is not white
    space. *)
Lemma lstrip_rstrip (s : str) : lstrip (rstrip (lstrip s)) = rstrip (lstrip s).
Proof.
  destruct (lstrip s) as [|c t] eqn:E; [done|].
  pose proof (lstrip_head_not_space _ _ _ E) as Hc.
  destruct (rstrip_split (c :: t)) as (ws & Hs & Hws).
  destruct (rstrip (c :: t)) as [|c' u] eqn:Er; [done|].
  simpl in Hs. injection Hs as <- _. by apply lstrip_head.
Qed.

Lemma strip_idem (s : str) : strip (strip s) = strip s.
Proof. unfold strip. by rewrite lstrip_rstrip, rstrip_idem. Qed.

Lemma strip_nil : strip [] = [].
Proof. reflexivity. Qed.

Section FurtherExtraction.
Import Bankextract.

(** ** The three extractors *)

Lemma slice_to_take {A} (l : list A) (n : Z) :
  0 <= n -> slice_to l (Z.min (Z.of_nat (length l)) n) = take (Z.to_nat n) l.
Proof.
  intros Hn. unfold slice_to, slice_bound.
  destruct (Z.ltb_spec (Z.min (Z.of_nat (length l)) n) 0); [lia|].
  rewrite Z.min_l by lia.
  destruct (Z.le_ge_cases (Z.of_nat (length l)) n).
  - rewrite Z.min_l by lia. rewrite Nat2Z.id.
    rewrite !take_ge by lia. reflexivity.
  - by rewrite Z.min_r by lia.
Qed.

Lemma add_page_text_line (text : str) (p : option str) :
  add_page_text text p = text ++ page_line (Ok p).
Proof.
  unfold add_page_text, page_line. destruct p as [t|]; [|by rewrite app_nil_r].
  destruct (str_eqb t []); simpl; [by rewrite app_nil_r|done].
Qed.

Lemma pdfplumber_pages_ok (pages : list (result (option str))) (text : str) :
  Forall (fun p => is_ok p = true) pages ->
  pdfplumber_pages pages text = Ok (text ++ concat (map page_line pages)).
Proof.
  intros H. revert text. induction H as [|p pages Hp _ IH]; intros text; simpl.
  - by rewrite app_nil_r.
  - destruct p as [t|e]; [|done]. rewrite IH, add_page_text_line.
    by rewrite <- app_assoc.
Qed.

Lemma pdfplumber_pages_raise (pages : list (result (option str))) (text : str) :
  Exists (fun p => is_ok p = false) pages ->
  exists e, pdfplumber_pages pages text = Raise e.
Proof.
  intros H. revert text. induction pages as [|p pages IH]; intros text.
  - by apply Exists_nil in H.
  - destruct p as [t|e]; simpl; [|eauto].
    apply IH. apply Exists_cons in H as [H|H]; [discriminate|done].
Qed.

(** X1.  [extract_with_pdfplumber] reads the first 20 pages only.  When
    the extraction of each of them returns, the result is the text of
    the pages that have one, each followed by a newline, stripped as a
    whole; when the extraction of one of them raises, the result is the
    empty text, whatever the other pages hold. *)
Theorem pdfplumber_reads_the_first_20_pages
    (env : Env) (pages : list (result (option str))) :
  PDFPLUMBER_AVAILABLE env = true ->
  pdfplumber_open env = Ok pages ->
  (Forall (fun p => is_ok p = true) (take 20 pages) ->
   extract_with_pdfplumber env = strip (concat (map page_line (take 20 pages))))
  /\ (Exists (fun p => is_ok p = false) (take 20 pages) ->
      extract_with_pdfplumber env = []).
Proof.
  intros Ha Ho. unfold extract_with_pdfplumber. rewrite Ha, Ho. simpl negb. cbv iota.
  rewrite (slice_to_take pages 20) by lia. change (Z.to_nat 20) with 20%nat.
  split; intros H.
  - by rewrite pdfplumber_pages_ok.
  - by destruct (pdfplumber_pages_raise _ [] H) as [e ->].
Qed.

Lemma pypdf_pages_out_of_range (env : Env) (idx : list nat)
    (pages : list (result (option str))) (text : str) :
  Forall (fun i => (length pages <= i)%nat) idx ->
  pypdf_pages env idx pages text = text.
Proof.
  induction 1 as [|i idx Hi _ IH]; simpl; [done|].
  by rewrite lookup_ge_None_2.
Qed.

Lemma seq_all_ge (i n : nat) (m : nat) :
  (m <= i)%nat -> Forall (fun j => (m <= j)%nat) (seq i n).
Proof.
  intros H. apply Forall_forall. intros j Hj%list_elem_of_In%in_seq. lia.
Qed.

(** With page deletion, visit [i] finds the page that was at position
    [2 * i]: the pages at odd positions slide below the index. *)
Lemma pypdf_pages_with_del (env : Env) (n : nat) :
  pypdf_del_supported env = true ->
  forall (passed rest : list (result (option str))) (text : str),
    Forall (fun p => is_ok p = true) rest ->
    pypdf_pages env (seq (length passed) n) (passed ++ rest) text
    = text ++ concat (map page_line (take n (every_other rest))).
Proof.
  intros Hdel. induction n as [|n IH]; intros passed rest text Hok.
  { simpl. by rewrite app_nil_r. }
  cbn [seq pypdf_pages].
  destruct rest as [|x rest].
  { rewrite app_nil_r, lookup_ge_None_2 by lia.
    rewrite pypdf_pages_out_of_range by (apply seq_all_ge; lia).
    simpl. by rewrite app_nil_r. }
  rewrite lookup_app_r, Nat.sub_diag by lia. simpl lookup.
  apply Forall_cons in Hok as [Hx Hok]. destruct x as [t|e]; [|done].
  rewrite Hdel.
  replace (delete (length passed) (passed ++ Ok t :: rest)) with (passed ++ rest).
  2:{ rewrite delete_middle. reflexivity. }
  rewrite add_page_text_line.
  destruct rest as [|y rest].
  - rewrite app_nil_r.
    rewrite pypdf_pages_out_of_range by (apply seq_all_ge; lia).
    simpl. by rewrite take_nil, app_nil_r.
  - apply Forall_cons in Hok as [_ Hok].
    replace (passed ++ y :: rest) with ((passed ++ [y]) ++ rest)
      by (by rewrite <- app_assoc).
    replace (S (length passed)) with (length (passed ++ [y]))
      by (rewrite length_app; simpl; lia).
    rewrite IH by done. simpl. by rewrite <- app_assoc.
Qed.

Lemma every_other_length {A} (l : list A) : (length (every_other l) <= length l)%nat.
Proof.
  assert (H : forall n (l : list A), (length l <= n)%nat ->
                (length (every_other l) <= length l)%nat).
  { intros n. induction n as [|n IH]; intros [|x [|y r]] Hl; simpl in *; try lia.
    specialize (IH r). lia. }
  by apply (H (length l)).
Qed.

(** X2.  When [del reader.pages[i]] works and every page can be
    extracted, [extract_with_pypdf] reads the pages at the positions 0,
    2, 4, ... of the document, at most 20 of them: deleting the page
    just read moves the next page to the index the loop has passed. *)
Theorem pypdf_with_page_deletion_reads_every_other_page
    (env : Env) (pages : list (result (option str))) :
  PYPDF_AVAILABLE env = true ->
  pypdf_del_supported env = true ->
  PdfReader env = Ok pages ->
  Forall (fun p => is_ok p = true) pages ->
  extract_with_pypdf env
  = strip (concat (map page_line (take 20 (every_other pages)))).
Proof.
  intros Ha Hdel Ho Hok. unfold extract_with_pypdf. rewrite Ha, Ho.
  simpl negb. cbv iota. f_equal.
  rewrite (pypdf_pages_with_del env _ Hdel [] pages []) by done. simpl app.
  f_equal. f_equal.
  pose proof (every_other_length pages).
  destruct (Z.le_ge_cases (Z.of_nat (length pages)) 20).
  - rewrite Z.min_l by lia. rewrite Nat2Z.id. rewrite !take_ge by lia. done.
  - rewrite Z.min_r by lia. done.
Qed.

Lemma pypdf_pages_without_del (env : Env) (n : nat) :
  pypdf_del_supported env = false ->
  forall (i : nat) (pages : list (result (option str))) (text : str),
    pypdf_pages env (seq i n) pages text
    = text ++ concat (map page_line (take n (drop i pages))).
Proof.
  intros Hdel. induction n as [|n IH]; intros i pages text.
  { simpl. by rewrite app_nil_r. }
  cbn [seq pypdf_pages]. rewrite Hdel.
  destruct (pages !! i) as [p|] eqn:E.
  - rewrite (drop_S _ _ _ E). simpl.
    destruct p as [t|e]; rewrite IH.
    + by rewrite add_page_text_line, <- app_assoc.
    + done.
  - rewrite IH. apply lookup_ge_None_1 in E.
    rewrite !drop_ge by lia. by rewrite !take_nil.
Qed.

(** X3.  When [del reader.pages[i]] raises, [extract_with_pypdf] reads
    the first 20 pages in order: a page whose extraction raises is
    passed over, and the text of every other page stays in the
    result. *)
Theorem pypdf_without_page_deletion_skips_failing_pages
    (env : Env) (pages : list (result (option str))) :
  PYPDF_AVAILABLE env = true ->
  pypdf_del_supported env = false ->
  PdfReader env = Ok pages ->
  extract_with_pypdf env = strip (concat (map page_line (take 20 pages))).
Proof.
  intros Ha Hdel Ho. unfold extract_with_pypdf. rewrite Ha, Ho.
  simpl negb. cbv iota. f_equal.
  rewrite (pypdf_pages_without_del env _ Hdel 0 pages []). simpl app.
  rewrite drop_0. f_equal. f_equal.
  destruct (Z.le_ge_cases (Z.of_nat (length pages)) 20).
  - rewrite Z.min_l by lia. rewrite Nat2Z.id. rewrite !take_ge by lia. done.
  - rewrite Z.min_r by lia. done.
Qed.

Lemma textract_blocks_typed (blocks : list block) (text : str) :
  Forall (fun b => BlockType b <> None) blocks ->
  textract_blocks blocks text = Ok (text ++ concat (map block_line blocks)).
Proof.
  intros H. revert text.
  induction H as [|b blocks Hb _ IH]; intros text; cbn [textract_blocks map concat].
  - by rewrite app_nil_r.
  - unfold block_line at 1. destruct (BlockType b) as [ty|]; [|done].
    destruct (str_eqb ty _); rewrite IH; [|done].
    by rewrite <- !app_assoc.
Qed.

Lemma textract_blocks_untyped (blocks : list block) (text : str) :
  Exists (fun b => BlockType b = None) blocks ->
  textract_blocks blocks text = Raise KeyError.
Proof.
  intros H. revert text. induction blocks as [|b blocks IH]; intros text.
  - by apply Exists_nil in H.
  - cbn [textract_blocks]. destruct (BlockType b) as [ty|] eqn:E; [|done].
    assert (Exists (fun b => BlockType b = None) blocks).
    { apply Exists_cons in H as [H|H]; [congruence|done]. }
    destruct (str_eqb ty _); by apply IH.
Qed.

(** X4.  [extract_with_textract] returns the texts of the blocks of
    type [LINE], each followed by a newline (the empty text for a line
    without [Text]), stripped as a whole, when every block has a
    [BlockType]; one block without a [BlockType] makes the result the
    empty text. *)
Theorem textract_joins_the_line_blocks
    (env : Env) (bucket key : str) (blocks : list block) :
  TEXTRACT_AVAILABLE env = true ->
  detect_document_text env bucket key = Ok blocks ->
  (Forall (fun b => BlockType b <> None) blocks ->
   extract_with_textract env bucket key = strip (concat (map block_line blocks)))
  /\ (Exists (fun b => BlockType b = None) blocks ->
      extract_with_textract env bucket key = []).
Proof.
  intros Ha Hd. unfold extract_with_textract. rewrite Ha, Hd. simpl negb. cbv iota.
  split; intros H.
  - by rewrite textract_blocks_typed.
  - by rewrite textract_blocks_untyped.
Qed.

Lemma extract_with_pdfplumber_stripped (env : Env) :
  strip (extract_with_pdfplumber env) = extract_with_pdfplumber env.
Proof.
  unfold extract_with_pdfplumber.
  repeat case_match; try reflexivity. apply strip_idem.
Qed.

Lemma extract_with_pypdf_stripped (env : Env) :
  strip (extract_with_pypdf env) = extract_with_pypdf env.
Proof.
  unfold extract_with_pypdf.
  repeat case_match; try reflexivity. apply strip_idem.
Qed.

Lemma extract_with_textract_stripped (env : Env) (bucket key : str) :
  strip (extract_with_textract env bucket key) = extract_with_textract env bucket key.
Proof.
  unfold extract_with_textract.
  repeat case_match; try reflexivity. apply strip_idem.
Qed.

(** X5.  The text [textract_from_s3] returns has no white space at
    either end, whichever strategy produced it; and for an empty file,
    or when the download raises, it is the empty text and no strategy
    is called. *)
Theorem extracted_text_is_stripped (env : Env) (bucket key : str) :
  strip (fst (textract_from_s3 env bucket key)) = fst (textract_from_s3 env bucket key)
  /\ (download_file env bucket key = Ok 0 \/ is_ok (download_file env bucket key) = false ->
      textract_from_s3 env bucket key = ([], [])).
Proof.
  split.
  - unfold textract_from_s3.
    destruct (download_file env bucket key) as [file_size|]; [|done].
    destruct (_ || _).
    { destruct (file_size >? 0); [|done]. apply extract_with_textract_stripped. }
    destruct (insufficient (extract_with_pdfplumber env)) eqn:Ea.
    + destruct (insufficient (extract_with_pypdf env)); simpl.
      * apply extract_with_textract_stripped.
      * apply extract_with_pypdf_stripped.
    + simpl. rewrite Ea. simpl. apply extract_with_pdfplumber_stripped.
  - unfold textract_from_s3. intros [-> | H]; [done|].
    by destruct (download_file env bucket key).
Qed.

End FurtherExtraction.

Section FurtherAnalysis.
Import Bankextract.

(** ** The reply of the model *)

Lemma find_cons_absent (c x : ascii) (s : str) :
  find c (x :: s) = -1 <-> x <> c /\ find c s = -1.
Proof.
  simpl. destruct (Ascii.eqb_spec x c) as [->|Hne].
  - split; [discriminate|tauto].
  - destruct (find_nonneg_or c s) as [->|H]; [tauto|].
    destruct (Z.ltb_spec (find c s) 0); split; try lia; tauto.
Qed.

Lemma find_app_absent (c : ascii) (a b : str) :
  find c (a ++ b) = -1 <-> find c a = -1 /\ find c b = -1.
Proof.
  induction a as [|x a IH]; simpl app; [simpl; tauto|].
  rewrite !find_cons_absent, IH. tauto.
Qed.

Lemma find_rev_absent (c : ascii) (s : str) : find c (rev s) = -1 <-> find c s = -1.
Proof.
  split; [|apply find_absent_rev].
  intros H. apply find_absent_rev in H. by rewrite rev_involutive in H.
Qed.

Lemma braced_lstrip (body t : str) : braced body t -> braced body (lstrip t).
Proof.
  intros (a & b & -> & Ha & Hb). induction a as [|x a IH].
  - simpl app. rewrite lstrip_head by done. by exists [], b.
  - apply find_cons_absent in Ha as [Hx Ha]. simpl.
    destruct (isspace x); [by apply IH|].
    exists (x :: a), b. split; [done|]. split; [|done].
    by apply find_cons_absent.
Qed.

Lemma rstrip_snoc (s : str) (c : ascii) :
  rstrip (s ++ [c]) = if isspace c then rstrip s else s ++ [c].
Proof.
  unfold rstrip. rewrite rev_app_distr. simpl.
  destruct (isspace c); [done|]. simpl. by rewrite rev_involutive.
Qed.

Lemma braced_rstrip (body t : str) : braced body t -> braced body (rstrip t).
Proof.
  intros (a & b & -> & Ha & Hb). induction b as [|x b IH] using rev_ind.
  - replace (a ++ ("{" : str) ++ body ++ ("}" : str) ++ [])
      with ((a ++ ("{" : str) ++ body) ++ ["}"%char]) by app_eq.
    rewrite rstrip_snoc. simpl isspace. cbv iota.
    exists a, []. split; [app_eq|done].
  - apply find_app_absent in Hb as [Hb Hx].
    replace (a ++ ("{" : str) ++ body ++ ("}" : str) ++ b ++ [x])
      with ((a ++ ("{" : str) ++ body ++ ("}" : str) ++ b) ++ [x]) by app_eq.
    rewrite rstrip_snoc. destruct (isspace x); [by apply IH|].
    exists a, (b ++ [x]). split; [app_eq|]. split; [done|].
    by apply find_app_absent.
Qed.

Lemma braced_strip (body t : str) : braced body t -> braced body (strip t).
Proof. intros H. by apply braced_rstrip, braced_lstrip. Qed.

Lemma startswith_inv (t p : str) : startswith t p = true -> exists r, t = p ++ r.
Proof.
  revert t. induction p as [|x p IH]; intros t; [by exists t|].
  destruct t as [|y t]; simpl; [done|].
  destruct (Ascii.eqb_spec x y) as [->|]; [|done].
  intros (r & ->)%IH. by exists r.
Qed.

Lemma braced_drop_prefix (body t p : str) :
  find "{" p = -1 -> braced body t -> startswith t p = true ->
  braced body (slice_from t (len p)).
Proof.
  intros Hp (a & b & Ht & Ha & Hb) (r & Hr)%startswith_inv.
  rewrite Hr, slice_from_app. rewrite Hr in Ht. clear Hr t.
  apply app_eq_app in Ht as (l & [[Hpa Hl]|[Hap Hrl]]).
  - (* the prefix reaches beyond [a] *)
    destruct l as [|x l].
    + rewrite app_nil_r in Hpa. subst a. simpl in Hl. exists [], b. by rewrite <- Hl.
    + injection Hl as <- _. subst p.
      apply find_app_absent in Hp as [_ Hp]. by apply find_cons_absent in Hp as [? _].
  - subst a r. apply find_app_absent in Ha as [_ Ha]. by exists l, b.
Qed.

Lemma braced_drop_suffix (body t p : str) :
  find "}" p = -1 -> 0 < len p -> braced body t -> endswith t p = true ->
  braced body (slice_to t (- len p)).
Proof.
  intros Hp Hlen (a & b & Ht & Ha & Hb) (r & Hr)%startswith_inv.
  assert (Ht' : t = rev r ++ p).
  { rewrite <- (rev_involutive t), Hr, rev_app_distr. by rewrite rev_involutive. }
  rewrite Ht', slice_to_app by done. rewrite Ht' in Ht. clear Hr Ht' t.
  replace (a ++ ("{" : str) ++ body ++ ("}" : str) ++ b)
    with ((a ++ ("{" : str) ++ body) ++ "}"%char :: b) in Ht by app_eq.
  apply app_eq_app in Ht as (l & [[Hra Hl]|[Har Hpl]]).
  - destruct l as [|x l].
    + simpl in Hl. subst p. by apply find_cons_absent in Hp as [? _].
    + injection Hl as <- ->. rewrite Hra. exists a, l.
      split; [app_eq|]. split; [done|]. by apply find_app_absent in Hb as [? _].
  - subst p. apply find_app_absent in Hp as [_ Hp].
    by apply find_cons_absent in Hp as [? _].
Qed.

(** X6.  The reply of the model is decoded from its first [{] to its
    last [}]: text before the object that has no [{] and text after it
    that has no [}] do not change what is decoded. *)
Theorem prose_around_the_object_is_ignored
    (loads : str -> result json) (before body after : str) :
  find "{" before = -1 ->
  find "}" after = -1 ->
  parse_reply loads (before ++ ("{" : str) ++ body ++ ("}" : str) ++ after)
  = loads (("{" : str) ++ body ++ ("}" : str)).
Proof.
  intros Ha Hb. unfold parse_reply. f_equal.
  assert (H0 : braced body (strip (before ++ ("{" : str) ++ body ++ ("}" : str) ++ after)))
    by (apply braced_strip; by exists before, after).
  set (t := strip _) in *. clearbody t.
  assert (H1 : braced body (strip_fence t)).
  { unfold strip_fence.
    assert (H2 : braced body
              (if startswith t "```json" then slice_from t 7
               else if startswith t "```" then slice_from t 3 else t)).
    { destruct (startswith t "```json") eqn:E1.
      - by apply (braced_drop_prefix body t ("```json" : str)).
      - destruct (startswith t "```") eqn:E2; [|done].
        by apply (braced_drop_prefix body t ("```" : str)). }
    destruct (endswith _ "```") eqn:E3; [|done].
    by apply (braced_drop_suffix body _ ("```" : str)). }
  destruct H1 as (a & b & -> & Ha' & Hb'). by apply json_content_braces.
Qed.

(** ** The request to the model *)

(** X7.  For a text that is not empty and has at least 10 characters
    once stripped, [banktract_from_text] calls the model exactly once,
    with the model of the environment or else the default one.  The
    statement text placed in the prompt is the text itself up to 30000
    characters, and otherwise its first 30000 characters followed by a
    newline and [... (truncated)]: never more than 30016 characters. *)
Theorem one_bounded_request_to_the_model (env : Env) (text : str) :
  text <> [] ->
  10 <= len (strip text) ->
  exists sent,
    snd (banktract_from_text env text)
    = [InvokeModel (match BEDROCK_MODEL_ID env with
                    | Some m => m
                    | None => DEFAULT_MODEL_ID
                    end) sent]
    /\ len sent <= 30016
    /\ (len text <= 30000 -> sent = text)
    /\ (30000 < len text ->
        sent = take (Z.to_nat 30000) text ++ nl ++ ("... (truncated)" : str)).
Proof.
  intros Hne Hlen. unfold banktract_from_text.
  apply str_eqb_neq in Hne. rewrite Hne.
  destruct (Z.ltb_spec (len (strip text)) 10); [lia|]. simpl orb. cbv iota.
  eexists. split; [reflexivity|].
  assert (Hcut : 30000 < len text ->
            slice_to text 30000 = take (Z.to_nat 30000) text).
  { intros H30. unfold slice_to, slice_bound. simpl. unfold len in H30.
    rewrite Z.min_l by lia. reflexivity. }
  destruct (Z.gtb_spec (len text) 30000) as [Hbig|Hsmall].
  - rewrite Hcut by lia. split; [|split; [lia|done]].
    rewrite !len_app. unfold len at 1. rewrite length_take.
    change (len nl) with 1. change (len ("... (truncated)" : str)) with 15. lia.
  - split; [lia|]. split; [done|lia].
Qed.

(** X8.  The result of [banktract_from_text] is the empty analysis
    (returned without a call), the fixed analysis that stands for a
    failure, or a value that [json.loads] returned; and when the call
    to the model raises, it is the fixed analysis of the failure. *)
Theorem analysis_failure_is_substituted (env : Env) (text : str) :
  let r := banktract_from_text env text in
  (fst r = empty_analysis \/ fst r = failed_analysis
   \/ exists s, json_loads env s = Ok (fst r))
  /\ (forall model_id sent,
        snd r = [InvokeModel model_id sent] ->
        is_ok (invoke_model env model_id sent) = false ->
        fst r = failed_analysis).
Proof.
  unfold banktract_from_text.
  destruct (str_eqb text [] || (len (strip text) <? 10)); simpl.
  { split; [by left|discriminate]. }
  set (model_id := match BEDROCK_MODEL_ID env with Some m => m | None => _ end).
  set (sent := if len text >? 30000 then _ else _).
  split.
  - destruct (invoke_model env model_id sent) as [body|]; simpl; [|tauto].
    destruct (json_loads env body) as [response_body|]; simpl; [|tauto].
    destruct (getitem response_body _) as [content|]; simpl; [|tauto].
    destruct (getitem0 content) as [first|]; simpl; [|tauto].
    destruct (getitem first _) as [t|]; simpl; [|tauto].
    destruct t; try tauto. unfold parse_reply.
    destruct (json_loads env _) eqn:E; [|tauto]. right; right. eauto.
  - intros m s' [= <- <-] Hfail.
    by destruct (invoke_model env model_id sent).
Qed.

End FurtherAnalysis.

Section FurtherPersistence.
Import Bankextract.

(** ** What a save leaves in the database *)

Lemma transaction_row_fields env sid uid trans row :
  transaction_row env sid uid trans = Ok row ->
  t_statement_id row = sid /\ t_user_id row = uid
  /\ len (description row) <= 500 /\ len (category row) <= 100.
Proof.
  unfold transaction_row. intros H. repeat bind_inv H.
  injection H as <-. simpl.
  repeat split; try done; by apply len_slice_to.
Qed.

(** The rows the loop adds, with what every one of them satisfies. *)
Lemma insert_transactions_added env sid uid (l : list json) conn n :
  let r := insert_transactions env sid uid l conn n in
  committed (fst r) = committed conn
  /\ users (pending (fst r)) = users (pending conn)
  /\ bank_statements (pending (fst r)) = bank_statements (pending conn)
  /\ exists rows,
       transactions (pending (fst r)) = transactions (pending conn) ++ rows
       /\ (length rows <= length l)%nat
       /\ Forall (fun row => t_statement_id row = sid /\ t_user_id row = uid
                             /\ insert_rejected env row = false
                             /\ len (description row) <= 500
                             /\ len (category row) <= 100) rows.
Proof.
  revert conn n. induction l as [|t l IH]; intros conn n; cbn [insert_transactions].
  - repeat split; try done. exists []. rewrite app_nil_r. simpl. auto.
  - assert (Hskip : forall c m, committed c = committed conn ->
              pending c = pending conn ->
              let r := insert_transactions env sid uid l c m in
              committed (fst r) = committed conn
              /\ users (pending (fst r)) = users (pending conn)
              /\ bank_statements (pending (fst r)) = bank_statements (pending conn)
              /\ exists rows,
                   transactions (pending (fst r)) = transactions (pending conn) ++ rows
                   /\ (length rows <= length (t :: l))%nat
                   /\ Forall (fun row => t_statement_id row = sid /\ t_user_id row = uid
                                         /\ insert_rejected env row = false
                                         /\ len (description row) <= 500
                                         /\ len (category row) <= 100) rows).
    { intros c m Hcc Hcp.
      destruct (IH c m) as (Hc & Hu & Hb & rows & Hrows & Hlen & Hall).
      rewrite Hcc, Hcp in *. repeat split; try done.
      exists rows. simpl. split; [done|]. split; [lia|done]. }
    rewrite insert_transaction_cases.
    destruct (transaction_row env sid uid t) as [row|e] eqn:E; [|by apply Hskip].
    destruct (aborted conn); [by apply Hskip|].
    destruct (insert_rejected env row) eqn:Er; [by apply Hskip|].
    apply transaction_row_fields in E as Hrow.
    destruct (IH {| committed := committed conn;
                    pending := add_transaction row (pending conn);
                    aborted := false |} (n + 1))
      as (Hc & Hu & Hb & rows & Hrows & Hlen & Hall).
    simpl in *. repeat split; try done.
    exists (row :: rows). rewrite Hrows, <- app_assoc. simpl.
    split; [done|]. split; [lia|]. constructor; [tauto|done].
Qed.

Lemma iterate_len (x : json) (items : list json) (n : Z) :
  iterate x = Ok items -> py_len x = Ok n -> n = Z.of_nat (length items).
Proof.
  destruct x; simpl; try discriminate; intros [= <-] [= <-];
    unfold len; by rewrite ?length_map.
Qed.

(** Everything a successful save has done. *)
Lemma save_analysis_ok_inv
    (env : Env) (conn : connection) (sid : Z) (analysis_result : json) (uid : str)
    (conn' : connection) (n : Z) :
  save_analysis_to_database env conn sid analysis_result uid = (conn', Ok n) ->
  exists transactions_value summary categories rows,
    get analysis_result "transactions" (JList []) = Ok transactions_value
    /\ get analysis_result "analysis" (JDict []) = Ok (JDict summary)
    /\ py_len transactions_value = Ok n
    /\ committed conn'
       = {| users := users (pending conn);
            bank_statements :=
              map (set_summary sid
                     (JDict (dict_set "categories" (JList categories)
                               (dict_set "transaction_count" (JInt n) summary))))
                (bank_statements (pending conn));
            transactions := transactions (pending conn) ++ rows |}
    /\ pending conn' = committed conn'
    /\ Z.of_nat (length rows) <= n
    /\ Forall (fun row => t_statement_id row = sid /\ t_user_id row = uid
                          /\ insert_rejected env row = false
                          /\ len (description row) <= 500
                          /\ len (category row) <= 100) rows.
Proof.
  unfold save_analysis_to_database.
  destruct (save_analysis_body _ _ _ _ _) as [[c m]|e] eqn:E; [|discriminate].
  intros [= -> ->]. unfold save_analysis_body in E.
  bind_inv E. bind_inv E. bind_inv E. bind_inv E. bind_inv E. bind_inv E. bind_inv E.
  destruct (aborted a1); [discriminate|].
  destruct (update_summary_fails env); [discriminate|].
  destruct (commit_fails env); [discriminate|].
  injection E as <- <-.
  destruct a0 as [| | | | | |summary]; try discriminate. injection Ha2 as <-.
  pose proof (iterate_len _ _ _ Ha4 Ha3) as Hn.
  assert (Hloop : exists rows,
             users (pending a1) = users (pending conn)
             /\ bank_statements (pending a1) = bank_statements (pending conn)
             /\ transactions (pending a1) = transactions (pending conn) ++ rows
             /\ Z.of_nat (length rows) <= a3
             /\ Forall (fun row => t_statement_id row = sid /\ t_user_id row = uid
                                   /\ insert_rejected env row = false
                                   /\ len (description row) <= 500
                                   /\ len (category row) <= 100) rows).
  { destruct (truthy a).
    - apply bind_ok_inv in Ha1 as (items & Hit & Ha1).
      injection Ha1 as <-. rewrite Ha4 in Hit. injection Hit as <-.
      destruct (insert_transactions_added env sid uid a4 conn 0)
        as (_ & Hu & Hb & rows & Hrows & Hlen & Hall).
      exists rows. repeat split; try done. lia.
    - injection Ha1 as <-. exists []. rewrite app_nil_r.
      repeat split; try done. simpl. lia. }
  destruct Hloop as (rows & Hu & Hb & Ht & Hlen & Hall).
  exists a, summary, a5, rows.
  repeat split; try done.
  simpl. unfold update_summary. simpl. by rewrite Hu, Hb, Ht.
Qed.

(** X9.  After a successful [save_analysis_to_database] the committed
    transactions are those visible before, followed by the new rows:
    at most as many rows as the returned count, each carrying the
    statement id and the owner passed in, a description of at most 500
    and a category of at most 100 characters, and none that the
    database rejected.  The users are unchanged and no transaction is
    left open. *)
Theorem saved_rows_belong_to_the_statement
    (env : Env) (conn : connection) (sid : Z) (analysis_result : json) (uid : str)
    (conn' : connection) (n : Z) :
  save_analysis_to_database env conn sid analysis_result uid = (conn', Ok n) ->
  exists rows,
    transactions (committed conn') = transactions (pending conn) ++ rows
    /\ Z.of_nat (length rows) <= n
    /\ Forall (fun row => t_statement_id row = sid /\ t_user_id row = uid
                          /\ insert_rejected env row = false
                          /\ len (description row) <= 500
                          /\ len (category row) <= 100) rows
    /\ users (committed conn') = users (pending conn)
    /\ pending conn' = committed conn'.
Proof.
  intros H. apply save_analysis_ok_inv in H
    as (tv & summary & cats & rows & _ & _ & _ & Hc & Hp & Hlen & Hall).
  exists rows. split; [by rewrite Hc|]. split; [done|]. split; [done|].
  split; [by rewrite Hc|done].
Qed.

Lemma collect_categories_non_object (items seen : list json) :
  Exists (fun t => is_object t = false) items ->
  exists e, collect_categories items seen = Raise e.
Proof.
  intros H. revert seen. induction items as [|t items IH]; intros seen.
  - by apply Exists_nil in H.
  - cbn [collect_categories].
    destruct (get t _ JNull) as [c|e] eqn:Ec; [|simpl; eauto].
    assert (Ht : is_object t = true) by (by destruct t).
    assert (Hrest : Exists (fun t => is_object t = false) items).
    { apply Exists_cons in H as [H|H]; [congruence|done]. }
    cbn [bind]. destruct (truthy c); [|by apply IH].
    destruct (get t _ (JStr _)) as [v|e]; [|simpl; eauto]. cbn [bind].
    destruct (hashable v); [by apply IH|eauto].
Qed.

(** X10.  A transaction that is not a JSON object is skipped by the
    insertion loop, yet fails the whole save: collecting the categories
    calls [get] on it, the exception leaves the [try], the open
    transaction is rolled back (no row of the other transactions is
    kept) and the exception is raised again. *)
Theorem one_malformed_transaction_fails_the_save
    (env : Env) (conn : connection) (sid : Z) (d : list (str * json))
    (items : list json) (uid : str) :
  lookup_key "transactions" d = Some (JList items) ->
  Exists (fun t => is_object t = false) items ->
  exists e,
    save_analysis_to_database env conn sid (JDict d) uid = (rollback conn, Raise e).
Proof.
  intros Hd Hbad. unfold save_analysis_to_database.
  destruct (save_analysis_body _ _ _ _ _) as [[c m]|e] eqn:E; [|eauto].
  exfalso. unfold save_analysis_body in E.
  bind_inv E. bind_inv E. bind_inv E. bind_inv E. bind_inv E. bind_inv E. bind_inv E.
  unfold get in Ha. rewrite Hd in Ha. injection Ha as <-.
  simpl in Ha4. injection Ha4 as <-.
  destruct (collect_categories_non_object items [] Hbad) as [e He]. congruence.
Qed.

Lemma lookup_key_dict_set_eq (k : str) (v : json) (d : list (str * json)) :
  lookup_key k (dict_set k v d) = Some v.
Proof.
  induction d as [|[k' v'] d IH]; simpl.
  - unfold str_eqb. by rewrite bool_decide_eq_true_2.
  - destruct (str_eqb k k') eqn:E; simpl; rewrite ?E; [|done].
    unfold str_eqb. by rewrite bool_decide_eq_true_2.
Qed.

Lemma lookup_key_dict_set_ne (k k' : str) (v : json) (d : list (str * json)) :
  k <> k' -> lookup_key k' (dict_set k v d) = lookup_key k' d.
Proof.
  intros Hne. induction d as [|[k'' v''] d IH]; simpl.
  - apply not_eq_sym in Hne. apply str_eqb_neq in Hne. by rewrite Hne.
  - destruct (str_eqb k k'') eqn:E; simpl.
    + apply str_eqb_eq in E as <-.
      apply not_eq_sym in Hne. apply str_eqb_neq in Hne. by rewrite Hne.
    + destruct (str_eqb k' k''); [done|apply IH].
Qed.

(** X11.  The summary stored for the statement is the [analysis]
    object of the model output (the empty object when there is none)
    with [transaction_count] set to the returned count and
    [categories] set to a list; every other field is stored as the
    model gave it. *)
Theorem persisted_summary_keeps_the_other_fields
    (env : Env) (conn : connection) (sid : Z) (d : list (str * json)) (uid : str)
    (conn' : connection) (n : Z) :
  save_analysis_to_database env conn sid (JDict d) uid = (conn', Ok n) ->
  exists summary persisted,
    match lookup_key "analysis" d with
    | Some s => s = JDict summary
    | None => summary = []
    end
    /\ bank_statements (committed conn')
       = map (set_summary sid (JDict persisted)) (bank_statements (pending conn))
    /\ lookup_key "transaction_count" persisted = Some (JInt n)
    /\ (exists categories, lookup_key "categories" persisted = Some (JList categories))
    /\ (forall k, k <> ("transaction_count" : str) -> k <> ("categories" : str) ->
          lookup_key k persisted = lookup_key k summary).
Proof.
  intros H. apply save_analysis_ok_inv in H
    as (tv & summary & cats & rows & _ & Hs & _ & Hc & _).
  exists summary, (dict_set "categories" (JList cats)
                     (dict_set "transaction_count" (JInt n) summary)).
  split.
  { unfold get in Hs. destruct (lookup_key _ d); by injection Hs as ->. }
  split; [by rewrite Hc|].
  split.
  { rewrite lookup_key_dict_set_ne by discriminate. apply lookup_key_dict_set_eq. }
  split; [eexists; apply lookup_key_dict_set_eq|].
  intros k H1 H2. by rewrite !lookup_key_dict_set_ne by done.
Qed.

Lemma collect_categories_distinct (items seen cats : list json) :
  collect_categories items seen = Ok cats ->
  ForallOrdPairs (fun a b => py_eq b a = false) seen ->
  ForallOrdPairs (fun a b => py_eq b a = false) cats
  /\ (forall v, In v cats ->
        In v seen
        \/ (truthy v = true /\ hashable v = true
            /\ exists t, In t items /\ get t "category" JNull = Ok v)).
Proof.
  revert seen. induction items as [|t items IH]; intros seen H Hseen.
  { injection H as <-. auto. }
  cbn [collect_categories] in H. bind_inv H.
  destruct (truthy a) eqn:Ea.
  - bind_inv H. destruct (hashable a0) eqn:Eh; [|discriminate].
    assert (a0 = a) as ->.
    { destruct t; try discriminate. simpl in Ha, Ha0.
      destruct (lookup_key _ d); [congruence|].
      injection Ha as <-. discriminate. }
    assert (Hadd : ForallOrdPairs (fun a b => py_eq b a = false) (set_add a seen)).
    { unfold set_add. destruct (existsb (py_eq a) seen) eqn:Ex; [done|].
      clear -Hseen Ex. induction Hseen as [|x l Hx Hl IHl]; simpl.
      - repeat constructor.
      - simpl in Ex. apply orb_false_iff in Ex as [Ex1 Ex2].
        constructor; [|by apply IHl].
        apply Forall_app. split; [done|]. by repeat constructor. }
    destruct (IH _ H Hadd) as [Hd Hin]. split; [done|].
    intros v Hv. destruct (Hin v Hv) as [Hs|(Ht & Hh & t' & Ht' & Hg)].
    + unfold set_add in Hs. destruct (existsb _ _); [by left|].
      apply in_app_or in Hs as [|[<-|[]]]; [by left|].
      right. repeat split; try done. exists t. split; [by left|done].
    + right. repeat split; try done. exists t'. split; [by right|done].
  - destruct (IH _ H Hseen) as [Hd Hin]. split; [done|].
    intros v Hv. destruct (Hin v Hv) as [|(Ht & Hh & t' & Ht' & Hg)]; [by left|].
    right. repeat split; try done. exists t'. split; [by right|done].
Qed.

(** X12.  The categories collected from the transactions are pairwise
    different as Python compares them, and each is the truthy,
    hashable [category] of one of the transactions. *)
Theorem collected_categories_are_distinct (items cats : list json) :
  collect_categories items [] = Ok cats ->
  ForallOrdPairs (fun a b => py_eq b a = false) cats
  /\ Forall (fun v => truthy v = true /\ hashable v = true
                      /\ exists t, In t items /\ get t "category" JNull = Ok v) cats.
Proof.
  intros H. destruct (collect_categories_distinct items [] cats H) as [Hd Hin].
  { constructor. }
  split; [done|]. apply Forall_forall. intros v Hv%list_elem_of_In.
  by destruct (Hin v Hv) as [[]|?].
Qed.

End FurtherPersistence.

(** ** Splitting a key *)

Lemma split_nonempty (sep : ascii) (s : str) : split sep s <> [].
Proof.
  destruct s as [|c s]; simpl; [done|].
  destruct (split sep s); [done|]. by destruct (Ascii.eqb c sep).
Qed.

Lemma split_no_sep (sep : ascii) (s : str) :
  find sep s = -1 -> split sep s = [s].
Proof.
  induction s as [|c s IH]; intros H; [done|].
  apply find_cons_absent in H as [Hne Hs].
  simpl. rewrite IH by done.
  by apply Ascii.eqb_neq in Hne as ->.
Qed.

Lemma split_first (sep : ascii) (a r : str) :
  find sep a = -1 -> split sep (a ++ sep :: r) = a :: split sep r.
Proof.
  induction a as [|c a IH]; intros H.
  - simpl. pose proof (split_nonempty sep r).
    destruct (split sep r); [done|]. by rewrite Ascii.eqb_refl.
  - apply find_cons_absent in H as [Hne Hs].
    simpl. rewrite IH by done.
    by apply Ascii.eqb_neq in Hne as ->.
Qed.

Lemma split_two (sep : ascii) (s p0 p1 : str) (ps : list str) :
  split sep s = p0 :: p1 :: ps -> exists rest, s = p0 ++ sep :: rest.
Proof.
  revert p0 p1 ps. induction s as [|c s IH]; intros p0 p1 ps; [done|].
  simpl. destruct (split sep s) as [|w ws] eqn:E; [done|].
  destruct (Ascii.eqb_spec c sep) as [->|Hne].
  - intros [= <- <- <-]. by exists s.
  - intros [= <- ->]. destruct (IH _ _ _ eq_refl) as (rest & ->). by exists rest.
Qed.

Section FurtherPipeline.
Import Bankextract.

Lemma resolve_user_id_no_metadata (env : Env) (bucket key : str) :
  no_owner_in_metadata env bucket key ->
  resolve_user_id env bucket key
  = let user_id :=
      match split "/" key with
      | p0 :: p1 :: _ => if str_eqb p0 "statements" then p1 else []
      | _ => []
      end in
    if str_eqb user_id [] then "default_user" else user_id.
Proof.
  unfold no_owner_in_metadata, resolve_user_id.
  destruct (head_object_user_id env bucket key) as [[u|]|e]; [intros ->| |]; done.
Qed.

Lemma resolve_user_id_from_path (env : Env) (bucket key uid rest : str) :
  no_owner_in_metadata env bucket key ->
  key = ("statements/" : str) ++ uid ++ ("/" : str) ++ rest ->
  find "/" uid = -1 -> uid <> [] ->
  resolve_user_id env bucket key = uid.
Proof.
  intros Hno -> Hfind Hne. rewrite (resolve_user_id_no_metadata _ _ _ Hno).
  change (("statements/" : str) ++ uid ++ ("/" : str) ++ rest)
    with (("statements" : str) ++ "/"%char :: (uid ++ "/"%char :: rest)).
  rewrite split_first by done. rewrite split_first by done.
  cbn zeta. apply str_eqb_neq in Hne.
  replace (str_eqb ("statements" : str) ("statements" : str)) with true
    by (symmetry; by apply str_eqb_eq).
  by rewrite Hne.
Qed.

(** X13.  The owner [process_s3_upload] works with is never the empty
    text.  A non-empty [user-id] in the object's metadata wins.
    Without it, a key [statements/{uid}/...] with a non-empty [uid]
    gives [uid], and a key that does not start with [statements/]
    gives [default_user]. *)
Theorem owner_of_an_upload (env : Env) (bucket key : str) :
  resolve_user_id env bucket key <> []
  /\ (forall u, head_object_user_id env bucket key = Ok (Some u) -> u <> [] ->
        resolve_user_id env bucket key = u)
  /\ (no_owner_in_metadata env bucket key ->
      (forall uid rest,
         key = ("statements/" : str) ++ uid ++ ("/" : str) ++ rest ->
         find "/" uid = -1 -> uid <> [] ->
         resolve_user_id env bucket key = uid)
      /\ (startswith key "statements/" = false ->
          resolve_user_id env bucket key = "default_user")).
Proof.
  split; [|split].
  - unfold resolve_user_id.
    repeat match goal with
           | |- context [str_eqb ?a ?b] =>
               let E := fresh "E" in destruct (str_eqb a b) eqn:E
           end; try done;
      match goal with E : str_eqb _ [] = false |- _ => by apply str_eqb_neq in E end.
  - intros u Hu Hne. unfold resolve_user_id. rewrite Hu.
    apply str_eqb_neq in Hne. by rewrite Hne, Hne.
  - intros Hno. split.
    + intros uid rest Hk Hfind Hne. by apply (resolve_user_id_from_path env bucket key uid rest).
    + rewrite (resolve_user_id_no_metadata _ _ _ Hno).
      intros Hs. destruct (split "/" key) as [|p0 [|p1 ps]] eqn:E; [done..|].
      destruct (str_eqb p0 _) eqn:E0; [|done].
      apply str_eqb_eq in E0 as ->. apply split_two in E as (rest & ->).
      change (("statements" : str) ++ "/"%char :: rest)
        with (("statements/" : str) ++ rest) in Hs.
      by rewrite startswith_app in Hs.
Qed.

Lemma owner_of_an_upload_witness :
  resolve_user_id (without_metadata scanned_env) "bucket" "statements/alice/march.pdf"
  = "alice".
Proof.
  destruct (owner_of_an_upload (without_metadata scanned_env) "bucket"
              "statements/alice/march.pdf") as (_ & _ & H).
  destruct (H I) as [H1 _].
  apply (H1 ("alice" : str) ("march.pdf" : str)); [reflexivity|reflexivity|discriminate].
Defined.

(** ** The statement row of an upload *)

Lemma find_key_none (key : str) (rows : list bank_statement) :
  List.find (fun st => str_eqb (s3_key st) key) rows = None <->
  forall st, In st rows -> s3_key st <> key.
Proof.
  induction rows as [|x rows IH]; simpl; [by split|].
  destruct (str_eqb (s3_key x) key) eqn:E.
  - apply str_eqb_eq in E. split; [done|]. intros H. by destruct (H x); [left|].
  - apply str_eqb_neq in E. rewrite IH. split.
    + intros H st [<-|Hin]; auto.
    + intros H st Hin. apply H. by right.
Qed.

Lemma find_key_some (key : str) (rows : list bank_statement) :
  (exists st, In st rows /\ s3_key st = key) ->
  exists st, List.find (fun st => str_eqb (s3_key st) key) rows = Some st
             /\ In st rows /\ s3_key st = key.
Proof.
  intros (st & Hin & Hk).
  destruct (List.find _ rows) as [st'|] eqn:E.
  - exists st'. apply List.find_some in E as [H1 H2]. by apply str_eqb_eq in H2.
  - exfalso. by apply (proj1 (find_key_none key rows) E st).
Qed.

Lemma find_key_unique (key : str) (rows : list bank_statement) (st st' : bank_statement) :
  NoDup (map s3_key rows) ->
  List.find (fun st => str_eqb (s3_key st) key) rows = Some st ->
  In st' rows -> s3_key st' = key -> st' = st.
Proof.
  induction rows as [|x rows IH]; simpl; [done|].
  intros [Hx Hnd]%NoDup_cons.
  destruct (str_eqb (s3_key x) key) eqn:E.
  - apply str_eqb_eq in E. intros [= <-] [<-|Hin] Hk; [done|].
    exfalso. apply Hx. apply list_elem_of_In, in_map_iff. exists st'.
    split; [congruence|done].
  - apply str_eqb_neq in E. intros Hf [<-|Hin] Hk; [done|]. by apply IH.
Qed.

Lemma next_statement_id_fresh (db : database) (st : bank_statement) :
  In st (bank_statements db) -> statement_id st < next_statement_id db.
Proof.
  unfold next_statement_id. induction (bank_statements db) as [|x rows IH]; simpl; [done|].
  intros [<-|Hin]; [lia|]. specialize (IH Hin). lia.
Qed.

Lemma next_statement_id_pos (db : database) : 0 < next_statement_id db.
Proof.
  unfold next_statement_id. induction (bank_statements db) as [|x rows IH]; simpl; lia.
Qed.

Lemma reset_statement_fields env key st :
  statement_id (reset_statement env key st) = statement_id st
  /\ user_id (reset_statement env key st) = user_id st
  /\ s3_key (reset_statement env key st) = s3_key st
  /\ analysis_summary (reset_statement env key st) = analysis_summary st.
Proof. unfold reset_statement. by destruct (str_eqb _ _). Qed.

(** X14.  The upsert leaves users and transactions alone and returns the
    id of a row with the uploaded key, which is [PROCESSING] and
    created now.  When the key is already there, no row is added and
    ids, owners, keys and summaries stay as they were, so that a second
    upload of a key keeps its first owner and its old summary, and the
    rows of other keys are untouched.  When the key is new, one row is
    appended for the given owner, without a summary, under an id
    greater than every id in the table. *)
Theorem statement_row_is_reset_or_created
    (env : Env) (uid key : str) (db : database) :
  let db' := fst (upsert_statement env uid key db) in
  let sid := snd (upsert_statement env uid key db) in
  users db' = users db /\ transactions db' = transactions db
  /\ (exists st, In st (bank_statements db') /\ s3_key st = key
                 /\ statement_id st = sid /\ process_status st = PROCESSING
                 /\ created_at st = now env)
  /\ ((exists st, In st (bank_statements db) /\ s3_key st = key) ->
      map statement_id (bank_statements db') = map statement_id (bank_statements db)
      /\ map user_id (bank_statements db') = map user_id (bank_statements db)
      /\ map s3_key (bank_statements db') = map s3_key (bank_statements db)
      /\ map analysis_summary (bank_statements db')
         = map analysis_summary (bank_statements db)
      /\ (forall st, In st (bank_statements db) -> s3_key st <> key ->
            In st (bank_statements db')))
  /\ ((forall st, In st (bank_statements db) -> s3_key st <> key) ->
      bank_statements db'
      = bank_statements db ++
        [{| statement_id := sid; user_id := uid; s3_key := key;
            process_status := PROCESSING; created_at := now env;
            analysis_summary := None |}]
      /\ forall st, In st (bank_statements db) -> statement_id st < sid).
Proof.
  intros db' sid. subst db' sid. unfold upsert_statement.
  destruct (List.find _ (bank_statements db)) as [st|] eqn:E; simpl.
  - pose proof (List.find_some _ _ E) as [Hin Hk]. apply str_eqb_eq in Hk.
    split; [done|]. split; [done|]. split; [|split].
    + exists (reset_statement env key st). split.
      { apply in_map_iff. by exists st. }
      unfold reset_statement. rewrite (proj2 (str_eqb_eq _ _) Hk). by simpl.
    + intros _. rewrite !map_map.
      repeat split;
        try (apply map_ext; intros x; apply (reset_statement_fields env key x)).
      intros x Hx Hne. apply in_map_iff. exists x. split; [|done].
      unfold reset_statement. apply str_eqb_neq in Hne. by rewrite Hne.
    + intros Hnone. by destruct (Hnone st Hin).
  - split; [done|]. split; [done|]. split; [|split].
    + exists {| statement_id := next_statement_id db; user_id := uid; s3_key := key;
                process_status := PROCESSING; created_at := now env;
                analysis_summary := None |}.
      split; [|done]. apply in_app_iff. right. by left.
    + intros (st & Hin & Hk). exfalso. by apply (proj1 (find_key_none key _) E st).
    + intros _. split; [done|]. apply next_statement_id_fresh.
Qed.

(** ** What a run leaves in the database *)

Lemma closing_fields (f : faults) (r : run) :
  final_db (closing f r) = final_db r
  /\ triggered (closing f r) = triggered r
  /\ outcome (closing f r) = (if close_fails f then Raise DatabaseError else outcome r).
Proof. unfold closing. by destruct (close_fails f). Qed.

Lemma closing_raises (f : faults) (r : run) :
  (exists e, outcome r = Raise e) -> exists e, outcome (closing f r) = Raise e.
Proof.
  intros (e & He). destruct (closing_fields f r) as (_ & _ & ->).
  destruct (close_fails f); eauto.
Qed.

(** The ways a run can end, under the faults [f]. *)
Lemma process_s3_upload_with_inv
    (f : faults) (env : Env) (db : database) (bucket key : str) :
  let uid := resolve_user_id env bucket key in
  let db1 := fst (upsert_statement env uid key db) in
  let sid := snd (upsert_statement env uid key db) in
  let r := process_s3_upload_with f env db bucket key in
  (final_db r = db /\ (exists e, outcome r = Raise e) /\ triggered r = None
   /\ (connect_fails env = true \/ user_query_fails f = true
       \/ ~ In uid (users db) \/ upsert_fails f = true))
  \/ (connect_fails env = false /\ user_query_fails f = false /\ In uid (users db)
      /\ upsert_fails f = false
      /\ ((upsert_commit_fails f = true
           /\ (exists e, outcome r = Raise e) /\ triggered r = None
           /\ final_db r = mark_failed f (connect db) sid)
          \/ (upsert_commit_fails f = false
              /\ (exists e, outcome r = Raise e) /\ triggered r = None
              /\ final_db r = mark_failed f (connect db1) sid)
          \/ (upsert_commit_fails f = false
              /\ exists summary rows,
                   let saved :=
                     {| users := users db1;
                        bank_statements :=
                          map (set_summary sid summary) (bank_statements db1);
                        transactions := transactions db1 ++ rows |} in
                   Forall (fun row => t_statement_id row = sid
                                      /\ t_user_id row = uid) rows
                   /\ ((completed_update_fails f = true
                        /\ (exists e, outcome r = Raise e) /\ triggered r = None
                        /\ final_db r = saved)
                       \/ (completed_update_fails f = false
                           /\ completed_commit_fails f = true
                           /\ (exists e, outcome r = Raise e) /\ triggered r = None
                           /\ final_db r = mark_failed f (connect saved) sid)
                       \/ (completed_update_fails f = false
                           /\ completed_commit_fails f = false
                           /\ outcome r
                              = (if close_fails f then Raise DatabaseError else Ok sid)
                           /\ triggered r
                              = (if lambda_invoke_fails env then None else Some sid)
                           /\ final_db r = update_status sid COMPLETED saved))))).
Proof.
  intros uid db1 sid r. subst r. unfold process_s3_upload_with.
  destruct (connect_fails env) eqn:Hc.
  { left. simpl. eauto 6. }
  destruct (closing_fields f (process_with_connection f env db bucket key))
    as (-> & -> & ->).
  assert (Hraise : forall o : result Z, (exists e, o = Raise e) ->
            exists e, (if close_fails f then Raise DatabaseError else o) = Raise e).
  { intros o (e & ->). destruct (close_fails f); eauto. }
  unfold process_with_connection, raised. fold uid. cbv zeta.
  destruct (user_query_fails f) eqn:Hq.
  { left. simpl. split; [done|]. split; [apply Hraise; eauto|]. tauto. }
  destruct (existsb (str_eqb uid) (users db)) eqn:Hex; simpl negb; cbv iota.
  2:{ left. simpl. split; [done|]. split; [apply Hraise; eauto|]. split; [done|].
      right; right; left.
      intros Hin. assert (existsb (str_eqb uid) (users db) = true); [|congruence].
      apply existsb_exists. exists uid. split; [done|]. by apply str_eqb_eq. }
  assert (Hin : In uid (users db)).
  { apply existsb_exists in Hex as (u & Hu & ->%str_eqb_eq). done. }
  destruct (upsert_fails f) eqn:Hup.
  { left. simpl. split; [done|]. split; [apply Hraise; eauto|]. tauto. }
  right. do 4 (split; [done|]).
  change (pending (connect db)) with db.
  subst db1 sid. destruct (upsert_statement env uid key db) as [db1 sid].
  simpl fst. simpl snd.
  destruct (upsert_commit_fails f) eqn:Huc.
  { left. simpl. split; [done|]. split; [apply Hraise; eauto|]. done. }
  right.
  change (commit {| committed := committed (connect db); pending := db1;
                    aborted := false |})
    with (connect db1).
  destruct (textract_from_s3 env bucket key) as [text strategies].
  destruct (extraction_failed text).
  { left. simpl. split; [done|]. split; [apply Hraise; eauto|]. done. }
  destruct (banktract_from_text env text) as [analysis_result calls].
  destruct (save_analysis_to_database env (connect db1) sid analysis_result uid)
    as [conn' [n|e]] eqn:Es.
  - right. split; [done|].
    apply save_analysis_ok_inv in Es
      as (tv & summary & cats & rows & _ & _ & _ & Hcm & Hp & _ & Hall).
    eexists _, rows. cbv zeta. split.
    { eapply Forall_impl; [exact Hall|]. simpl. tauto. }
    destruct (completed_update_fails f) eqn:Hcu.
    { left. simpl. split; [done|]. split; [apply Hraise; eauto|]. split; [done|].
      unfold mark_failed. simpl. rewrite andb_false_r. simpl. by rewrite Hcm. }
    destruct (completed_commit_fails f) eqn:Hcc.
    { right; left. simpl. do 2 (split; [done|]).
      split; [apply Hraise; eauto|]. split; [done|].
      unfold rollback. by rewrite Hcm. }
    right; right. simpl. do 4 (split; [done|]). by rewrite Hp, Hcm.
  - left. simpl. split; [done|]. split; [apply Hraise; eauto|]. split; [done|].
    unfold save_analysis_to_database in Es.
    destruct (save_analysis_body _ _ _ _ _) as [[c m]|e']; [discriminate|].
    by injection Es as <- _.
Qed.

(** The three ways a run without faults can end. *)
Lemma process_s3_upload_inv (env : Env) (db : database) (bucket key : str) :
  let uid := resolve_user_id env bucket key in
  let db1 := fst (upsert_statement env uid key db) in
  let sid := snd (upsert_statement env uid key db) in
  let r := process_s3_upload env db bucket key in
  (final_db r = db /\ (exists e, outcome r = Raise e) /\ triggered r = None
   /\ (connect_fails env = true \/ ~ In uid (users db)))
  \/ (connect_fails env = false /\ In uid (users db)
      /\ (exists e, outcome r = Raise e) /\ triggered r = None
      /\ final_db r = mark_failed no_faults (connect db1) sid)
  \/ (connect_fails env = false /\ In uid (users db)
      /\ outcome r = Ok sid
      /\ triggered r = (if lambda_invoke_fails env then None else Some sid)
      /\ exists summary rows,
           final_db r
           = update_status sid COMPLETED
               {| users := users db1;
                  bank_statements :=
                    map (set_summary sid summary) (bank_statements db1);
                  transactions := transactions db1 ++ rows |}
           /\ Forall (fun row => t_statement_id row = sid /\ t_user_id row = uid) rows).
Proof.
  intros uid db1 sid r.
  destruct (process_s3_upload_with_inv no_faults env db bucket key)
    as [(Hf & He & Ht & [H|[H|[H|H]]])
       |(Hc & _ & Hin & _ & [(H & _)|[(_ & He & Ht & Hf)
          |(_ & summary & rows & Hall & [(H & _)|[(_ & H & _)|(_ & _ & Ho & Ht & Hf)]])]])];
    try discriminate H.
  - left. eauto 6.
  - left. eauto 6.
  - right; left. eauto 6.
  - right; right. do 4 (split; [done|]). eauto.
Qed.

Lemma status_after_update (key : str) (sid : Z) (s : status) (rows : list bank_statement) :
  (forall st, In st rows -> s3_key st = key -> statement_id st = sid) ->
  forall st, In st (map (set_status sid s) rows) -> s3_key st = key ->
             process_status st = s /\ statement_id st = sid.
Proof.
  intros H st (x & <- & Hx)%in_map_iff. unfold set_status.
  destruct (Z.eqb_spec (statement_id x) sid) as [E|E]; simpl; [done|].
  intros Hk. by destruct E; apply H.
Qed.

Lemma set_summary_fields sid summary st :
  statement_id (set_summary sid summary st) = statement_id st
  /\ user_id (set_summary sid summary st) = user_id st
  /\ s3_key (set_summary sid summary st) = s3_key st
  /\ process_status (set_summary sid summary st) = process_status st
  /\ created_at (set_summary sid summary st) = created_at st.
Proof. unfold set_summary. by destruct (_ =? _). Qed.

Lemma set_status_fields sid s st :
  statement_id (set_status sid s st) = statement_id st
  /\ user_id (set_status sid s st) = user_id st
  /\ s3_key (set_status sid s st) = s3_key st
  /\ created_at (set_status sid s st) = created_at st
  /\ analysis_summary (set_status sid s st) = analysis_summary st.
Proof. unfold set_status. by destruct (_ =? _). Qed.

(** After the upsert, the rows with the key are the one row whose id is
    returned. *)
Lemma upsert_statement_row (env : Env) (uid key : str) (db : database) :
  NoDup (map s3_key (bank_statements db)) ->
  Forall (fun st => 0 < statement_id st) (bank_statements db) ->
  let db1 := fst (upsert_statement env uid key db) in
  let sid := snd (upsert_statement env uid key db) in
  sid <> 0
  /\ (exists st, In st (bank_statements db1) /\ s3_key st = key)
  /\ (forall st, In st (bank_statements db1) -> s3_key st = key ->
        statement_id st = sid).
Proof.
  intros Hnd Hpos db1 sid. subst db1 sid. unfold upsert_statement.
  destruct (List.find _ (bank_statements db)) as [st|] eqn:E; simpl.
  - pose proof (List.find_some _ _ E) as [Hin Hk]. apply str_eqb_eq in Hk.
    rewrite Forall_forall in Hpos. split; [|split].
    + apply list_elem_of_In, Hpos in Hin. lia.
    + exists (reset_statement env key st). split.
      * apply in_map_iff. by exists st.
      * by rewrite (proj1 (proj2 (proj2 (reset_statement_fields env key st)))).
    + intros x (y & <- & Hy)%in_map_iff.
      destruct (reset_statement_fields env key y) as (-> & _ & -> & _).
      intros Hyk. by rewrite (find_key_unique key _ st y Hnd E Hy Hyk).
  - split; [|split].
    + pose proof (next_statement_id_pos db). lia.
    + eexists. split; [apply in_app_iff; right; left; reflexivity|done].
    + intros x [Hx|[<-|[]]]%in_app_iff; [|done].
      intros Hk. by destruct (proj1 (find_key_none key _) E x).
Qed.

Lemma upsert_statement_processing (env : Env) (uid key : str) (db : database) :
  forall st, In st (bank_statements (fst (upsert_statement env uid key db))) ->
             s3_key st = key -> process_status st = PROCESSING.
Proof.
  unfold upsert_statement.
  destruct (List.find _ (bank_statements db)) as [st0|] eqn:Ef; simpl.
  - intros st (x & <- & Hx)%in_map_iff. unfold reset_statement.
    destruct (str_eqb (s3_key x) key) eqn:E; simpl; [done|].
    apply str_eqb_neq in E. done.
  - intros st [Hx|[<-|[]]]%in_app_iff; [|done].
    intros Hk. by destruct (proj1 (find_key_none key _) Ef st).
Qed.

Lemma mark_failed_connect (f : faults) (db : database) (sid : Z) :
  mark_failed f (connect db) sid
  = if negb (sid =? 0) && negb (failed_update_fails f)
       && negb (failed_commit_fails f)
    then update_status sid FAILED db else db.
Proof.
  unfold mark_failed. simpl. rewrite andb_true_r.
  by destruct (negb (sid =? 0) && negb (failed_update_fails f)
               && negb (failed_commit_fails f)).
Qed.

(** The rows of a key whose rows all have the id [sid], after an update
    of the status or of the summary of [sid]. *)
Lemma key_rows_set_status (key : str) (sid : Z) (s : status)
    (rows : list bank_statement) :
  (forall st, In st rows -> s3_key st = key -> statement_id st = sid) ->
  forall st, In st (map (set_status sid s) rows) -> s3_key st = key ->
             statement_id st = sid /\ process_status st = s.
Proof.
  intros H st Hst Hk. by destruct (status_after_update key sid s rows H st Hst Hk).
Qed.

Lemma key_rows_set_summary (key : str) (sid : Z) (summary : json) (s : status)
    (rows : list bank_statement) :
  (forall st, In st rows -> s3_key st = key ->
              statement_id st = sid /\ process_status st = s) ->
  forall st, In st (map (set_summary sid summary) rows) -> s3_key st = key ->
             statement_id st = sid /\ process_status st = s.
Proof.
  intros H st (x & <- & Hx)%in_map_iff.
  destruct (set_summary_fields sid summary x) as (-> & _ & -> & -> & _).
  by apply H.
Qed.

Lemma key_row_mapped (key : str) (g : bank_statement -> bank_statement)
    (rows : list bank_statement) :
  (forall x, s3_key (g x) = s3_key x) ->
  (exists st, In st rows /\ s3_key st = key) ->
  exists st, In st (map g rows) /\ s3_key st = key.
Proof.
  intros Hg (st & Hin & Hk). exists (g st). split; [by apply in_map|].
  by rewrite Hg.
Qed.

(** X15.  When the connection opens, the owner is found, the upsert and
    its commit go through, the keys of the table are distinct and its
    ids positive, a run of [process_s3_upload] leaves a row for the
    uploaded key, and every such row has the id of the upsert.  It is
    [COMPLETED] when the run returns.  When the run raises and closing
    the connection does not, the row is [FAILED] if neither the
    [COMPLETED] update nor the [FAILED] update or its commit raised,
    and it is left [PROCESSING] if the [FAILED] update or its commit
    raised; it is [COMPLETED] after a run that raises only when closing
    the connection raised. *)
Theorem final_status_follows_the_outcome
    (f : faults) (env : Env) (db : database) (bucket key : str) :
  connect_fails env = false ->
  user_query_fails f = false ->
  In (resolve_user_id env bucket key) (users db) ->
  upsert_fails f = false ->
  upsert_commit_fails f = false ->
  NoDup (map s3_key (bank_statements db)) ->
  Forall (fun st => 0 < statement_id st) (bank_statements db) ->
  let r := process_s3_upload_with f env db bucket key in
  let sid := snd (upsert_statement env (resolve_user_id env bucket key) key db) in
  (exists st, In st (bank_statements (final_db r)) /\ s3_key st = key)
  /\ forall st, In st (bank_statements (final_db r)) -> s3_key st = key ->
       statement_id st = sid
       /\ (forall s, outcome r = Ok s -> s = sid /\ process_status st = COMPLETED)
       /\ (forall e, outcome r = Raise e -> close_fails f = false ->
             (completed_update_fails f = false -> failed_update_fails f = false ->
              failed_commit_fails f = false -> process_status st = FAILED)
             /\ (failed_update_fails f = true \/ failed_commit_fails f = true ->
                 process_status st = PROCESSING)
             /\ process_status st <> COMPLETED).
Proof.
  intros Hc Hq Hin Hup Huc Hnd Hpos r sid.
  set (uid := resolve_user_id env bucket key) in *.
  destruct (upsert_statement_row env uid key db Hnd Hpos)
    as (Hsid & Hex & Huniq).
  fold sid in Hsid, Huniq.
  pose proof (upsert_statement_processing env uid key db) as Hproc.
  set (db1 := fst (upsert_statement env uid key db)) in *.
  assert (H1 : forall st, In st (bank_statements db1) -> s3_key st = key ->
                 statement_id st = sid /\ process_status st = PROCESSING)
    by (intros st Hst Hk; split; [by apply Huniq|by apply Hproc]).
  assert (Hkey_status : forall s x, s3_key (set_status sid s x) = s3_key x)
    by (intros s x; apply set_status_fields).
  assert (Hkey_summary : forall v x, s3_key (set_summary sid v x) = s3_key x)
    by (intros v x; apply set_summary_fields).
  apply Z.eqb_neq in Hsid.
  destruct (process_s3_upload_with_inv f env db bucket key)
    as [(_ & _ & _ & [H|[H|[H|H]]])
       |(_ & _ & _ & _ & [(H & _)
          |[(_ & (e0 & He0) & _ & Hf)
           |(_ & summary & rows & _ &
               [(Hcu & (e0 & He0) & _ & Hf)
               |[(Hcu & Hcc & (e0 & He0) & _ & Hf)
                |(Hcu & Hcc & Ho & _ & Hf)]])]])];
    try congruence; try done;
    fold r in Hf; fold uid db1 sid in Hf; rewrite Hf;
    try (fold r in He0; rewrite He0); try (fold r in Ho; fold uid sid in Ho; rewrite Ho).
  - (* the extraction or the save raised *)
    rewrite mark_failed_connect, Hsid. cbn [negb andb].
    destruct (failed_update_fails f) eqn:Hfu; cbn [negb andb].
    { split; [done|]. intros st Hst Hk. destruct (H1 st Hst Hk) as [-> Hs].
      split; [done|]. split; [done|]. intros e _ _. rewrite Hs.
      split; [done|]. split; done. }
    destruct (failed_commit_fails f) eqn:Hfc; cbn [negb].
    { split; [done|]. intros st Hst Hk. destruct (H1 st Hst Hk) as [-> Hs].
      split; [done|]. split; [done|]. intros e _ _. rewrite Hs.
      split; [done|]. split; [done|]. done. }
    split; [by apply key_row_mapped|]. intros st Hst Hk.
    destruct (key_rows_set_status key sid FAILED _ Huniq st Hst Hk) as [-> Hs].
    split; [done|]. split; [done|]. intros e _ _. rewrite Hs.
    split; [done|]. split; [by intros [|]|done].
  - (* the COMPLETED update raised *)
    cbn [bank_statements]. split; [by apply key_row_mapped|]. intros st Hst Hk.
    destruct (key_rows_set_summary key sid summary PROCESSING _ H1 st Hst Hk)
      as [-> Hs].
    split; [done|]. split; [done|]. intros e _ _. rewrite Hs.
    split; [congruence|]. split; done.
  - (* its commit raised *)
    rewrite mark_failed_connect, Hsid. cbn [negb andb bank_statements].
    pose proof (key_rows_set_summary key sid summary PROCESSING _ H1) as H2.
    destruct (failed_update_fails f) eqn:Hfu; cbn [negb andb bank_statements].
    { split; [by apply key_row_mapped|]. intros st Hst Hk.
      destruct (H2 st Hst Hk) as [-> Hs].
      split; [done|]. split; [done|]. intros e _ _. rewrite Hs.
      split; [done|]. split; done. }
    destruct (failed_commit_fails f) eqn:Hfc; cbn [negb bank_statements].
    { split; [by apply key_row_mapped|]. intros st Hst Hk.
      destruct (H2 st Hst Hk) as [-> Hs].
      split; [done|]. split; [done|]. intros e _ _. rewrite Hs.
      split; [done|]. split; done. }
    split; [apply key_row_mapped; [done|]; by apply key_row_mapped|]. intros st Hst Hk.
    assert (H3 : forall st, In st (map (set_summary sid summary) (bank_statements db1)) ->
                   s3_key st = key -> statement_id st = sid)
      by (intros x Hx Hxk; by destruct (H2 x Hx Hxk)).
    destruct (key_rows_set_status key sid FAILED _ H3 st Hst Hk) as [-> Hs].
    split; [done|]. split; [done|]. intros e _ _. rewrite Hs.
    split; [done|]. split; [by intros [|]|done].
  - (* the run went through *)
    cbn [update_status bank_statements].
    pose proof (key_rows_set_summary key sid summary PROCESSING _ H1) as H2.
    split; [apply key_row_mapped; [done|]; by apply key_row_mapped|]. intros st Hst Hk.
    assert (H3 : forall st, In st (map (set_summary sid summary) (bank_statements db1)) ->
                   s3_key st = key -> statement_id st = sid)
      by (intros x Hx Hxk; by destruct (H2 x Hx Hxk)).
    destruct (key_rows_set_status key sid COMPLETED _ H3 st Hst Hk) as [-> Hs].
    split; [done|]. rewrite Hs. split.
    + destruct (close_fails f); [done|]. by intros s [= <-].
    + intros e He Hcl. rewrite Hcl in He. discriminate.
Qed.

Lemma upsert_statement_keeps (env : Env) (uid key : str) (db : database) :
  let db1 := fst (upsert_statement env uid key db) in
  users db1 = users db /\ transactions db1 = transactions db
  /\ exists added,
       map (fun st => (statement_id st, user_id st, s3_key st)) (bank_statements db1)
       = map (fun st => (statement_id st, user_id st, s3_key st)) (bank_statements db)
         ++ added
       /\ (length added <= 1)%nat.
Proof.
  unfold upsert_statement.
  destruct (List.find _ (bank_statements db)) as [st|]; simpl.
  - do 2 (split; [done|]). exists []. rewrite app_nil_r, map_map. split; [|simpl; lia].
    apply map_ext. intros x.
    by destruct (reset_statement_fields env key x) as (-> & -> & -> & _).
  - do 2 (split; [done|]). eexists [_]. by rewrite map_app.
Qed.

Lemma mark_failed_keeps (f : faults) (db1 : database) (sid : Z) :
  users (mark_failed f (connect db1) sid) = users db1
  /\ transactions (mark_failed f (connect db1) sid) = transactions db1
  /\ map (fun st => (statement_id st, user_id st, s3_key st))
       (bank_statements (mark_failed f (connect db1) sid))
     = map (fun st => (statement_id st, user_id st, s3_key st)) (bank_statements db1).
Proof.
  rewrite mark_failed_connect. destruct (_ && _); simpl; [|done].
  do 2 (split; [done|]). rewrite map_map. apply map_ext. intros x.
  by destruct (set_status_fields sid FAILED x) as (-> & -> & -> & _).
Qed.

(** X16.  Under any faults of its own database operations, a run of
    [process_s3_upload] never changes the users, never removes or
    changes a stored transaction, and adds at most one statement row
    while keeping id, owner and key of every other.  The transactions
    it adds carry the id of the upserted row and the resolved owner.  A
    run that raises has added none, unless what raised was the
    [COMPLETED] update, its commit or closing the connection; and the
    dashboard lambda is triggered with the id of the upserted row, by a
    run that returns unless closing the connection raises. *)
Theorem a_run_only_adds
    (f : faults) (env : Env) (db : database) (bucket key : str) :
  let r := process_s3_upload_with f env db bucket key in
  let uid := resolve_user_id env bucket key in
  let sid := snd (upsert_statement env uid key db) in
  users (final_db r) = users db
  /\ (exists rows,
        transactions (final_db r) = transactions db ++ rows
        /\ Forall (fun row => t_statement_id row = sid /\ t_user_id row = uid) rows)
  /\ (exists added,
        map (fun st => (statement_id st, user_id st, s3_key st))
          (bank_statements (final_db r))
        = map (fun st => (statement_id st, user_id st, s3_key st)) (bank_statements db)
          ++ added
        /\ (length added <= 1)%nat)
  /\ (forall e, outcome r = Raise e ->
        completed_update_fails f = false -> completed_commit_fails f = false ->
        close_fails f = false ->
        transactions (final_db r) = transactions db)
  /\ (forall s, triggered r = Some s ->
        s = sid /\ (close_fails f = false -> outcome r = Ok s)).
Proof.
  intros r uid sid.
  destruct (upsert_statement_keeps env uid key db) as (Hu & Ht & added & Hadd & Hlen).
  assert (Hnone : exists rows : list transaction,
            transactions db = transactions db ++ rows
            /\ Forall (fun row => t_statement_id row = sid /\ t_user_id row = uid) rows)
    by (exists []; by rewrite app_nil_r).
  assert (Hsame : exists added0 : list (Z * str * str),
            map (fun st => (statement_id st, user_id st, s3_key st)) (bank_statements db)
            = map (fun st => (statement_id st, user_id st, s3_key st)) (bank_statements db)
              ++ added0 /\ (length added0 <= 1)%nat)
    by (exists []; rewrite app_nil_r; split; [done|simpl; lia]).
  assert (Hsummary : forall summary rows0,
            map (fun st => (statement_id st, user_id st, s3_key st))
              (map (set_summary sid summary) rows0)
            = map (fun st => (statement_id st, user_id st, s3_key st)) rows0).
  { intros summary rows0. rewrite map_map. apply map_ext. intros x.
    by destruct (set_summary_fields sid summary x) as (-> & -> & -> & _). }
  destruct (process_s3_upload_with_inv f env db bucket key)
    as [(Hf & (e0 & He0) & Htr & _)
       |(_ & _ & _ & _ & [(_ & (e0 & He0) & Htr & Hf)
          |[(_ & (e0 & He0) & Htr & Hf)
           |(_ & summary & rows & Hall &
               [(Hcu & (e0 & He0) & Htr & Hf)
               |[(Hcu & Hcc & (e0 & He0) & Htr & Hf)
                |(Hcu & Hcc & Ho & Htr & Hf)]])]])];
    fold r in Hf, Htr; fold uid sid in Hf, Htr; rewrite Hf, Htr;
    try (fold r in He0; rewrite He0); try (fold r in Ho; fold uid sid in Ho; rewrite Ho).
  - done.
  - destruct (mark_failed_keeps f db sid) as (-> & -> & ->). done.
  - destruct (mark_failed_keeps f (fst (upsert_statement env uid key db)) sid)
      as (-> & -> & ->).
    rewrite Hu, Ht. split; [done|]. split; [done|]. split; [by exists added|]. done.
  - cbn [users transactions bank_statements]. rewrite Hu, Ht, Hsummary.
    split; [done|]. split; [by exists rows|]. split; [by exists added|].
    split; [congruence|done].
  - match goal with |- context [mark_failed f (connect ?d) sid] =>
      destruct (mark_failed_keeps f d sid) as (-> & -> & ->) end.
    cbn [users transactions bank_statements]. rewrite Hu, Ht, Hsummary.
    split; [done|]. split; [by exists rows|]. split; [by exists added|].
    split; [congruence|done].
  - cbn [update_status users transactions bank_statements]. rewrite Hu, Ht.
    split; [done|]. split; [by exists rows|]. split.
    + exists added. split; [|done].
      etransitivity; [|exact Hadd]. etransitivity; [|apply (Hsummary summary)].
      rewrite (map_map (set_status sid COMPLETED)
                 (fun st => (statement_id st, user_id st, s3_key st))).
      apply map_ext. intros x.
      by destruct (set_status_fields sid COMPLETED x) as (-> & -> & -> & _).
    + split.
      * intros e He Hcu' Hcc' Hcl. rewrite Hcl in He. discriminate.
      * destruct (lambda_invoke_fails env); [done|]. intros s [= <-].
        split; [done|]. by intros ->.
Qed.

End FurtherPipeline.

Section Handler.
Import Bankextract.

Variable unquote_plus : str -> str.
Variable env_of : str -> str -> Env.

Lemma process_records_app (db : database) (a b : list s3_record) :
  process_records unquote_plus env_of db (a ++ b)
  = match process_records unquote_plus env_of db a with
    | (db', Ok _) => process_records unquote_plus env_of db' b
    | (db', Raise e) => (db', Raise e)
    end.
Proof.
  revert db. induction a as [|x a IH]; intros db; simpl; [done|].
  destruct (str_eqb (eventSource x) _); [|apply IH].
  destruct (outcome _); [apply IH|done].
Qed.

(** X17.  In an S3 notification the records are processed in order.
    When the records before an S3 record are processed without an
    exception and that record raises, the handler answers 500 with
    that exception and the database is as that run left it: the
    records after it are not processed. *)
Theorem handler_stops_at_the_first_failure
    (db db1 : database) (before after : list s3_record) (failing : s3_record)
    (e : exn) :
  let key := unquote_plus (object_key failing) in
  let r := process_s3_upload (env_of (bucket_name failing) key) db1
             (bucket_name failing) key in
  process_records unquote_plus env_of db before = (db1, Ok tt) ->
  eventSource failing = ("aws:s3" : str) ->
  outcome r = Raise e ->
  lambda_handler unquote_plus env_of db (Records (before ++ failing :: after))
  = ({| statusCode := 500; body := ProcessingFailed e |}, final_db r).
Proof.
  intros key r Hb Hs Ho. unfold lambda_handler.
  rewrite process_records_app, Hb. simpl. rewrite Hs.
  replace (str_eqb ("aws:s3" : str) ("aws:s3" : str)) with true
    by (symmetry; by apply str_eqb_eq).
  fold key. fold r. by rewrite Ho.
Qed.

Lemma process_s3_upload_keeps (env : Env) (db : database) (bucket key : str) :
  let r := process_s3_upload env db bucket key in
  users (final_db r) = users db
  /\ exists rows, transactions (final_db r) = transactions db ++ rows.
Proof.
  intros r.
  destruct (upsert_statement_keeps env (resolve_user_id env bucket key) key db)
    as (Hu & Ht & _).
  destruct (process_s3_upload_inv env db bucket key)
    as [(Hf & _)|[(_ & _ & _ & _ & Hf)|(_ & _ & _ & _ & summary & rows & Hf & _)]];
    fold r in Hf; rewrite Hf.
  - split; [done|]. exists []. by rewrite app_nil_r.
  - destruct (mark_failed_keeps no_faults
                (fst (upsert_statement env (resolve_user_id env bucket key) key db))
                (snd (upsert_statement env (resolve_user_id env bucket key) key db)))
      as (-> & -> & _).
    split; [done|]. exists []. by rewrite app_nil_r.
  - simpl. split; [done|]. exists rows. by rewrite Ht.
Qed.

Lemma process_records_keeps (db : database) (records : list s3_record) :
  let db' := fst (process_records unquote_plus env_of db records) in
  users db' = users db
  /\ exists rows, transactions db' = transactions db ++ rows.
Proof.
  revert db. induction records as [|x records IH]; intros db; simpl.
  { split; [done|]. exists []. by rewrite app_nil_r. }
  destruct (str_eqb (eventSource x) _); [|apply IH].
  destruct (process_s3_upload_keeps
              (env_of (bucket_name x) (unquote_plus (object_key x))) db
              (bucket_name x) (unquote_plus (object_key x))) as (Hu & rows & Ht).
  destruct (outcome _).
  - destruct (IH (final_db (process_s3_upload
                    (env_of (bucket_name x) (unquote_plus (object_key x))) db
                    (bucket_name x) (unquote_plus (object_key x)))))
      as (Hu' & rows' & Ht').
    simpl in *. rewrite Hu', Hu, Ht', Ht. split; [done|].
    exists (rows ++ rows'). by rewrite app_assoc.
  - simpl. split; [done|]. by exists rows.
Qed.

(** X18.  Whatever the event, the handler of the extraction lambda
    leaves the users as they were and only appends to the
    transactions.  Its status is 200, 400 or 500; it is 400 exactly for
    a direct invocation whose [bucket] or [key] is absent or empty, and
    the database is then untouched. *)
Theorem handler_only_adds (db : database) (ev : event) :
  let response := fst (lambda_handler unquote_plus env_of db ev) in
  let db' := snd (lambda_handler unquote_plus env_of db ev) in
  users db' = users db
  /\ (exists rows, transactions db' = transactions db ++ rows)
  /\ (statusCode response = 200 \/ statusCode response = 400
      \/ statusCode response = 500)
  /\ (statusCode response = 400 <->
      exists bucket key, ev = Direct bucket key
        /\ (bucket = None \/ bucket = Some [] \/ key = None \/ key = Some []))
  /\ (statusCode response = 400 -> db' = db).
Proof.
  intros response db'. subst response db'. unfold lambda_handler.
  destruct ev as [records|[bucket|] [key|]].
  - pose proof (process_records_keeps db records) as (Hu & Ht).
    destruct (process_records unquote_plus env_of db records) as [db' [[]|e]];
      simpl in *; (split; [done|]); (split; [done|]);
      (split; [auto|]); (split; [|done]);
      (split; [done|]); by intros (b & k & [=] & _).
  - destruct (str_eqb bucket []) eqn:Eb; simpl.
    { apply str_eqb_eq in Eb as ->. split; [done|].
      split; [exists []; by rewrite app_nil_r|]. split; [auto|].
      split; [|done]. split; [|done]. intros _. eauto 6. }
    destruct (str_eqb key []) eqn:Ek; simpl.
    { apply str_eqb_eq in Ek as ->. split; [done|].
      split; [exists []; by rewrite app_nil_r|]. split; [auto|].
      split; [|done]. split; [|done]. intros _. eexists _, _. split; [done|]. auto. }
    apply str_eqb_neq in Eb, Ek.
    pose proof (process_s3_upload_keeps (env_of bucket key) db bucket key) as (Hu & Ht).
    destruct (outcome _); simpl; (split; [done|]); (split; [done|]);
      (split; [auto|]); (split; [|done]);
      (split; [done|]); intros (b & k & [= <- <-] & [|[[= ->]|[|[= ->]]]]); done.
  - simpl. split; [done|]. split; [exists []; by rewrite app_nil_r|]. split; [auto|].
    split; [|done]. split; [|done]. intros _. eexists _, _. split; [done|]. auto.
  - simpl. split; [done|]. split; [exists []; by rewrite app_nil_r|]. split; [auto|].
    split; [|done]. split; [|done]. intros _. eexists _, _. split; [done|]. auto.
  - simpl. split; [done|]. split; [exists []; by rewrite app_nil_r|]. split; [auto|].
    split; [|done]. split; [|done]. intros _. eexists _, _. split; [done|]. auto.
Qed.

End Handler.

Section FurtherAggregation.
Import Visualize.

(** ** The category table *)

Lemma set_total_keys (k : str) (v : json * json) (d : list (str * (json * json))) :
  map fst (set_total k v d)
  = if bool_decide (k ∈ map fst d) then map fst d else map fst d ++ [k].
Proof.
  induction d as [|[k' v'] d IH]; simpl; [done|].
  destruct (str_eqb k k') eqn:E.
  - apply str_eqb_eq in E as ->. simpl. rewrite bool_decide_true; [done|]. by left.
  - apply str_eqb_neq in E. simpl. rewrite IH.
    destruct (bool_decide (k ∈ map fst d)) eqn:Ed.
    + apply bool_decide_eq_true in Ed. rewrite bool_decide_true; [done|]. by right.
    + apply bool_decide_eq_false in Ed. rewrite bool_decide_false; [done|].
      intros [?|?]%elem_of_cons; done.
Qed.

Lemma set_total_NoDup (k : str) (v : json * json) (d : list (str * (json * json))) :
  NoDup (map fst d) -> NoDup (map fst (set_total k v d)).
Proof.
  intros H. rewrite set_total_keys. destruct (bool_decide _) eqn:E; [done|].
  apply bool_decide_eq_false in E. apply NoDup_app. split; [done|].
  split; [|apply NoDup_singleton]. intros x Hx ->%list_elem_of_singleton. done.
Qed.

Lemma add_categories_inv (items : list (str * json)) (acc : aggregate) :
  NoDup (map fst (category_totals acc)) ->
  same_totals (add_categories items acc) acc
  /\ NoDup (map fst (category_totals (add_categories items acc))).
Proof.
  assert (Hrefl : forall a, same_totals a a) by (by intros a; repeat split).
  revert acc. induction items as [|[category data] rest IH]; intros acc Hnd;
    cbn [add_categories].
  { split; [apply Hrefl|done]. }
  destruct (get data "total_amount" (JInt 0)) as [amount|]; [|split; [apply Hrefl|done]].
  destruct (get data "transaction_count" (JInt 0)) as [count|]; [|split; [apply Hrefl|done]].
  destruct (lookup_total category (category_totals acc)) as [[a c]|].
  - destruct (iadd a amount) as [a'|]; [|split; [apply Hrefl|done]].
    destruct (iadd c count) as [c'|].
    + match goal with |- context [add_categories rest ?x] =>
        destruct (IH x) as [Hs Hn] end.
      { simpl. by do 2 apply set_total_NoDup. }
      split; [|done]. unfold same_totals in *.
      cbn [with_totals total_income total_expense net_amount total_transactions] in Hs.
      tauto.
    + split; [by repeat split|]. simpl. by apply set_total_NoDup.
  - match goal with |- context [add_categories rest ?x] =>
      destruct (IH x) as [Hs Hn] end.
    { simpl. by apply set_total_NoDup. }
    split; [|done]. unfold same_totals in *.
      cbn [with_totals total_income total_expense net_amount total_transactions] in Hs.
      tauto.
Qed.

Lemma add_categories_totals (items : list (str * json)) (acc : aggregate) :
  same_totals (add_categories items acc) acc.
Proof.
  assert (Hrefl : forall a, same_totals a a) by (by intros a; repeat split).
  revert acc. induction items as [|[category data] rest IH]; intros acc;
    cbn [add_categories]; [done|].
  destruct (get data "total_amount" (JInt 0)) as [amount|]; [|done].
  destruct (get data "transaction_count" (JInt 0)) as [count|]; [|done].
  destruct (lookup_total category (category_totals acc)) as [[a c]|].
  - destruct (iadd a amount) as [a'|]; [|done].
    destruct (iadd c count) as [c'|]; [|by repeat split].
    match goal with |- context [add_categories rest ?x] => specialize (IH x) end.
    unfold same_totals in *.
    cbn [with_totals total_income total_expense net_amount total_transactions] in IH.
    tauto.
  - match goal with |- context [add_categories rest ?x] => specialize (IH x) end.
    unfold same_totals in *.
    cbn [with_totals total_income total_expense net_amount total_transactions] in IH.
    tauto.
Qed.

Lemma add_statement_NoDup (env : Env) (acc : aggregate) (statement : row) :
  NoDup (map fst (category_totals acc)) ->
  NoDup (map fst (category_totals (add_statement env acc statement))).
Proof.
  intros Hnd. destruct statement as [[u summary] t]. unfold add_statement.
  destruct (truthy summary); [|done].
  destruct (match summary with JStr s => json_loads env s | _ => Ok summary end)
    as [s|]; [|done].
  destruct (bind _ _) as [ti|]; [|done]. cbn [total_income total_expense net_amount
    total_transactions category_totals].
  destruct (bind _ _) as [te|]; [|done]. cbn [total_income total_expense net_amount
    total_transactions category_totals].
  destruct (bind _ _) as [na|]; [|done]. cbn [total_income total_expense net_amount
    total_transactions category_totals].
  destruct (bind _ _) as [tc|]; [|done]. cbn [total_income total_expense net_amount
    total_transactions category_totals].
  destruct (get s "categories_amount" (JDict [])) as [[| | | | | |items]|]; try done.
  by apply add_categories_inv.
Qed.

Lemma fold_add_statement_NoDup (env : Env) (statements : list row) (acc : aggregate) :
  NoDup (map fst (category_totals acc)) ->
  NoDup (map fst (category_totals (fold_left (add_statement env) statements acc))).
Proof.
  revert acc. induction statements as [|st sts IH]; intros acc H; simpl; [done|].
  by apply IH, add_statement_NoDup.
Qed.

(** ** The order of the categories *)

Lemma sort_keys_spec (cats : list (str * (json * json))) (ks : list keyed) :
  sort_keys cats = Ok ks ->
  map snd ks = map (fun x => (fst x, fst (snd x), snd (snd x))) cats
  /\ Forall (fun k => py_abs (snd (fst (snd k))) = Ok (fst k)) ks.
Proof.
  revert ks. induction cats as [|[c [a n]] rest IH]; intros ks; simpl.
  { by intros [= <-]. }
  intros H. apply bind_ok_inv in H as (k & Hk & H).
  apply bind_ok_inv in H as (ks' & Hks & H). injection H as <-.
  destruct (IH _ Hks) as [IH1 IH2]. simpl. rewrite IH1. split; [done|].
  by constructor.
Qed.

Lemma insert_desc_perm (x : keyed) (l : list keyed) : insert_desc x l ≡ₚ x :: l.
Proof.
  induction l as [|y l IH]; simpl; [done|].
  destruct (num_lt (fst y) (fst x)); [done|]. rewrite IH. apply Permutation_swap.
Qed.

Lemma sort_desc_perm (l : list keyed) : sort_desc l ≡ₚ l.
Proof.
  unfold sort_desc.
  enough (H : forall acc, fold_left (fun sorted x => insert_desc x sorted) l acc ≡ₚ acc ++ l).
  { by rewrite H. }
  induction l as [|x l IH]; intros acc; simpl; [by rewrite app_nil_r|].
  rewrite IH, insert_desc_perm. by rewrite <- Permutation_middle.
Qed.

Lemma insert_desc_sorted (x : keyed) (l : list keyed) :
  whole_key x -> Forall whole_key l ->
  StronglySorted key_ge l -> StronglySorted key_ge (insert_desc x l).
Proof.
  intros (zx & Hx & Hkx) Hall Hs. induction Hs as [|y l Hs IH Hy]; simpl.
  { repeat constructor. }
  apply Forall_cons in Hall as [(zy & Hzy & Hky) Hall].
  destruct (num_lt (fst y) (fst x)) eqn:E.
  - rewrite Hky, Hkx in E. simpl in E. apply Z.ltb_lt in E.
    constructor; [by constructor|]. constructor.
    + unfold key_ge, abs_ge. rewrite Hx, Hzy. lia.
    + eapply Forall_impl; [exact Hy|]. intros w. unfold key_ge, abs_ge.
      rewrite Hx, Hzy. destruct (snd (fst (snd w))); try done. lia.
  - rewrite Hky, Hkx in E. simpl in E. apply Z.ltb_ge in E.
    constructor; [by apply IH|].
    rewrite insert_desc_perm. constructor; [|done].
    unfold key_ge, abs_ge. by rewrite Hx, Hzy.
Qed.

Lemma sort_desc_sorted (l : list keyed) :
  Forall whole_key l -> StronglySorted key_ge (sort_desc l).
Proof.
  unfold sort_desc.
  enough (H : forall acc, Forall whole_key acc -> StronglySorted key_ge acc ->
                Forall whole_key l ->
                StronglySorted key_ge (fold_left (fun sorted x => insert_desc x sorted) l acc)).
  { apply H; constructor. }
  induction l as [|x l IH]; intros acc Hacc Hs Hl; simpl; [done|].
  apply Forall_cons in Hl as [Hx Hl]. apply IH; [|by apply insert_desc_sorted|done].
  rewrite insert_desc_perm. by constructor.
Qed.

(** X19.  In the data extracted for a dashboard every category occurs
    once; and when the summed amounts are whole numbers, the categories
    are listed by descending absolute amount. *)
Theorem categories_are_ranked (env : Env) (statements : list row) (data : extracted) :
  extract_data_from_statements env statements = Ok data ->
  NoDup (map (fun x => fst (fst x)) (categories_data data))
  /\ (Forall (fun x => is_whole (snd (fst x)) = true) (categories_data data) ->
      StronglySorted (fun x y => abs_ge (snd (fst x)) (snd (fst y)))
        (categories_data data)).
Proof.
  unfold extract_data_from_statements. intros H. bind_inv H. injection H as <-. simpl.
  apply sort_keys_spec in Ha as [Hmap Habs].
  pose proof (sort_desc_perm a) as Hperm. split.
  - rewrite map_map.
    assert (Hp : map (fun x => fst (fst (snd x))) (sort_desc a)
                 ≡ₚ map fst (category_totals (fold_left (add_statement env) statements
                                                 zero_aggregate))).
    { rewrite Hperm. rewrite <- (map_map snd (fun x => fst (fst x))), Hmap, map_map.
      done. }
    rewrite Hp. apply fold_add_statement_NoDup. simpl. constructor.
  - intros Hw.
    assert (Hk : Forall whole_key (sort_desc a)).
    { rewrite Forall_forall in Hw. rewrite Forall_forall in Habs. apply Forall_forall. intros x Hx.
      pose proof Hx as Hx'. rewrite Hperm in Hx'. specialize (Habs x Hx').
      specialize (Hw (snd x)). 
      assert (Hi : is_whole (snd (fst (snd x))) = true).
      { apply Hw. apply list_elem_of_fmap. by exists x. }
      destruct (snd (fst (snd x))) as [| |z| | | |] eqn:Ez; try done.
      exists z. split; [done|]. simpl in Habs. by injection Habs as <-. }
    assert (Hs := sort_desc_sorted a).
    assert (Hka : Forall whole_key a) by (by rewrite <- Hperm).
    specialize (Hs Hka). clear -Hs.
    induction Hs as [|x l Hs IH Hx]; simpl; constructor; [done|].
    apply Forall_map. eapply Forall_impl; [exact Hx|]. done.
Qed.

(** ** The totals *)

Lemma add_statement_whole (env : Env) (acc : aggregate) (statement : row)
    (i e n c : Z) :
  whole_summary statement ->
  total_income acc = JInt i -> total_expense acc = JInt e ->
  net_amount acc = JInt n -> total_transactions acc = JInt c ->
  let summary := snd (fst statement) in
  let acc' := add_statement env acc statement in
  total_income acc'
  = JInt (i + default 0 (whole_field "total_income" summary))
  /\ total_expense acc'
     = JInt (e + default 0 (whole_field "total_expense" summary))
  /\ net_amount acc'
     = JInt (n + default 0 (whole_field "net_amount" summary))
  /\ total_transactions acc'
     = JInt (c + default 0 (whole_field "transaction_count" summary)).
Proof.
  destruct statement as [[u summary] t]. unfold whole_summary. cbn [fst snd].
  intros [Hobj Hf] Hi He Hn Hc.
  destruct summary as [| | | | | |d]; try done.
  destruct (Hf "total_income") as (zi & Hzi); [cbn; tauto|].
  destruct (Hf "total_expense") as (ze & Hze); [cbn; tauto|].
  destruct (Hf "net_amount") as (zn & Hzn); [cbn; tauto|].
  destruct (Hf "transaction_count") as (zc & Hzc); [cbn; tauto|].
  rewrite Hzi, Hze, Hzn, Hzc. cbn [default].
  unfold add_statement.
  destruct (truthy (JDict d)) eqn:Et.
  2:{ destruct d; [|done]. rewrite Hi, He, Hn, Hc.
      cbv in Hzi, Hze, Hzn, Hzc.
      injection Hzi as <-. injection Hze as <-. injection Hzn as <-. injection Hzc as <-.
      by rewrite !Z.add_0_r. }
  unfold whole_field in Hzi, Hze, Hzn, Hzc.
  destruct (get (JDict d) "total_income" (JInt 0)) as [[| |vi| | | |]|]; try done.
  destruct (get (JDict d) "total_expense" (JInt 0)) as [[| |ve| | | |]|]; try done.
  destruct (get (JDict d) "net_amount" (JInt 0)) as [[| |vn| | | |]|]; try done.
  destruct (get (JDict d) "transaction_count" (JInt 0)) as [[| |vc| | | |]|]; try done.
  injection Hzi as ->. injection Hze as ->. injection Hzn as ->. injection Hzc as ->.
  cbn [bind total_income total_expense net_amount total_transactions category_totals].
  rewrite Hi, He, Hn, Hc.
  cbn [iadd as_number add_numbers total_income total_expense net_amount
       total_transactions category_totals].
  destruct (get (JDict d) "categories_amount" (JDict [])) as [[| | | | | |items]|];
    try done.
  match goal with |- context [add_categories items ?x] =>
    destruct (add_categories_totals items x) as (-> & -> & -> & ->) end.
  done.
Qed.

Lemma fold_add_statement_whole (env : Env) (statements : list row) (acc : aggregate)
    (i e n c : Z) :
  Forall whole_summary statements ->
  total_income acc = JInt i -> total_expense acc = JInt e ->
  net_amount acc = JInt n -> total_transactions acc = JInt c ->
  let acc' := fold_left (add_statement env) statements acc in
  total_income acc' = JInt (i + field_sum "total_income" statements)
  /\ total_expense acc' = JInt (e + field_sum "total_expense" statements)
  /\ net_amount acc' = JInt (n + field_sum "net_amount" statements)
  /\ total_transactions acc' = JInt (c + field_sum "transaction_count" statements).
Proof.
  intros H. revert acc i e n c.
  induction H as [|st sts Hst _ IH]; intros acc i e n c Hi He Hn Hc.
  { cbv zeta. cbn [fold_left field_sum fold_right]. by rewrite !Z.add_0_r. }
  destruct (add_statement_whole env acc st i e n c Hst Hi He Hn Hc)
    as (Hi' & He' & Hn' & Hc').
  cbv zeta in Hi', He', Hn', Hc'.
  pose proof (IH _ _ _ _ _ Hi' He' Hn' Hc') as IH'. cbv zeta in IH'.
  destruct IH' as (H1 & H2 & H3 & H4).
  cbv zeta. cbn [fold_left]. rewrite H1, H2, H3, H4. clear H1 H2 H3 H4.
  unfold field_sum. cbn [fold_right].
  destruct Hst as [_ Hf].
  destruct (Hf "total_income") as (zi & ->); [cbn; tauto|].
  destruct (Hf "total_expense") as (ze & ->); [cbn; tauto|].
  destruct (Hf "net_amount") as (zn & ->); [cbn; tauto|].
  destruct (Hf "transaction_count") as (zc & ->); [cbn; tauto|].
  cbn [default]. unfold id. repeat split; f_equal; lia.
Qed.

(** X20.  When every summary is an object whose four totals are whole
    numbers (an absent one counting as 0), the income, expense, net
    amount and transaction count extracted for the dashboard are the
    sums of these fields over the statements. *)
Theorem whole_totals_are_sums (env : Env) (statements : list row) (data : extracted) :
  Forall whole_summary statements ->
  extract_data_from_statements env statements = Ok data ->
  data_total_income data = JInt (field_sum "total_income" statements)
  /\ data_total_expense data = JInt (field_sum "total_expense" statements)
  /\ data_net_amount data = JInt (field_sum "net_amount" statements)
  /\ data_total_transactions data = JInt (field_sum "transaction_count" statements).
Proof.
  intros Hall. unfold extract_data_from_statements. intros H.
  apply bind_ok_inv in H as (keys & _ & H). injection H as <-. simpl.
  by destruct (fold_add_statement_whole env statements zero_aggregate 0 0 0 0 Hall)
    as (-> & -> & -> & ->).
Qed.

(** ** The charts *)

Lemma color_at_period (i : nat) : color_at (i + 10) = color_at i.
Proof.
  unfold color_at. change (length colors) with 10%nat.
  replace (i + 10)%nat with (i + 1 * 10)%nat by lia.
  by rewrite Nat.Div0.mod_add.
Qed.

(** X21.  The pie chart and the bar chart have one entry for each
    category, in the order of the extracted data, with the same counts
    and the same colours; the colour is that of the position, and
    repeats every ten positions; the pie amounts are the amounts
    converted to floats. *)
Theorem charts_show_the_same_categories
    (i : nat) (cats : list (str * json * json))
    (pie : list pie_entry) (bar : list bar_entry) :
  chart_data i cats = Ok (pie, bar) ->
  map pie_category pie = map (fun x => fst (fst x)) cats
  /\ map bar_category bar = map (fun x => fst (fst x)) cats
  /\ map pie_count pie = map snd cats
  /\ map bar_count bar = map snd cats
  /\ map pie_color pie = map color_at (seq i (length cats))
  /\ map bar_color bar = map color_at (seq i (length cats))
  /\ Forall2 (fun p x => py_float (snd (fst x)) = Ok (pie_amount p)) pie cats
  /\ forall k, color_at (k + 10) = color_at k.
Proof.
  intros H. split; [|split; [|split; [|split; [|split; [|split; [|split]]]]]];
    [..|apply color_at_period].
  all: revert i pie bar H; induction cats as [|[[c a] n] rest IH]; intros i pie bar;
    cbn [chart_data]; [by intros [= <- <-]|].
  all: intros H; apply bind_ok_inv in H as (f & Hf & H);
    apply bind_ok_inv in H as ([p b] & Hr & H); injection H as <- <-;
    specialize (IH _ _ _ Hr); simpl; try (by rewrite IH).
  by constructor.
Qed.

End FurtherAggregation.

Section FurtherHandler.
Import Visualize.

Lemma get_object_put_ne (k k' : str) (v : html) (s : bucket_store) :
  k <> k' -> get_object k (put k' v s) = get_object k s.
Proof.
  intros Hne. induction s as [|[k0 v0] s IH]; simpl.
  - by rewrite (proj2 (str_eqb_neq k k') Hne).
  - destruct (str_eqb k' k0) eqn:E; simpl.
    + apply str_eqb_eq in E as <-. by rewrite (proj2 (str_eqb_neq k k') Hne).
    + by rewrite IH.
Qed.

Lemma select_key_spec (db : database) (sid : Z) (uid key : str) :
  select_key db sid = Some (uid, key) ->
  exists st, In st (bank_statements db) /\ statement_id st = sid
             /\ user_id st = uid /\ s3_key st = key.
Proof.
  unfold select_key. destruct (List.find _ _) as [st|] eqn:E; [|done].
  intros [= <- <-]. apply List.find_some in E as [Hin Hid%Z.eqb_eq]. eauto.
Qed.

(** X22.  The handler of the dashboard lambda answers 200, 400, 404 or
    500 and changes the bucket only when it answers 200.  It then has
    rendered the document of a statement with the id of the event, and
    written it (when the upload succeeds) under the dashboard key of
    that statement's owner and source key, which starts with
    [dashboard/{owner}/]; every other object of the bucket is as it
    was. *)
Theorem dashboard_bucket_effects
    (env : Env) (db : database) (s3 : bucket_store) (ev : event) :
  let r := lambda_handler env db s3 ev in
  (statusCode (fst r) <> 200 -> snd r = s3)
  /\ (statusCode (fst r) = 200 ->
      exists sid st h,
        ev_statement_id ev = Some sid
        /\ In st (bank_statements db) /\ statement_id st = sid
        /\ create_dashboard_html env db sid = Ok h
        /\ let k := build_dashboard_key (user_id st) (s3_key st) in
           startswith k (("dashboard/" : str) ++ user_id st ++ ("/" : str)) = true
           /\ snd r = upload_dashboard_to_s3 env s3 k h
           /\ (put_object_fails env k = false -> get_object k (snd r) = Some h)
           /\ forall k', k' <> k -> get_object k' (snd r) = get_object k' s3)
  /\ In (statusCode (fst r)) [200; 400; 404; 500].
Proof.
  intros r. subst r. unfold lambda_handler, handle.
  destruct (match trigger_source ev with Some src => str_eqb src _ | None => false end);
    [|simpl; split; [done|]; split; [done|]; tauto].
  destruct (ev_statement_id ev) as [sid|] eqn:Esid;
    [|simpl; split; [done|]; split; [done|]; tauto].
  assert (Hmain :
    let r := match (let* dashboard_html := create_dashboard_html env db sid in
                    if db_fault env HandlerConnect || db_fault env HandlerQuery
                       || db_fault env HandlerClose
                    then Raise DatabaseError
                    else match select_key db sid with
                         | None => Ok ({| statusCode := 404;
                                          body := ErrorMessage "Statement not found" |}, s3)
                         | Some (user_id, s3_key) =>
                             let dashboard_s3_key := build_dashboard_key user_id s3_key in
                             let s3 := upload_dashboard_to_s3 env s3 dashboard_s3_key
                                         dashboard_html in
                             let dashboard_url :=
                               get_dashboard_url env (S3_BUCKET env) dashboard_s3_key in
                             Ok ({| statusCode := 200;
                                    body := Created "Dashboard created successfully"
                                              dashboard_url dashboard_s3_key user_id sid |},
                                 s3)
                         end) with
             | Ok r => r
             | Raise e => ({| statusCode := 500; body := ErrorRaised e |}, s3)
             end in
    (statusCode (fst r) <> 200 -> snd r = s3)
    /\ (statusCode (fst r) = 200 ->
        exists sid' st h,
          Some sid = Some sid'
          /\ In st (bank_statements db) /\ statement_id st = sid'
          /\ create_dashboard_html env db sid' = Ok h
          /\ let k := build_dashboard_key (user_id st) (s3_key st) in
             startswith k (("dashboard/" : str) ++ user_id st ++ ("/" : str)) = true
             /\ snd r = upload_dashboard_to_s3 env s3 k h
             /\ (put_object_fails env k = false -> get_object k (snd r) = Some h)
             /\ forall k', k' <> k -> get_object k' (snd r) = get_object k' s3)
    /\ In (statusCode (fst r)) [200; 400; 404; 500]).
  { destruct (create_dashboard_html env db sid) as [h|e] eqn:Eh; cbn [bind];
      [|simpl; split; [done|]; split; [done|]; tauto].
    destruct (_ || _); [simpl; split; [done|]; split; [done|]; tauto|].
    destruct (select_key db sid) as [[uid key]|] eqn:Ek;
      [|simpl; split; [done|]; split; [done|]; tauto].
    cbv zeta. cbn [fst snd statusCode]. split; [done|]. split; [|simpl; tauto].
    intros _. apply select_key_spec in Ek as (st & Hin & Hid & <- & <-).
    exists sid, st, h. do 4 (split; [done|]). cbv zeta. split; [|split; [done|split]].
    - unfold build_dashboard_key.
      set (base := if str_eqb (fst (splitext (basename (s3_key st)))) []
                   then "statement" : str else fst (splitext (basename (s3_key st)))).
      assert (E : ("dashboard/" : str) ++ user_id st ++ ("/" : str) ++ base
                    ++ (".html" : str)
                  = (("dashboard/" : str) ++ user_id st ++ ("/" : str))
                      ++ base ++ (".html" : str)) by app_eq.
      rewrite E. apply startswith_app.
    - intros Hput. unfold upload_dashboard_to_s3. rewrite Hput. apply get_object_put.
    - intros k' Hne. unfold upload_dashboard_to_s3.
      destruct (put_object_fails env _); [done|]. by apply get_object_put_ne. }
  destruct sid as [|p|p]; [simpl; split; [done|]; split; [done|]; tauto|exact Hmain..].
Qed.

End FurtherHandler.

Section EndToEnd.

Lemma upsert_statement_ids (env : Bankextract.Env) (uid key : str) (db : database) :
  NoDup (map statement_id (bank_statements db)) ->
  NoDup (map statement_id
           (bank_statements (fst (Bankextract.upsert_statement env uid key db)))).
Proof.
  intros Hnd. unfold Bankextract.upsert_statement.
  destruct (List.find _ (bank_statements db)) as [st|]; simpl.
  - rewrite map_map.
    replace (map (fun x => statement_id (Bankextract.reset_statement env key x))
               (bank_statements db))
      with (map statement_id (bank_statements db)); [done|].
    apply map_ext. intros x.
    by destruct (reset_statement_fields env key x) as (-> & _).
  - rewrite map_app. apply NoDup_app. split; [done|]. split; [|apply NoDup_singleton].
    intros x Hx ->%list_elem_of_singleton.
    apply list_elem_of_In, in_map_iff in Hx as (st & Hid & Hin).
    pose proof (next_statement_id_fresh db st Hin). simpl in *. lia.
Qed.

Lemma same_id_same_row (rows : list bank_statement) (a b : bank_statement) :
  NoDup (map statement_id rows) -> In a rows -> In b rows ->
  statement_id a = statement_id b -> a = b.
Proof.
  induction rows as [|x rows IH]; simpl; [done|].
  intros [Hx Hnd]%NoDup_cons [<-|Ha] [<-|Hb] Hid; try done.
  - exfalso. apply Hx. rewrite Hid. apply list_elem_of_In, in_map. done.
  - exfalso. apply Hx. rewrite <- Hid. apply list_elem_of_In, in_map. done.
  - by apply IH.
Qed.

(** X23.  The two lambdas fit together.  When a run of the extraction
    lambda triggers the dashboard lambda with a statement id, and
    keys and ids are distinct and ids positive, the row of the uploaded
    key has that id and is [COMPLETED] with a summary; and the
    dashboard lambda, given the payload of the trigger and a database
    that answers, responds 200 and uploads, under the dashboard key of
    the row's owner and the uploaded key, the dashboard of the
    statements loaded for that id, or the default document when its
    rendering raises. *)
Theorem a_processed_upload_gets_a_dashboard
    (benv : Bankextract.Env) (venv : Visualize.Env) (db : database)
    (s3 : Visualize.bucket_store) (bucket key : str) (sid : Z) :
  Bankextract.connect_fails benv = false ->
  NoDup (map s3_key (bank_statements db)) ->
  NoDup (map statement_id (bank_statements db)) ->
  Forall (fun st => 0 < statement_id st) (bank_statements db) ->
  (forall site, Visualize.db_fault venv site = false) ->
  let r := Bankextract.process_s3_upload benv db bucket key in
  Bankextract.triggered r = Some sid ->
  exists st statements,
    In st (bank_statements (Bankextract.final_db r))
    /\ s3_key st = key /\ statement_id st = sid /\ process_status st = COMPLETED
    /\ Visualize.all_statements (Bankextract.final_db r) sid = Some statements
    /\ let k := Visualize.build_dashboard_key (user_id st) key in
       let h := match Visualize.generate_dashboard_html venv statements with
                | Ok h => h
                | Raise _ => Visualize.generate_default_dashboard
                end in
       Visualize.lambda_handler venv (Bankextract.final_db r) s3 (trigger_event sid)
       = ({| Visualize.statusCode := 200;
             Visualize.body :=
               Visualize.Created "Dashboard created successfully"
                 (Visualize.get_dashboard_url venv (Visualize.S3_BUCKET venv) k)
                 k (user_id st) sid |},
          Visualize.upload_dashboard_to_s3 venv s3 k h).
Proof.
  intros Hc Hkeys Hids Hpos Hv r Htr.
  set (uid := Bankextract.resolve_user_id benv bucket key).
  destruct (upsert_statement_row benv uid key db Hkeys Hpos)
    as (Hsid & (st1 & Hst1 & Hk1) & Huniq).
  pose proof (upsert_statement_ids benv uid key db Hids) as Hids1.
  destruct (process_s3_upload_inv benv db bucket key)
    as [(_ & _ & Hn & _)|[(_ & _ & _ & Hn & _)|(_ & _ & _ & Ht & summary & rows & Hf & _)]];
    fold r in Hn || fold r in Ht, Hf; [congruence..|].
  fold uid in Ht, Hf.
  set (db1 := fst (Bankextract.upsert_statement benv uid key db)) in *.
  set (sid1 := snd (Bankextract.upsert_statement benv uid key db)) in *.
  assert (sid1 = sid) as Es.
  { rewrite Htr in Ht. destruct (Bankextract.lambda_invoke_fails benv); congruence. }
  set (g := fun x => Bankextract.set_status sid1 COMPLETED
                       (Bankextract.set_summary sid1 summary x)).
  assert (Hrows : bank_statements (Bankextract.final_db r) = map g (bank_statements db1)).
  { rewrite Hf. simpl. by rewrite map_map. }
  assert (Hg : forall x, statement_id (g x) = statement_id x
                         /\ user_id (g x) = user_id x /\ s3_key (g x) = s3_key x).
  { intros x. unfold g.
    destruct (set_status_fields sid1 COMPLETED (Bankextract.set_summary sid1 summary x))
      as (-> & -> & -> & _).
    by destruct (set_summary_fields sid1 summary x) as (-> & -> & -> & _). }
  assert (Hid1 : statement_id st1 = sid1) by (by apply Huniq).
  assert (Hgst : g st1
                 = {| statement_id := sid1; user_id := user_id st1; s3_key := key;
                      process_status := COMPLETED; created_at := created_at st1;
                      analysis_summary := Some summary |}).
  { unfold g, Bankextract.set_status, Bankextract.set_summary.
    rewrite Hid1, Z.eqb_refl. simpl. by rewrite Z.eqb_refl, Hk1. }
  assert (Hin : In (g st1) (bank_statements (Bankextract.final_db r))).
  { rewrite Hrows. by apply in_map. }
  assert (Honly : forall x, In x (bank_statements (Bankextract.final_db r)) ->
                            statement_id x = sid1 -> x = g st1).
  { intros x Hx Hid. rewrite Hrows in Hx. apply in_map_iff in Hx as (y & <- & Hy).
    f_equal. apply (same_id_same_row _ _ _ Hids1 Hy Hst1).
    destruct (Hg y) as (Hy1 & _). congruence. }
  assert (Hsel : Visualize.select_key (Bankextract.final_db r) sid1
                 = Some (user_id st1, key)).
  { unfold Visualize.select_key.
    destruct (List.find _ _) as [x|] eqn:E.
    - apply List.find_some in E as [Hx Hid%Z.eqb_eq].
      rewrite (Honly x Hx Hid), Hgst. done.
    - exfalso. apply (List.find_none _ _ E) in Hin. rewrite Hgst in Hin. simpl in Hin.
      by rewrite Z.eqb_refl in Hin. }
  assert (Hcur : Visualize.select_current (Bankextract.final_db r) sid1
                 = Some (user_id st1, summary, created_at st1)).
  { unfold Visualize.select_current.
    destruct (List.find _ _) as [x|] eqn:E.
    - apply List.find_some in E as [Hx [Hid%Z.eqb_eq _]%andb_true_iff].
      rewrite (Honly x Hx Hid), Hgst. done.
    - exfalso. apply (List.find_none _ _ E) in Hin. rewrite Hgst in Hin.
      cbn [statement_id analysis_summary] in Hin.
      rewrite Z.eqb_refl, bool_decide_eq_true_2 in Hin; done. }
  exists (g st1). eexists.
  split; [done|]. rewrite Hgst. cbn [s3_key statement_id process_status user_id].
  split; [done|]. split; [done|]. split; [done|].
  subst sid. unfold Visualize.all_statements. rewrite Hcur. split; [reflexivity|].
  cbv zeta. unfold Visualize.lambda_handler, Visualize.handle, trigger_event.
  cbn [Visualize.trigger_source Visualize.ev_statement_id].
  change (str_eqb ("bank_extract" : str) ("bank_extract" : str)) with true. cbv iota.
  unfold Visualize.create_dashboard_html, Visualize.create_dashboard_body.
  rewrite !Hv. cbn [negb andb orb]. rewrite Hcur. cbn [fst].
  destruct sid1 as [|p|p]; [done| |]; cbn [bind]; rewrite Hsel; reflexivity.
Qed.

End EndToEnd.

Section WebApplication.
Import Application.

Lemma find_last_split (c : ascii) (s : str) :
  find c s <> -1 -> exists a b, s = a ++ c :: b /\ find c b = -1.
Proof.
  induction s as [|x s IH]; [done|]. intros H.
  destruct (Z.eq_dec (find c s) (-1)) as [E|E].
  - destruct (Ascii.eqb_spec x c) as [->|Hne].
    + by exists [], s.
    + exfalso. apply H. by apply find_cons_absent.
  - destruct (IH E) as (a & b & -> & Hb). by exists (x :: a), b.
Qed.

Lemma py_lower_pdf (p d f : ascii) :
  [py_lower p; py_lower d; py_lower f] = ("pdf" : str) <->
  (p = "p"%char \/ p = "P"%char) /\ (d = "d"%char \/ d = "D"%char)
  /\ (f = "f"%char \/ f = "F"%char).
Proof.
  assert (H : forall c l : ascii, (l = "p" \/ l = "d" \/ l = "f")%char ->
            py_lower c = l <-> c = l \/ c = ascii_of_N (N_of_ascii l - 32)).
  { intros c l Hl.
    destruct c as [[] [] [] [] [] [] [] []]; destruct Hl as [-> | [-> | ->]];
      vm_compute;
      (split; [intros E; first [discriminate E|left; reflexivity|right; reflexivity]
              |intros [E|E]; first [discriminate E|reflexivity]]). }
  split.
  - intros [= Hp Hd Hf].
    apply (H p "p"%char) in Hp; [|tauto]. apply (H d "d"%char) in Hd; [|tauto].
    apply (H f "f"%char) in Hf; [|tauto]. done.
  - intros (Hp & Hd & Hf).
    apply (H p "p"%char) in Hp; [|tauto]. apply (H d "d"%char) in Hd; [|tauto].
    apply (H f "f"%char) in Hf; [|tauto]. by rewrite Hp, Hd, Hf.
Qed.

(** X24.  [is_allowed_file] accepts exactly the names that end with a
    dot followed by [pdf] in any mix of upper and lower case; the part
    before the dot may be empty. *)
Theorem only_pdf_names_are_accepted (filename : str) :
  is_allowed_file filename = true <->
  exists stem p d f,
    filename = stem ++ ("." : str) ++ [p; d; f]
    /\ (p = "p"%char \/ p = "P"%char) /\ (d = "d"%char \/ d = "D"%char)
    /\ (f = "f"%char \/ f = "F"%char).
Proof.
  unfold is_allowed_file. rewrite andb_true_iff, negb_true_iff, Z.eqb_neq, str_eqb_eq.
  split.
  - intros [Hdot Hext]. apply find_last_split in Hdot as (stem & ext & -> & Hno).
    rewrite (rfind_last "." stem ext Hno) in Hext.
    replace (stem ++ "."%char :: ext) with ((stem ++ ("." : str)) ++ ext) in Hext by app_eq.
    replace (len stem + 1) with (len (stem ++ ("." : str))) in Hext
      by (rewrite len_app; reflexivity).
    rewrite slice_from_app in Hext.
    destruct ext as [|p [|d [|f [|? ?]]]]; try done.
    exists stem, p, d, f. split; [done|]. by apply py_lower_pdf.
  - intros (stem & p & d & f & -> & Hp & Hd & Hf).
    assert (Hno : find "." [p; d; f] = -1).
    { destruct Hp as [->| ->], Hd as [->| ->], Hf as [->| ->]; reflexivity. }
    change (stem ++ ("." : str) ++ [p; d; f]) with (stem ++ "."%char :: [p; d; f]).
    split.
    + intros H. apply find_app_absent in H as [_ H]. by rewrite find_head in H.
    + rewrite (rfind_last "." stem _ Hno).
      replace (stem ++ "."%char :: [p; d; f]) with ((stem ++ ("." : str)) ++ [p; d; f])
        by app_eq.
      replace (len stem + 1) with (len (stem ++ ("." : str)))
        by (rewrite len_app; reflexivity).
      rewrite slice_from_app. by apply py_lower_pdf.
Qed.

(** X25.  The web application stores the uploader under the metadata
    key [user_id], and the extraction lambda looks for [user-id]: the
    metadata of an uploaded object never names the owner.  The key
    generated for the upload does: for a user id that is not empty and
    has no [/], the owner resolved from the key is the uploader. *)
Theorem an_upload_is_attributed_to_its_uploader
    (env : Bankextract.Env) (secure_filename : str -> str) (ts unique : str)
    (uid filename bucket : str) :
  let key := generate_statement_key secure_filename ts unique uid filename in
  Bankextract.head_object_user_id env bucket key
  = Ok (metadata_user_id (upload_metadata uid)) ->
  uid <> [] -> find "/" uid = -1 ->
  metadata_user_id (upload_metadata uid) = None
  /\ Bankextract.resolve_user_id env bucket key = uid.
Proof.
  intros key Hmeta Hne Hfind. split; [reflexivity|].
  apply (resolve_user_id_from_path env bucket key uid
           ((if str_eqb (fst (Visualize.splitext (secure_filename filename))) []
             then "statement" : str
             else fst (Visualize.splitext (secure_filename filename)))
            ++ ("-" : str) ++ ts ++ ("-" : str) ++ unique ++ (".pdf" : str)));
    try done.
  unfold no_owner_in_metadata. by rewrite Hmeta.
Qed.

End WebApplication.

(** ** Examples of the further properties *)

Section FurtherExtractionExamples.
Import Bankextract.

Lemma pdfplumber_reads_the_first_20_pages_witness :
  Exists (fun p => is_ok p = false) (take 20 three_pages)
  /\ extract_with_pdfplumber (pdf_env three_pages true) = []
  /\ extract_with_pdfplumber (pdf_env clean_pages true)
     = ("Opening balance 100" : str) ++ nl ++ ("Card payment -10" : str) ++ nl
       ++ ("Closing balance 90" : str).
Proof.
  split; [right; left; reflexivity|]. split.
  - apply (proj2 (pdfplumber_reads_the_first_20_pages (pdf_env three_pages true)
                    three_pages eq_refl eq_refl)).
    right; left; reflexivity.
  - rewrite (proj1 (pdfplumber_reads_the_first_20_pages (pdf_env clean_pages true)
                      clean_pages eq_refl eq_refl)); [reflexivity|].
    repeat constructor.
Defined.

Lemma pypdf_with_page_deletion_reads_every_other_page_witness :
  Forall (fun p => is_ok p = true) clean_pages
  /\ extract_with_pypdf (pdf_env clean_pages true)
     = ("Opening balance 100" : str) ++ nl ++ ("Closing balance 90" : str).
Proof.
  assert (H : Forall (fun p => is_ok p = true) clean_pages) by repeat constructor.
  split; [exact H|].
  rewrite (pypdf_with_page_deletion_reads_every_other_page (pdf_env clean_pages true)
             clean_pages eq_refl eq_refl eq_refl H).
  reflexivity.
Defined.

Lemma pypdf_without_page_deletion_skips_failing_pages_witness :
  extract_with_pypdf (pdf_env three_pages false)
  = ("Opening balance 100" : str) ++ nl ++ ("Closing balance 90" : str).
Proof.
  rewrite (pypdf_without_page_deletion_skips_failing_pages (pdf_env three_pages false)
             three_pages eq_refl eq_refl eq_refl).
  reflexivity.
Defined.

Lemma textract_joins_the_line_blocks_witness :
  extract_with_textract scanned_env "bank-statements" "statements/u1/scan.pdf"
  = ("Account summary 2024" : str).
Proof.
  rewrite (proj1 (textract_joins_the_line_blocks scanned_env "bank-statements"
                    "statements/u1/scan.pdf" _ eq_refl eq_refl)); [reflexivity|].
  repeat constructor; discriminate.
Defined.

Lemma prose_around_the_object_is_ignored_witness :
  find "{" ("Here is the result: " : str) = -1
  /\ find "}" (" Let me know." : str) = -1
  /\ parse_reply loads_empty_object "Here is the result: {} Let me know."
     = Ok (JDict []).
Proof.
  split; [reflexivity|]. split; [reflexivity|].
  exact (prose_around_the_object_is_ignored loads_empty_object
           "Here is the result: " [] " Let me know." eq_refl eq_refl).
Defined.

Lemma one_bounded_request_to_the_model_witness :
  10 <= len (strip ("Account summary 2024" : str))
  /\ exists sent,
       snd (banktract_from_text scanned_env "Account summary 2024")
       = [InvokeModel DEFAULT_MODEL_ID sent]
       /\ len sent <= 30016.
Proof.
  split; [by vm_compute|].
  destruct (one_bounded_request_to_the_model scanned_env "Account summary 2024")
    as (sent & H1 & H2 & _); [discriminate|by vm_compute|].
  exists sent. split; [exact H1|exact H2].
Defined.

Lemma saved_rows_belong_to_the_statement_witness :
  exists rows,
    transactions (committed (fst (save_analysis_to_database scanned_env
                                    (connect one_statement) 1 model_output "u1")))
    = rows
    /\ Z.of_nat (length rows) <= 2
    /\ Forall (fun row => t_statement_id row = 1 /\ t_user_id row = ("u1" : str)) rows.
Proof.
  destruct (saved_rows_belong_to_the_statement scanned_env (connect one_statement) 1
              model_output "u1"
              (fst (save_analysis_to_database scanned_env (connect one_statement) 1
                      model_output "u1")) 2)
    as (rows & H1 & H2 & H3 & _); [vm_compute; reflexivity|].
  exists rows. split; [exact H1|]. split; [exact H2|].
  eapply Forall_impl; [exact H3|]. intros row (Ha & Hb & _). by split.
Defined.

Lemma one_malformed_transaction_fails_the_save_witness :
  exists e,
    save_analysis_to_database scanned_env (connect one_statement) 1
      (JDict [("transactions" : str, JList [salary; JStr "n/a"])]) "u1"
    = (rollback (connect one_statement), Raise e).
Proof.
  apply (one_malformed_transaction_fails_the_save scanned_env (connect one_statement) 1
           [("transactions" : str, JList [salary; JStr "n/a"])]
           [salary; JStr "n/a"] "u1"); [reflexivity|].
  right; left; reflexivity.
Defined.

Lemma persisted_summary_keeps_the_other_fields_witness :
  exists persisted,
    map analysis_summary
      (bank_statements (committed (fst (save_analysis_to_database scanned_env
                                          (connect one_statement) 1 model_output "u1"))))
    = [Some (JDict persisted)]
    /\ lookup_key "total_income" persisted = Some (JInt 2500).
Proof.
  destruct (persisted_summary_keeps_the_other_fields scanned_env (connect one_statement)
              1 [("transactions" : str, JList [salary; oversized]);
                 ("analysis" : str, JDict [("total_income" : str, JInt 2500)])] "u1"
              (fst (save_analysis_to_database scanned_env (connect one_statement) 1
                      model_output "u1")) 2)
    as (summary & persisted & Hs & Hb & _ & _ & Hk); [vm_compute; reflexivity|].
  exists persisted. split.
  - rewrite Hb. reflexivity.
  - rewrite Hk by discriminate. simpl in Hs. by injection Hs as <-.
Defined.

Lemma collected_categories_are_distinct_witness :
  collect_categories [salary; oversized; salary] [] = Ok [JStr "salary"; JStr "food"]
  /\ ForallOrdPairs (fun a b => py_eq b a = false) [JStr "salary"; JStr "food"].
Proof.
  assert (H : collect_categories [salary; oversized; salary] []
              = Ok [JStr "salary"; JStr "food"]) by (vm_compute; reflexivity).
  split; [exact H|].
  exact (proj1 (collected_categories_are_distinct _ _ H)).
Defined.

Lemma final_status_follows_the_outcome_witness :
  outcome (process_s3_upload_with lost_at_completion scanned_env one_statement
             "bank-statements" "statements/u1/jan.pdf") = Raise DatabaseError
  /\ forall st,
       In st (bank_statements
                (final_db (process_s3_upload_with lost_at_completion scanned_env
                             one_statement "bank-statements"
                             "statements/u1/jan.pdf"))) ->
       s3_key st = ("statements/u1/jan.pdf" : str) ->
       process_status st = PROCESSING.
Proof.
  assert (Ho : outcome (process_s3_upload_with lost_at_completion scanned_env
                          one_statement "bank-statements" "statements/u1/jan.pdf")
               = Raise DatabaseError) by (vm_compute; reflexivity).
  split; [exact Ho|]. intros st Hin Hk.
  destruct (final_status_follows_the_outcome lost_at_completion scanned_env
              one_statement "bank-statements" "statements/u1/jan.pdf") as [_ H].
  - reflexivity.
  - reflexivity.
  - left; reflexivity.
  - reflexivity.
  - reflexivity.
  - apply NoDup_singleton.
  - repeat constructor.
  - destruct (H st Hin Hk) as (_ & _ & Hr).
    destruct (Hr DatabaseError Ho eq_refl) as (_ & Hp & _).
    apply Hp. left; reflexivity.
Defined.

End FurtherExtractionExamples.

Section HandlerExamples.
Import Bankextract.

Lemma handler_stops_at_the_first_failure_witness :
  lambda_handler (fun s => s) (fun _ _ => scanned_env) no_users
    (Records [{| eventSource := "aws:sns"; bucket_name := "bank-statements";
                 object_key := "statements/u1/a.pdf" |};
              {| eventSource := "aws:s3"; bucket_name := "bank-statements";
                 object_key := "statements/u1/b.pdf" |};
              {| eventSource := "aws:s3"; bucket_name := "bank-statements";
                 object_key := "statements/u1/c.pdf" |}])
  = ({| statusCode := 500; body := ProcessingFailed ValueError |}, no_users).
Proof.
  exact (handler_stops_at_the_first_failure (fun s => s) (fun _ _ => scanned_env)
           no_users no_users
           [{| eventSource := "aws:sns"; bucket_name := "bank-statements";
               object_key := "statements/u1/a.pdf" |}]
           [{| eventSource := "aws:s3"; bucket_name := "bank-statements";
               object_key := "statements/u1/c.pdf" |}]
           {| eventSource := "aws:s3"; bucket_name := "bank-statements";
              object_key := "statements/u1/b.pdf" |}
           ValueError eq_refl eq_refl eq_refl).
Defined.

End HandlerExamples.

Section FurtherAggregationExamples.
Import Visualize.

Lemma categories_are_ranked_witness :
  exists data,
    extract_data_from_statements plain_env two_summaries = Ok data
    /\ map (fun x => fst (fst x)) (categories_data data)
       = [("salary" : str); ("food" : str); ("rent" : str)]
    /\ StronglySorted (fun x y => abs_ge (snd (fst x)) (snd (fst y)))
         (categories_data data).
Proof.
  destruct (extract_data_from_statements plain_env two_summaries) as [data|e] eqn:E;
    [|vm_compute in E; discriminate E].
  exists data. split; [reflexivity|].
  assert (Hd : categories_data data
               = [("salary" : str, JInt 100, JInt 1); ("food" : str, JInt (-65), JInt 3);
                  ("rent" : str, JInt (-50), JInt 1)]).
  { vm_compute in E. by injection E as <-. }
  split; [by rewrite Hd|].
  apply (proj2 (categories_are_ranked plain_env two_summaries data E)).
  rewrite Hd. repeat constructor.
Defined.

Lemma whole_totals_are_sums_witness :
  Forall whole_summary two_summaries
  /\ exists data,
       extract_data_from_statements plain_env two_summaries = Ok data
       /\ data_total_income data = JInt 100
       /\ data_total_expense data = JInt (-115)
       /\ data_total_transactions data = JInt 3.
Proof.
  assert (H : Forall whole_summary two_summaries).
  { repeat constructor; intros k [<-|[<-|[<-|[<-|[]]]]]; eexists; reflexivity. }
  split; [exact H|].
  destruct (extract_data_from_statements plain_env two_summaries) as [data|e] eqn:E;
    [|vm_compute in E; discriminate E].
  exists data. split; [reflexivity|].
  destruct (whole_totals_are_sums plain_env two_summaries data H E)
    as (H1 & H2 & _ & H4).
  rewrite H1, H2, H4. repeat split.
Defined.

Lemma charts_show_the_same_categories_witness :
  exists pie bar,
    chart_data 0 [("salary" : str, JInt 100, JInt 1); ("food" : str, JInt (-65), JInt 3)]
    = Ok (pie, bar)
    /\ map pie_category pie = [("salary" : str); ("food" : str)]
    /\ map bar_color bar = [("#FF6384" : str); ("#36A2EB" : str)].
Proof.
  destruct (chart_data 0 [("salary" : str, JInt 100, JInt 1);
                          ("food" : str, JInt (-65), JInt 3)])
    as [[pie bar]|e] eqn:E; [|vm_compute in E; discriminate E].
  exists pie, bar. split; [reflexivity|].
  destruct (charts_show_the_same_categories 0 _ pie bar E)
    as (H1 & _ & _ & _ & _ & H6 & _).
  split; [exact H1|exact H6].
Defined.

End FurtherAggregationExamples.

Section EndToEndExamples.

Lemma a_processed_upload_gets_a_dashboard_witness :
  Bankextract.triggered
    (Bankextract.process_s3_upload scanned_env one_user "bank-statements"
       "statements/u1/scan.pdf") = Some 1
  /\ Visualize.statusCode
       (fst (Visualize.lambda_handler plain_env
               (Bankextract.final_db
                  (Bankextract.process_s3_upload scanned_env one_user "bank-statements"
                     "statements/u1/scan.pdf"))
               [] (trigger_event 1))) = 200.
Proof.
  assert (Ht : Bankextract.triggered
                 (Bankextract.process_s3_upload scanned_env one_user "bank-statements"
                    "statements/u1/scan.pdf") = Some 1) by (vm_compute; reflexivity).
  split; [exact Ht|].
  destruct (a_processed_upload_gets_a_dashboard scanned_env plain_env one_user []
              "bank-statements" "statements/u1/scan.pdf" 1 eq_refl
              (NoDup_nil_2 : NoDup (map s3_key (bank_statements one_user)))
              (NoDup_nil_2 : NoDup (map statement_id (bank_statements one_user)))
              (Forall_nil_2 _) (fun site => eq_refl) Ht)
    as (st & statements & _ & _ & _ & _ & _ & H).
  cbv zeta in H. by rewrite H.
Defined.

Lemma an_upload_is_attributed_to_its_uploader_witness :
  Bankextract.resolve_user_id (without_metadata scanned_env) "bank-statements"
    (Application.generate_statement_key (fun s => s) "20250917191200" "0a1b2c3d"
       "u1" "jan.pdf")
  = ("u1" : str)
  /\ Application.generate_statement_key (fun s => s) "20250917191200" "0a1b2c3d"
       "u1" "jan.pdf"
     = ("statements/u1/jan-20250917191200-0a1b2c3d.pdf" : str).
Proof.
  split; [|reflexivity].
  apply (an_upload_is_attributed_to_its_uploader (without_metadata scanned_env)
           (fun s => s) "20250917191200" "0a1b2c3d" "u1" "jan.pdf" "bank-statements");
    [reflexivity|discriminate|reflexivity].
Defined.

End EndToEndExamples.
